(** * Olist dashboard: the table transforms and their chart wrappers

    A shallow embedding of the pandas pipelines of
    [analysis/orders_analysis.py], [analysis/revenue_analysis.py] and of the
    derived-column and concentration code of the report pages.

    Numbers that pandas holds as float64 are exact rationals here, timestamps
    and timedeltas are integer nanosecond counts, and a missing value (NaN,
    NaT, None) is the cell [NA].

    Rounding is therefore not modelled: a sum, a mean or a quotient below is
    the exact one.  What is proved of counts, of orders, of keys, of raised
    exceptions and of the sign of a result does not depend on it; an equality
    between two sums that add the same numbers in different orders does,
    and is stated as one of exact arithmetic. *)

From Stdlib Require Import String Ascii ZArith QArith Qround Lia Lqa Bool Arith List
  DecimalString Permutation Sorted.
Import ListNotations.

Set Implicit Arguments.

(** ** The fragment of pandas and numpy the code relies on *)

Module Pandas.

Inductive cell : Type :=
| NA                      (* NaN / NaT / None *)
| Num (x : Q)             (* a finite float64 or an int64 *)
| Inf (negative : bool)   (* +inf / -inf *)
| Str (s : string)
| Td (ns : Z)             (* timedelta64[ns] *)
| Dt (ns : Z)             (* datetime64[ns] *)
| Bool (b : bool).

Inductive dtype : Type :=
| float64 | object | timedelta64 | datetime64 | category | boolean.

Record Series : Type := mkSeries { dtype_of : dtype; values : list cell }.

(** A frame is its row count (the length of the index) and its columns in
    order.  [pd.DataFrame()] has neither rows nor columns. *)
Record DataFrame : Type :=
  mkDataFrame { index_len : nat; columns : list (string * Series) }.

Inductive exn : Type :=
| KeyError (key : string)
| ValueError (msg : string)
| TypeError
| AttributeError
| ZeroDivisionError
| IndexError
| OtherError (class : string).

Inductive result (A : Type) : Type :=
| Ok (a : A)
| Raise (e : exn).
Arguments Ok {A} a.
Arguments Raise {A} e.

Definition bind {A B} (r : result A) (k : A -> result B) : result B :=
  match r with
  | Ok a => k a
  | Raise e => Raise e
  end.

Declare Scope result_scope.
Delimit Scope result_scope with result.
Notation "x <- r ;; k" := (bind r (fun x => k))
  (at level 61, r at next level, right associativity) : result_scope.

Definition empty_frame : DataFrame := mkDataFrame 0 [].

(** [df.empty]: some axis has length zero. *)
Definition empty (df : DataFrame) : bool :=
  (index_len df =? 0)%nat || (length (columns df) =? 0)%nat.

Fixpoint lookup (name : string) (cols : list (string * Series)) : option Series :=
  match cols with
  | [] => None
  | (n, s) :: rest => if String.eqb n name then Some s else lookup name rest
  end.

(** ['name' in df.columns] *)
Definition has_column (name : string) (df : DataFrame) : bool :=
  match lookup name (columns df) with Some _ => true | None => false end.

(** [df['name']] *)
Definition getitem (df : DataFrame) (name : string) : result Series :=
  match lookup name (columns df) with
  | Some s => Ok s
  | None => Raise (KeyError name)
  end.

Fixpoint assign (name : string) (s : Series) (cols : list (string * Series))
  : list (string * Series) :=
  match cols with
  | [] => [(name, s)]
  | (n, s0) :: rest =>
      if String.eqb n name then (n, s) :: rest else (n, s0) :: assign name s rest
  end.

(** [df['name'] = s]: overwrite in place, or append as the last column. *)
Definition setitem (df : DataFrame) (name : string) (s : Series) : DataFrame :=
  mkDataFrame (index_len df) (assign name s (columns df)).

(** [df['name'] = scalar] *)
Definition broadcast (df : DataFrame) (d : dtype) (c : cell) : Series :=
  mkSeries d (repeat c (index_len df)).

Definition isna (c : cell) : bool :=
  match c with NA => true | _ => false end.

Definition fillna (v : cell) (s : Series) : Series :=
  mkSeries (dtype_of s) (map (fun c => if isna c then v else c) (values s)).

Fixpoint select {A} (mask : list bool) (l : list A) : list A :=
  match mask, l with
  | true :: m, x :: r => x :: select m r
  | false :: m, _ :: r => select m r
  | _, _ => []
  end.

Definition count_true (mask : list bool) : nat :=
  length (filter (fun b => b) mask).

(** [df.loc[mask]] / [df[mask]]: a new frame with the selected rows. *)
Definition loc (df : DataFrame) (mask : list bool) : DataFrame :=
  mkDataFrame (count_true (firstn (index_len df) mask))
    (map (fun '(n, s) => (n, mkSeries (dtype_of s) (select mask (values s))))
         (columns df)).

Definition map2 {A B C} (f : A -> B -> C) (l : list A) (r : list B) : list C :=
  map (fun '(a, b) => f a b) (combine l r).

(** [a - b] on two columns: pandas picks the operation by dtype and raises
    TypeError for operands it cannot subtract. *)
Definition sub_cell (a b : cell) : cell :=
  match a, b with
  | Dt x, Dt y => Td (x - y)
  | Td x, Td y => Td (x - y)
  | Dt x, Td y => Dt (x - y)
  | Num x, Num y => Num (x - y)
  | _, _ => NA
  end.

Definition sub (a b : Series) : result Series :=
  match dtype_of a, dtype_of b with
  | datetime64, datetime64 | timedelta64, timedelta64 =>
      Ok (mkSeries timedelta64 (map2 sub_cell (values a) (values b)))
  | datetime64, timedelta64 =>
      Ok (mkSeries datetime64 (map2 sub_cell (values a) (values b)))
  | float64, float64 =>
      Ok (mkSeries float64 (map2 sub_cell (values a) (values b)))
  | _, _ => Raise TypeError
  end.

(** [a / b]: a ratio of timedeltas (or of floats) is a float; a zero divisor
    gives NaN or an infinity, as numpy does. *)
Definition div_cell (a b : cell) : cell :=
  match a, b with
  | Td x, Td y =>
      if (y =? 0)%Z then
        if (x =? 0)%Z then NA else Inf (x <? 0)%Z
      else Num (inject_Z x / inject_Z y)
  | Num x, Num y =>
      if Qeq_bool y 0 then
        if Qeq_bool x 0 then NA else Inf (negb (Qle_bool 0 x))
      else Num (x / y)
  | _, _ => NA
  end.

Definition div (a b : Series) : result Series :=
  match dtype_of a, dtype_of b with
  | timedelta64, timedelta64 | float64, float64 =>
      Ok (mkSeries float64 (map2 div_cell (values a) (values b)))
  | _, _ => Raise TypeError
  end.

(** [s * k] on a float column. *)
Definition scale (k : Q) (s : Series) : Series :=
  mkSeries float64
    (map (fun c => match c with
                   | Num x => Num (x * k)
                   | Inf n => Inf n
                   | _ => NA
                   end) (values s)).

(** Comparison of a timedelta column with [pd.Timedelta(0)]; NaT compares
    false both ways. *)
Definition lt_zero (c : cell) : bool :=
  match c with Td ns => (ns <? 0)%Z | _ => false end.
Definition gt_zero (c : cell) : bool :=
  match c with Td ns => (0 <? ns)%Z | _ => false end.
Definition eq_zero (c : cell) : bool :=
  match c with Td ns => (ns =? 0)%Z | _ => false end.

Definition eq_str (v : string) (c : cell) : bool :=
  match c with Str s => String.eqb s v | _ => false end.

(** A float turned into a count of nanoseconds is truncated toward zero. *)
Definition truncate (x : Q) : Z :=
  if Qle_bool 0 x then Qfloor x else Qceiling x.

Definition ns_per_day : Z := 24 * 3600 * 1000000000.

(** [s.dt.total_seconds() / (24 * 3600)] on one cell. *)
Definition days_of_cell (c : cell) : cell :=
  match c with
  | Td ns => Num (inject_Z ns / inject_Z ns_per_day)%Q
  | _ => NA
  end.

Definition is_timedelta64_dtype (s : Series) : bool :=
  match dtype_of s with timedelta64 => true | _ => false end.

Definition is_numeric_dtype (s : Series) : bool :=
  match dtype_of s with float64 => true | _ => false end.

Definition is_td_or_na (c : cell) : bool :=
  match c with Td _ | NA => true | _ => false end.

(** [s < pd.Timedelta(0)] and its siblings: element-wise on a timedelta
    column; on any other column the comparison raises TypeError unless every
    cell happens to be a Timedelta. *)
Definition compare_zero (test : cell -> bool) (s : Series) : result (list bool) :=
  match dtype_of s with
  | timedelta64 => Ok (map test (values s))
  | _ =>
      if forallb is_td_or_na (values s) && negb (existsb isna (values s))
      then Ok (map test (values s))
      else Raise TypeError
  end.

(** [df.dropna(subset=names)] *)
Fixpoint notna_mask (n : nat) (cols : list Series) : list bool :=
  match cols with
  | [] => repeat true n
  | s :: rest =>
      map2 andb (map (fun c => negb (isna c)) (values s)) (notna_mask n rest)
  end.

Fixpoint getitems (df : DataFrame) (names : list string) : result (list Series) :=
  match names with
  | [] => Ok []
  | n :: rest =>
      match getitem df n with
      | Ok s =>
          match getitems df rest with
          | Ok l => Ok (s :: l)
          | Raise e => Raise e
          end
      | Raise e => Raise e
      end
  end.

Definition dropna (subset : list string) (df : DataFrame) : result DataFrame :=
  match getitems df subset with
  | Ok cols => Ok (loc df (notna_mask (index_len df) cols))
  | Raise e => Raise e
  end.

(** Floats of a column, missing values skipped (what [sum], [mean], [min]
    and [median] see). *)
Fixpoint floats (l : list cell) : list Q :=
  match l with
  | [] => []
  | Num x :: r => x :: floats r
  | _ :: r => floats r
  end.

Definition Qsum (l : list Q) : Q := fold_right Qplus 0 l.

(** [s.mean()]: NaN on an empty selection; otherwise the exact mean. *)
Definition mean (l : list Q) : cell :=
  match l with
  | [] => NA
  | _ => Num (Qsum l / inject_Z (Z.of_nat (length l)))
  end.

Fixpoint insert_by {A} (leb : A -> A -> bool) (x : A) (l : list A) : list A :=
  match l with
  | [] => [x]
  | y :: r => if leb x y then x :: y :: r else y :: insert_by leb x r
  end.

(** A stable sort; [leb] fixes the direction. *)
Definition sort_by {A} (leb : A -> A -> bool) (l : list A) : list A :=
  fold_right (insert_by leb) [] l.

Definition cell_min (l : list Q) : cell :=
  match sort_by Qle_bool l with
  | [] => NA
  | x :: _ => Num x
  end.

Definition median (l : list Q) : cell :=
  let s := sort_by Qle_bool l in
  let n := length s in
  match n with
  | O => NA
  | _ =>
      if Nat.even n
      then Num ((nth (n / 2 - 1) s 0 + nth (n / 2) s 0) / 2)
      else Num (nth (n / 2) s 0)
  end.

Local Open Scope Q_scope.

Fixpoint cumsum_from (acc : Q) (l : list Q) : list Q :=
  match l with
  | [] => []
  | x :: r => (acc + x) :: cumsum_from (acc + x) r
  end.

Definition cumsum (l : list Q) : list Q := cumsum_from 0 l.

Definition Qnat (n : nat) : Q := inject_Z (Z.of_nat n).

(** [np.linspace(start, stop, num)] *)
Definition linspace (start stop : Q) (num : nat) : list Q :=
  match num with
  | O => []
  | S O => [start]
  | _ =>
      let step := (stop - start) / Qnat (num - 1) in
      map (fun i => start + Qnat i * step) (seq 0 num)
  end.

(** [np.trapezoid(y, dx=1)] *)
Fixpoint trapezoid (y : list Q) : Q :=
  match y with
  | a :: r =>
      match r with
      | b :: _ => (a + b) / 2 + trapezoid r
      | [] => 0
      end
  | [] => 0
  end.

Local Close Scope Q_scope.

Definition cell_eqb (a b : cell) : bool :=
  match a, b with
  | NA, NA => true
  | Num x, Num y => Qeq_bool x y
  | Inf x, Inf y => Bool.eqb x y
  | Str x, Str y => String.eqb x y
  | Td x, Td y | Dt x, Dt y => (x =? y)%Z
  | Bool x, Bool y => Bool.eqb x y
  | _, _ => false
  end.

Fixpoint distinct (l : list cell) : list cell :=
  match l with
  | [] => []
  | c :: r => if existsb (cell_eqb c) r then distinct r else c :: distinct r
  end.

(** [s.nunique()]: missing values do not count. *)
Definition nunique (l : list cell) : nat :=
  length (distinct (filter (fun c => negb (isna c)) l)).

Fixpoint strings (l : list cell) : list string :=
  match l with
  | [] => []
  | Str s :: r => s :: strings r
  | _ :: r => strings r
  end.

Fixpoint increasing (bins : list Q) : bool :=
  match bins with
  | a :: r =>
      match r with
      | b :: _ => negb (Qle_bool b a) && increasing r
      | [] => true
      end
  | [] => true
  end.

(** [bins.searchsorted(x, side='left')] on increasing [bins]. *)
Definition searchsorted_left (bins : list Q) (x : Q) : nat :=
  length (filter (fun b => negb (Qle_bool x b)) bins).

(** One value through [pd.cut(..., include_lowest=True)]: the intervals are
    closed on the right, the first one also on the left; a value outside
    every interval, like a missing one, gets no label. *)
Definition cut_cell (bins : list Q) (labels : list string) (c : cell) : cell :=
  match c with
  | Num x =>
      let ids :=
        match bins with
        | b0 :: _ => if Qeq_bool x b0 then 1%nat else searchsorted_left bins x
        | [] => searchsorted_left bins x
        end in
      if (ids =? 0)%nat || (ids =? length bins)%nat then NA
      else match nth_error labels (ids - 1) with
           | Some l => Str l
           | None => NA
           end
  | _ => NA
  end.

Definition unique_strings (l : list string) : bool :=
  (length (nodup string_dec l) =? length l)%nat.

(** [pd.cut(s, bins=bins, labels=labels, include_lowest=True)] *)
Definition cut (s : Series) (bins : list Q) (labels : list string) : result Series :=
  if negb (increasing bins) then Raise (ValueError "bins must increase monotonically.")
  else if negb (unique_strings labels)
       then Raise (ValueError "labels must be unique if ordered=True")
  else match dtype_of s with
       | float64 => Ok (mkSeries category (map (cut_cell bins labels) (values s)))
       | _ => Raise TypeError
       end.

(** A key of a crosstab axis, a category or NaN, against a cell. *)
Definition key_is (k c : cell) : bool :=
  match k with
  | Str l => eq_str l c
  | NA => isna c
  | _ => false
  end.

(** An axis of [pd.crosstab(..., dropna=False)] over a categorical column:
    every category in category order, observed or not, and NaN after them
    when the column has a missing value. *)
Definition axis (labels : list string) (l : list cell) : list cell :=
  (map Str labels ++ (if existsb isna l then [NA] else []))%list.

Record CrossTable : Type := mkCrossTable {
  ct_index : list cell;
  ct_columns : list cell;
  ct_values : list (list nat)
}.

(** [pd.crosstab(a, b, dropna=False)] of two categorical columns of one
    frame: each cell is the number of positions carrying that pair of keys,
    so that a position without a label is counted in the NaN row or the NaN
    column. *)
Definition crosstab (row_labels col_labels : list string) (a b : list cell)
  : CrossTable :=
  let index := axis row_labels (map fst (combine a b)) in
  let cols := axis col_labels (map snd (combine a b)) in
  mkCrossTable index cols
    (map (fun r =>
            map (fun c =>
                   count_true (map2 (fun x y => key_is r x && key_is c y) a b))
                cols)
         index).

(** [t.sort_index(ascending=False)] on a table whose index is in category
    order: the categories from last to first, NaN staying last. *)
Definition sort_index_descending (t : CrossTable) : CrossTable :=
  let rows := combine (ct_index t) (ct_values t) in
  let sorted :=
    (rev (filter (fun r => negb (isna (fst r))) rows)
     ++ filter (fun r => isna (fst r)) rows)%list in
  mkCrossTable (map fst sorted) (ct_columns t) (map snd sorted).

Definition string_of_Z (z : Z) : string :=
  DecimalString.NilZero.string_of_int (Z.to_int z).

End Pandas.

(** ** Derived columns of the report pages
    ([pages/7 Delay_Analysis.py], [pages/9 Delivery_Performance.py]) *)

Module Pages.
Import Pandas.
Local Open Scope string_scope.
Local Open Scope result_scope.

Section WithParser.

(** pandas' own date parser, for cells that arrive as strings. *)
Variable parse_datetime : string -> option Z.

(** [pd.to_datetime(s, errors='coerce')] *)
Definition to_datetime_coerce (s : Series) : Series :=
  mkSeries datetime64
    (map (fun c => match c with
                   | Dt t => Dt t
                   | Str x => match parse_datetime x with
                              | Some t => Dt t
                              | None => NA
                              end
                   | Num x => Dt (truncate x)
                   | _ => NA
                   end) (values s)).

(** The loop over [datetime_cols]: a column that is present and of dtype
    object is parsed, every other one is left alone. *)
Definition convert_datetime_cols (cols : list string) (df : DataFrame) : DataFrame :=
  fold_left
    (fun d col =>
       match lookup col (columns d) with
       | Some s =>
           match dtype_of s with
           | object => setitem d col (to_datetime_coerce s)
           | _ => d
           end
       | None => d
       end) cols df.

(** [lambda x: 'Delivered' if x == 'delivered' else 'Not_Delivered'] *)
Definition net_state_of (x : cell) : cell :=
  if eq_str "delivered" x then Str "Delivered" else Str "Not_Delivered".

(** The column is derived from [order_status] when the frame has one, and
    is the constant 'Delivered' otherwise. *)
Definition add_net_state (df : DataFrame) : DataFrame :=
  match lookup "order_status" (columns df) with
  | Some s => setitem df "Net_State" (mkSeries object (map net_state_of (values s)))
  | None => setitem df "Net_State" (broadcast df object (Str "Delivered"))
  end.

(** [((a - b) / Real_Time * 100).fillna(0)] *)
Definition real_pct (a b real : Series) : result Series :=
  d <- sub a b ;;
  q <- div d real ;;
  Ok (fillna (Num 0) (scale 100 q)).

Record delay_stats : Type := mkDelayStats {
  total_delayed : nat;
  avg_delay_days : cell;
  median_delay_days : cell;
  max_delay_days : cell;
  delayed_delivered : nat;
  delayed_not_delivered : nat
}.

Record delay_analysis : Type := mkDelayAnalysis {
  delay_data : DataFrame;
  delay_data_clean : DataFrame;
  delayed_orders : DataFrame;
  stats : delay_stats
}.

Definition count_state (v : string) (df : DataFrame) : nat :=
  match lookup "Net_State" (columns df) with
  | Some s => count_true (map (eq_str v) (values s))
  | None => 0
  end.

Definition get_delay_analysis (orders_data : DataFrame) : result delay_analysis :=
  let delay_data :=
    convert_datetime_cols
      ["order_purchase_timestamp"; "order_approved_at";
       "order_delivered_carrier_date"; "order_delivered_customer_date";
       "order_estimated_delivery_date"] orders_data in
  est <- getitem delay_data "order_estimated_delivery_date" ;;
  del <- getitem delay_data "order_delivered_customer_date" ;;
  delay <- sub est del ;;
  let delay_data := setitem delay_data "Delay" delay in
  pur <- getitem delay_data "order_purchase_timestamp" ;;
  real <- sub del pur ;;
  let delay_data := setitem delay_data "Real_Time" real in
  appr <- getitem delay_data "order_approved_at" ;;
  site <- real_pct appr pur real ;;
  let delay_data := setitem delay_data "Site_Real_PCT" site in
  carr <- getitem delay_data "order_delivered_carrier_date" ;;
  seller <- real_pct carr appr real ;;
  let delay_data := setitem delay_data "Seller_Real_PCT" seller in
  shipping <- real_pct del carr real ;;
  let delay_data := setitem delay_data "Shipping_Real_PCT" shipping in
  let delay_data := add_net_state delay_data in
  clean <- dropna ["Delay"; "Site_Real_PCT"; "Seller_Real_PCT"; "Shipping_Real_PCT"]
             delay_data ;;
  clean_delay <- getitem clean "Delay" ;;
  late <- compare_zero lt_zero clean_delay ;;
  let delayed := loc clean late in
  if (0 <? index_len delayed)%nat then
    d <- getitem delayed "Delay" ;;
    let days := mkSeries float64 (map days_of_cell (values d)) in
    let delayed := setitem delayed "delay_days" days in
    Ok (mkDelayAnalysis delay_data clean delayed
          (mkDelayStats (index_len delayed)
             (mean (floats (values days)))
             (median (floats (values days)))
             (cell_min (floats (values days)))
             (count_state "Delivered" delayed)
             (count_state "Not_Delivered" delayed)))
  else
    Ok (mkDelayAnalysis delay_data clean delayed
          (mkDelayStats 0 (Num 0) (Num 0) (Num 0) 0 0)).

Record performance_metrics : Type := mkPerformanceMetrics {
  pm_total_orders : nat;
  pm_total_delivered : nat;
  pm_total_not_delivered : nat;
  pm_on_time_delivered : nat;
  pm_early_delivered : nat;
  pm_delayed_delivered : nat
}.

Record performance_analysis : Type := mkPerformanceAnalysis {
  perf_data : DataFrame;
  delivered_orders : DataFrame;
  not_delivered_orders : DataFrame;
  metrics : performance_metrics
}.

Definition bools (l : list bool) : Series := mkSeries boolean (map Bool l).

(** The part of [get_delivery_performance_analysis] that derives the columns
    and the counts; the rates and SLA tiers are ratios of these counts. *)
Definition get_delivery_performance_analysis (orders_data : DataFrame)
  : result performance_analysis :=
  let perf_data :=
    convert_datetime_cols
      ["order_purchase_timestamp"; "order_delivered_customer_date";
       "order_estimated_delivery_date"] orders_data in
  est <- getitem perf_data "order_estimated_delivery_date" ;;
  del <- getitem perf_data "order_delivered_customer_date" ;;
  delay <- sub est del ;;
  let perf_data := setitem perf_data "Delay" delay in
  let perf_data := add_net_state perf_data in
  state <- getitem perf_data "Net_State" ;;
  let delivered := loc perf_data (map (eq_str "Delivered") (values state)) in
  let not_delivered := loc perf_data (map (eq_str "Not_Delivered") (values state)) in
  if (0 <? index_len delivered)%nat then
    d <- getitem delivered "Delay" ;;
    is_delayed <- compare_zero lt_zero d ;;
    let delivered := setitem delivered "is_delayed" (bools is_delayed) in
    is_early <- compare_zero gt_zero d ;;
    let delivered := setitem delivered "is_early" (bools is_early) in
    let is_on_time := map eq_zero (values d) in
    let delivered := setitem delivered "is_on_time" (bools is_on_time) in
    let delivered :=
      setitem delivered "delay_days" (mkSeries float64 (map days_of_cell (values d))) in
    Ok (mkPerformanceAnalysis perf_data delivered not_delivered
          (mkPerformanceMetrics (index_len perf_data) (index_len delivered)
             (index_len not_delivered) (count_true is_on_time)
             (count_true is_early) (count_true is_delayed)))
  else
    Ok (mkPerformanceAnalysis perf_data delivered not_delivered
          (mkPerformanceMetrics (index_len perf_data) 0 (index_len not_delivered)
             0 0 0)).

End WithParser.

End Pages.

(** ** Lorenz curves and the Gini coefficient
    ([pages/4 Vendor_Analysis.py], [pages/8 Geographic_Analysis.py]) *)

Module Concentration.
Import Pandas.
Local Open Scope Q_scope.

Definition Qlt_bool (a b : Q) : bool := negb (Qle_bool b a).

(** [sort_values(ascending=False)] *)
Definition sort_descending (l : list Q) : list Q :=
  sort_by (fun a b => Qle_bool b a) l.

(** The three lines shared by both charts:
    [perfect_equality = np.linspace(0, 100, len(...))],
    [lorenz_area], [perfect_area] and the guarded ratio. *)
Definition gini_of_curve (cumulative_pct : list Q) : Q :=
  let perfect_equality := linspace 0 100 (length cumulative_pct) in
  let lorenz_area := trapezoid cumulative_pct in
  let perfect_area := trapezoid perfect_equality in
  if Qlt_bool 0 perfect_area
  then (perfect_area - lorenz_area) / perfect_area
  else 0.

(** [create_vendor_concentration_chart]: the second component of its result.
    [None] stands for the non-finite float the code gets when the totals sum
    to zero (a division by zero inside [cumulative_pct]). *)
Definition create_vendor_concentration_chart (totals : list Q) : option Q :=
  let sorted_vendors := sort_descending totals in
  let total := Qsum sorted_vendors in
  if Qeq_bool total 0 && (2 <=? length totals)%nat then None
  else
    let cumulative_pct := map (fun c => c / total * 100) (cumsum sorted_vendors) in
    Some (gini_of_curve cumulative_pct).

(** [create_regional_concentration_chart]: fewer than two states give the
    'Insufficient Data' figure and 0. *)
Definition create_regional_concentration_chart (shares : list Q) : Q :=
  if (length shares <? 2)%nat then 0
  else
    let sorted_shares := sort_descending shares in
    let cumulative_pct := cumsum sorted_shares in
    gini_of_curve cumulative_pct.

End Concentration.

(** ** Revenue analysis ([analysis/revenue_analysis.py]) *)

Module Revenue.
Import Pandas.
Local Open Scope string_scope.
Local Open Scope result_scope.

(** The columns of [order_items] and [products] the analysis reads.  Any
    cell of a CSV-backed frame may be missing. *)
Record order_item : Type := mkItem {
  order_id : option string;
  product_id : option string;
  seller_id : option string;
  price : option Q;
  freight_value : option Q
}.

Record product : Type := mkProduct {
  prod_id : option string;
  category_name : option string;
  weight_g : option Q;
  length_cm : option Q;
  height_cm : option Q;
  width_cm : option Q
}.

(** A row of [pd.merge(order_items, products, on='product_id', how='left')]. *)
Record merged : Type := mkMerged {
  item : order_item;
  product_category_name : option string;
  product_weight_g : option Q;
  product_length_cm : option Q;
  product_height_cm : option Q;
  product_width_cm : option Q
}.

(** A row of [order_items_detailed]: the merged row and its ['Total']. *)
Record detailed : Type := mkDetailed { row : merged; Total : option Q }.

(** Merge keys: pandas matches a missing key with a missing key. *)
Definition key_eqb (a b : option string) : bool :=
  match a, b with
  | Some x, Some y => String.eqb x y
  | None, None => true
  | _, _ => false
  end.

Definition merge_left (items : list order_item) (prods : list product) : list merged :=
  flat_map
    (fun it =>
       match filter (fun p => key_eqb (prod_id p) (product_id it)) prods with
       | [] => [mkMerged it None None None None None]
       | ps =>
           map (fun p => mkMerged it (category_name p) (weight_g p) (length_cm p)
                           (height_cm p) (width_cm p)) ps
       end) items.

(** [.fillna('Others')] on the category column. *)
Definition fill_category (m : merged) : merged :=
  mkMerged (item m)
    (match product_category_name m with
     | Some c => Some c
     | None => Some "Others"
     end)
    (product_weight_g m) (product_length_cm m) (product_height_cm m)
    (product_width_cm m).

(** Float addition: NaN as soon as one operand is, and the exact sum
    otherwise. *)
Definition add_na (a b : option Q) : option Q :=
  match a, b with
  | Some x, Some y => Some (x + y)%Q
  | _, _ => None
  end.

Record RevenueAnalyzer : Type := mkAnalyzer {
  order_items : list order_item;
  products : list product;
  order_items_detailed : option (list detailed)
}.

Definition init (items : list order_item) (prods : list product) : RevenueAnalyzer :=
  mkAnalyzer items prods None.

Definition prepare_data (self : RevenueAnalyzer) : RevenueAnalyzer * list detailed :=
  let merged_rows := merge_left (order_items self) (products self) in
  let filled := map fill_category merged_rows in
  let with_total :=
    map (fun m => mkDetailed m (add_na (price (item m)) (freight_value (item m))))
        filled in
  (mkAnalyzer (order_items self) (products self) (Some with_total), with_total).

(** [Series.sum()]: missing values are skipped and the empty sum is 0.  The
    sum is the exact one, whatever order pandas adds in. *)
Definition sum_skipna (l : list (option Q)) : Q :=
  fold_right (fun c acc => match c with Some x => (x + acc)%Q | None => acc end) 0%Q l.

Definition present (l : list (option string)) : list string :=
  flat_map (fun c => match c with Some k => [k] | None => [] end) l.

(** The groups of [groupby(key)]: the distinct keys that are not missing, in
    sorted order. *)
Definition group_keys {A} (key : A -> option string) (rows : list A) : list string :=
  sort_by String.leb (nodup string_dec (present (map key rows))).

Definition in_group {A} (key : A -> option string) (k : string) (r : A) : bool :=
  match key r with
  | Some k' => String.eqb k' k
  | None => false
  end.

(** [groupby(key, as_index=False).agg(Total=(column, 'sum'))] *)
Definition groupby_sum {A} (key : A -> option string) (val : A -> option Q)
    (rows : list A) : list (string * Q) :=
  map (fun k => (k, sum_skipna (map val (filter (in_group key k) rows))))
      (group_keys key rows).

(** [.sort_values('Total', ascending=False).reset_index(drop=True)] *)
Definition sort_total_descending (t : list (string * Q)) : list (string * Q) :=
  sort_by (fun a b => Qle_bool (snd b) (snd a)) t.

Definition metric (metric_column : string) : result (detailed -> option Q) :=
  if String.eqb metric_column "Total" then Ok Total
  else if String.eqb metric_column "freight_value"
       then Ok (fun d => freight_value (item (row d)))
  else if String.eqb metric_column "price"
       then Ok (fun d => price (item (row d)))
  else Raise (KeyError metric_column).

(** Both analyses read [self.order_items_detailed]; while it is still None
    the attribute access fails. *)
Definition analyze_by (key : detailed -> option string) (self : RevenueAnalyzer)
    (metric_column : string) : result (list (string * Q)) :=
  match order_items_detailed self with
  | None => Raise AttributeError
  | Some rows =>
      val <- metric metric_column ;;
      Ok (sort_total_descending (groupby_sum key val rows))
  end.

Definition _analyze_by_category : RevenueAnalyzer -> string -> result (list (string * Q)) :=
  analyze_by (fun d => product_category_name (row d)).

Definition _analyze_by_vendor : RevenueAnalyzer -> string -> result (list (string * Q)) :=
  analyze_by (fun d => seller_id (item (row d))).

(** Python's [a / b] on two ints: ZeroDivisionError for [b = 0], and the
    exact quotient otherwise. *)
Definition true_div (a b : nat) : result Q :=
  match b with
  | O => Raise ZeroDivisionError
  | _ => Ok (inject_Z (Z.of_nat a) / inject_Z (Z.of_nat b))%Q
  end.

Definition has_dimensions (d : detailed) : bool :=
  match product_weight_g (row d), product_length_cm (row d),
        product_height_cm (row d), product_width_cm (row d) with
  | Some _, Some _, Some _, Some _ => true
  | _, _, _, _ => false
  end.

Definition volume_cm (d : detailed) : option Q :=
  match product_width_cm (row d), product_height_cm (row d),
        product_length_cm (row d) with
  | Some w, Some h, Some l => Some (w * h * l)%Q
  | _, _, _ => None
  end.

Definition count_missing (f : detailed -> option Q) (rows : list detailed) : nat :=
  length (filter (fun d => match f d with None => true | Some _ => false end) rows).

Record analysis_results : Type := mkResults {
  total_revenue : Q;
  average_order_value : cell;
  total_orders : nat;
  total_products : nat;
  avg_items_per_order : Q;
  category_revenue_all : list (string * Q);
  category_revenue_freight : list (string * Q);
  category_revenue_price : list (string * Q);
  vendor_revenue_all : list (string * Q);
  vendor_revenue_freight : list (string * Q);
  vendor_revenue_price : list (string * Q);
  volume_analysis_data : list (detailed * option Q);
  missing_dimensional_data : list nat;
  top_category : option (string * Q);
  top_vendor : option (string * Q);
  results_detailed : list detailed
}.

Definition run_comprehensive_analysis (self : RevenueAnalyzer)
  : result (RevenueAnalyzer * analysis_results) :=
  let self :=
    match order_items_detailed self with
    | None => fst (prepare_data self)
    | Some _ => self
    end in
  match order_items_detailed self with
  | None => Raise AttributeError
  | Some rows =>
      let total_revenue := sum_skipna (map Total rows) in
      let order_totals := groupby_sum (fun d => order_id (item (row d))) Total rows in
      let aov := mean (map snd order_totals) in
      let total_orders := length order_totals in
      let total_products := length rows in
      avg_items_per_order <- true_div total_products total_orders ;;
      category_revenue_all <- _analyze_by_category self "Total" ;;
      category_revenue_freight <- _analyze_by_category self "freight_value" ;;
      category_revenue_price <- _analyze_by_category self "price" ;;
      vendor_revenue_all <- _analyze_by_vendor self "Total" ;;
      vendor_revenue_freight <- _analyze_by_vendor self "freight_value" ;;
      vendor_revenue_price <- _analyze_by_vendor self "price" ;;
      let missing_counts :=
        [count_missing (fun d => product_weight_g (row d)) rows;
         count_missing (fun d => product_length_cm (row d)) rows;
         count_missing (fun d => product_height_cm (row d)) rows;
         count_missing (fun d => product_width_cm (row d)) rows] in
      let volume_analysis_data :=
        map (fun d => (d, volume_cm d)) (filter has_dimensions rows) in
      let top_category := hd_error category_revenue_all in
      let top_vendor := hd_error vendor_revenue_all in
      Ok (self,
          mkResults total_revenue aov total_orders total_products
            avg_items_per_order category_revenue_all category_revenue_freight
            category_revenue_price vendor_revenue_all vendor_revenue_freight
            vendor_revenue_price volume_analysis_data missing_counts
            top_category top_vendor rows)
  end.

End Revenue.

(** ** Frames as Python objects

    A chart function receives a reference to the caller's frame.  [copy] and
    [.loc] make a new object, an item assignment writes through the
    reference. *)

Module Heap.
Import Pandas.

Definition ref : Type := nat.
Definition heap : Type := list DataFrame.

Definition M (A : Type) : Type := heap -> result A * heap.

Definition ret {A} (a : A) : M A := fun h => (Ok a, h).
Definition raise {A} (e : exn) : M A := fun h => (Raise e, h).

Definition bindM {A B} (m : M A) (k : A -> M B) : M B :=
  fun h =>
    match m h with
    | (Ok a, h') => k a h'
    | (Raise e, h') => (Raise e, h')
    end.

Definition lift {A} (r : result A) : M A := fun h => (r, h).

Fixpoint update {A} (n : nat) (x : A) (l : list A) : list A :=
  match l, n with
  | [], _ => []
  | _ :: r, O => x :: r
  | y :: r, S m => y :: update m x r
  end.

Definition read (r : ref) : M DataFrame :=
  fun h =>
    match nth_error h r with
    | Some df => (Ok df, h)
    | None => (Raise (OtherError "ReferenceError"), h)
    end.

Definition write (r : ref) (df : DataFrame) : M unit :=
  fun h => (Ok tt, update r df h).

(** A fresh object holding [df]. *)
Definition alloc (df : DataFrame) : M ref :=
  fun h => (Ok (length h), h ++ [df]).

(** [try: body / except TypeError: handler] *)
Definition except_TypeError {A} (body handler : M A) : M A :=
  fun h =>
    match body h with
    | (Raise TypeError, h') => handler h'
    | r => r
    end.

Declare Scope heap_scope.
Delimit Scope heap_scope with heap.
Notation "x <- m ;; k" := (bindM m (fun x => k))
  (at level 61, m at next level, right associativity) : heap_scope.
Notation "m ;;; k" := (bindM m (fun _ => k))
  (at level 61, right associativity) : heap_scope.

End Heap.

(** ** Orders analysis ([analysis/orders_analysis.py]) *)

Module Orders.
Import Pandas.
Local Open Scope string_scope.
Local Open Scope result_scope.

Section WithPandas.

(** Three library entry points are left to pandas: its parser of timedelta
    strings, [pd.to_timedelta(s)] / [pd.to_timedelta(s, unit=u)] with the
    default [errors='raise'], and [s.astype(str)]. *)
Variable parse_timedelta : string -> option Z.
Variable to_timedelta : option string -> Series -> result Series.
Variable astype_str : Series -> Series.

(** [pd.to_timedelta(s, errors='coerce')]: numbers count nanoseconds
    (fractions of one are cut off), what cannot be parsed becomes NaT; a
    datetime column is refused. *)
Definition to_timedelta_coerce (s : Series) : result Series :=
  match dtype_of s with
  | datetime64 => Raise TypeError
  | _ =>
      Ok (mkSeries timedelta64
            (map (fun c => match c with
                           | Td t => Td t
                           | Num x => Td (truncate x)
                           | Str x => match parse_timedelta x with
                                      | Some t => Td t
                                      | None => NA
                                      end
                           | _ => NA
                           end) (values s)))
  end.

Definition days (s : Series) : Series :=
  mkSeries float64 (map days_of_cell (values s)).

(** [s.dt]: only datetime-like columns have the accessor. *)
Definition dt_days (s : Series) : result Series :=
  match dtype_of s with
  | timedelta64 => Ok (days s)
  | _ => Raise AttributeError
  end.

Record OrdersAnalyzer : Type := mkOrdersAnalyzer {
  orders : DataFrame;
  orders_clean : DataFrame
}.

Definition catches_value_or_type (e : exn) : bool :=
  match e with
  | ValueError _ | TypeError => true
  | _ => false
  end.

(** The conversion block of [_convert_delay_to_timedelta], which the method
    runs on [self.orders] and then on [self.orders_clean].  The second
    component is what the block prints. *)
Definition convert_delay (warning : string) (df : DataFrame)
  : result DataFrame * list string :=
  match lookup "Delay" (columns df) with
  | None => (Ok df, [])
  | Some delay =>
      if is_timedelta64_dtype delay then (Ok df, [])
      else
        match to_timedelta None delay with
        | Ok t => (Ok (setitem df "Delay" t), [])
        | Raise e =>
            if catches_value_or_type e then
              match (if is_numeric_dtype delay
                     then to_timedelta (Some "D") delay
                     else to_timedelta None (astype_str delay)) with
              | Ok t => (Ok (setitem df "Delay" t), [])
              | Raise _ =>
                  (Ok (setitem df "Delay" (broadcast df datetime64 NA)), [warning])
              end
            else (Raise e, [])
        end
  end.

Definition _convert_delay_to_timedelta (self : OrdersAnalyzer)
  : result OrdersAnalyzer * list string :=
  match convert_delay "Warning: Could not convert Delay column to timedelta"
          (orders self) with
  | (Ok o, out1) =>
      match convert_delay
              "Warning: Could not convert Delay column to timedelta in orders_clean"
              (orders_clean self) with
      | (Ok c, out2) => (Ok (mkOrdersAnalyzer o c), (out1 ++ out2)%list)
      | (Raise e, out2) => (Raise e, (out1 ++ out2)%list)
      end
  | (Raise e, out1) => (Raise e, out1)
  end.

(** [OrdersAnalyzer(orders)]: two copies of the caller's frame. *)
Definition init (orders_arg : DataFrame) : result OrdersAnalyzer * list string :=
  let self := mkOrdersAnalyzer orders_arg orders_arg in
  if has_column "Delay" (orders self)
  then _convert_delay_to_timedelta self
  else (Ok self, []).

Record delivery_performance : Type := mkDeliveryPerformance {
  delay_delivered : DataFrame;
  delay_not_delivered : DataFrame;
  no_delay_delivered : DataFrame;
  no_delay_not_delivered : DataFrame;
  total_orders : nat;
  delivered_orders : nat;
  not_delivered_orders : nat;
  delivery_rate : Q;
  on_time_rate : Q
}.

Definition state_is (v : string) (df : DataFrame) : result (list bool) :=
  s <- getitem df "Net_State" ;;
  Ok (map (eq_str v) (values s)).

(** [(test(df[col])) & (df['Net_State'] == state)] and the [.loc] on it. *)
Definition categorize (test : Series -> result (list bool)) (col state : string)
    (df : DataFrame) : result DataFrame :=
  c <- getitem df col ;;
  t <- test c ;;
  s <- state_is state df ;;
  Ok (loc df (map2 andb t s)).

Definition lt_float0 (s : Series) : result (list bool) :=
  Ok (map (fun c => match c with Num x => negb (Qle_bool 0 x) | _ => false end)
          (values s)).

Definition gt_float0 (s : Series) : result (list bool) :=
  Ok (map (fun c => match c with Num x => negb (Qle_bool x 0) | _ => false end)
          (values s)).

Definition four (test_lt test_gt : Series -> result (list bool)) (col : string)
    (df : DataFrame) : result (DataFrame * DataFrame * DataFrame * DataFrame) :=
  dd <- categorize test_lt col "Delivered" df ;;
  dn <- categorize test_lt col "Not_Delivered" df ;;
  nd <- categorize test_gt col "Delivered" df ;;
  nn <- categorize test_gt col "Not_Delivered" df ;;
  Ok (dd, dn, nd, nn).

Definition rate (a b : nat) : Q :=
  if (0 <? b)%nat
  then (inject_Z (Z.of_nat a) / inject_Z (Z.of_nat b) * 100)%Q
  else 0%Q.

Definition get_delivery_performance (self : OrdersAnalyzer)
  : result delivery_performance * list string :=
  match getitems (orders self) ["Net_State"; "Delay"] with
  | Raise e => (Raise e, [])
  | Ok cols =>
      let working :=
        mkDataFrame (index_len (orders self))
          (combine ["Net_State"; "Delay"] cols) in
      let converted :=
        d <- getitem working "Delay" ;;
        if is_timedelta64_dtype d then Ok working
        else (t <- to_timedelta_coerce d ;; Ok (setitem working "Delay" t)) in
      match (w <- converted ;; dropna ["Delay"] w) with
      | Raise e => (Raise e, [])
      | Ok working_clean =>
          let finish subsets out :=
            match subsets with
            | Raise e => (Raise e, out)
            | Ok (dd, dn, nd, nn) =>
                match state_is "Delivered" working_clean,
                      state_is "Not_Delivered" working_clean with
                | Ok del, Ok ndel =>
                    let total := index_len working_clean in
                    let delivered := count_true del in
                    (Ok (mkDeliveryPerformance dd dn nd nn total delivered
                           (count_true ndel) (rate delivered total)
                           (rate (index_len nd) delivered)), out)
                | Raise e, _ | _, Raise e => (Raise e, out)
                end
            end in
          match four (compare_zero lt_zero) (compare_zero gt_zero) "Delay"
                  working_clean with
          | Raise TypeError =>
              let fallback :=
                d <- getitem working_clean "Delay" ;;
                t <- to_timedelta None d ;;
                dd <- dt_days t ;;
                four lt_float0 gt_float0 "delay_days"
                  (setitem working_clean "delay_days" dd) in
              finish fallback ["Warning: Delay comparison failed"]
          | r => finish r []
          end
      end
  end.

(** [get_delayed_orders_by_stage]: the result, and the analyzer as the call
    leaves it ([self.orders_clean] may gain columns). *)
Definition get_delayed_orders_by_stage (self : OrdersAnalyzer)
    (delivery_status pct_col : string) : result DataFrame * OrdersAnalyzer :=
  match getitem (orders_clean self) "Delay" with
  | Raise e => (Raise e, self)
  | Ok d =>
      match (if is_timedelta64_dtype d then Ok (orders_clean self)
             else (t <- to_timedelta_coerce d ;;
                   Ok (setitem (orders_clean self) "Delay" t))) with
      | Raise e => (Raise e, self)
      | Ok clean =>
          let self := mkOrdersAnalyzer (orders self) clean in
          let selected :=
            match (d <- getitem clean "Delay" ;; compare_zero lt_zero d) with
            | Ok late => (Ok (loc clean late), self)
            | Raise TypeError =>
                match (d <- getitem clean "Delay" ;;
                       t <- to_timedelta None d ;; dt_days t) with
                | Ok dd =>
                    let clean := setitem clean "delay_days" dd in
                    (late <- lt_float0 dd ;; Ok (loc clean late),
                     mkOrdersAnalyzer (orders self) clean)
                | Raise e => (Raise e, self)
                end
            | Raise e => (Raise e, self)
            end in
          let (delayed, self) := selected in
          let filtered :=
            delayed <- delayed ;;
            if negb (String.eqb delivery_status "All")
            then (keep <- state_is delivery_status delayed ;; Ok (loc delayed keep))
            else Ok delayed in
          (delayed <- filtered ;;
           if empty delayed then Ok empty_frame
           else if negb (has_column "delay_days" delayed)
                then (d <- getitem delayed "Delay" ;;
                      dd <- dt_days d ;;
                      Ok (setitem delayed "delay_days" dd))
                else Ok delayed,
           self)
      end
  end.

(** *** The chart functions *)

Record bubble : Type := mkBubble {
  state : string;
  state_name : string;
  lat : Q;
  lon : Q;
  value : Q;
  bubble_size : Q
}.

(** What a returned [go.Figure] shows: only a title (the placeholder), a
    heatmap, or the bubble map. *)
Inductive Figure : Type :=
| message_figure (title : string)
| heatmap_figure (z : list (list nat)) (x y : list cell) (title : string)
| scattergeo_figure (points : list bubble) (show_state_names : bool)
    (title : string).

Import Heap.
Local Open Scope heap_scope.

Definition default_delay_day_ranges : list (Z * Z) :=
  [(-30, -20); (-20, -10); (-10, -5); (-5, -2); (-2, 0)]%Z.

Definition range_label (r : Z * Z) : string :=
  string_of_Z (fst r) ++ "–" ++ string_of_Z (snd r).

Definition pct_bins : list Q := linspace 0 100 11.

Definition pct_labels : list string :=
  map (fun '(low, high) =>
         string_of_Z (truncate low) ++ "–" ++ string_of_Z (truncate high) ++ " %")
      (combine (removelast pct_bins) (tl pct_bins)).

Fixpoint replace_char (a b : ascii) (s : string) : string :=
  match s with
  | EmptyString => EmptyString
  | String c r => String (if Ascii.eqb c a then b else c) (replace_char a b r)
  end.

(** [df[name] = s] on the object behind [r]. *)
Definition assign_column (r : ref) (name : string) (s : Series) : M unit :=
  df <- read r ;;
  write r (setitem df name s).

Definition create_delay_heatmap (delayed_orders : ref) (pct_col : string)
    (delay_day_ranges : option (list (Z * Z))) (title : option string)
  : M Figure :=
  df <- read delayed_orders ;;
  if empty df
  then ret (message_figure "No delayed orders available for the selected filters")
  else
    (if negb (has_column "delay_days" df) then
       if has_column "Delay" df then
         d <- lift (getitem df "Delay") ;;
         (if negb (is_timedelta64_dtype d)
          then (t <- lift (to_timedelta_coerce d) ;;
                assign_column delayed_orders "Delay" t)
          else ret tt) ;;;
         df <- read delayed_orders ;;
         d <- lift (getitem df "Delay") ;;
         dd <- lift (dt_days d) ;;
         assign_column delayed_orders "delay_days" dd
       else raise (ValueError "No delay information available in delayed_orders DataFrame")
     else ret tt) ;;;
    let delay_day_ranges :=
      match delay_day_ranges with
      | Some r => r
      | None => default_delay_day_ranges
      end in
    first <- match delay_day_ranges with
             | r :: _ => ret (fst r)
             | [] => raise IndexError
             end ;;
    let bins := map inject_Z (first :: map snd delay_day_ranges) in
    let labels := map range_label delay_day_ranges in
    df <- read delayed_orders ;;
    dd <- lift (getitem df "delay_days") ;;
    delay_bin <- lift (cut dd bins labels) ;;
    assign_column delayed_orders "delay_bin" delay_bin ;;;
    df <- read delayed_orders ;;
    pct <- lift (getitem df pct_col) ;;
    pct_bin <- lift (cut pct pct_bins pct_labels) ;;
    assign_column delayed_orders "pct_bin" pct_bin ;;;
    let heat :=
      sort_index_descending
        (crosstab labels pct_labels (values delay_bin) (values pct_bin)) in
    let title :=
      match title with
      | Some t => t
      | None => "Delayed Orders Analysis - " ++ replace_char "_" " " pct_col
      end in
    ret (heatmap_figure (ct_values heat) (ct_columns heat) (ct_index heat) title).

Definition BRAZIL_STATE_CENTROIDS : list (string * (Q * Q)) :=
  [("AC", (-9.0238, -70.8120)); ("AL", (-9.5713, -36.7819));
   ("AP", (0.9020, -51.8544)); ("AM", (-3.4168, -65.8561));
   ("BA", (-12.5797, -41.7007)); ("CE", (-5.4984, -39.3206));
   ("DF", (-15.7801, -47.9292)); ("ES", (-19.1834, -40.3089));
   ("GO", (-15.8270, -49.8362)); ("MA", (-5.4026, -45.1116));
   ("MT", (-12.6819, -56.9211)); ("MS", (-20.7722, -54.7852));
   ("MG", (-18.5122, -44.5550)); ("PA", (-3.4168, -52.0030));
   ("PB", (-7.2400, -36.7820)); ("PR", (-24.7953, -51.7955));
   ("PE", (-8.8137, -36.9541)); ("PI", (-6.6000, -42.2800));
   ("RJ", (-22.9068, -43.1729)); ("RN", (-5.7945, -36.5172));
   ("RS", (-30.0346, -51.2177)); ("RO", (-11.5057, -63.5806));
   ("RR", (2.7376, -62.0751)); ("SC", (-27.5954, -48.5480));
   ("SP", (-23.5505, -46.6333)); ("SE", (-10.5741, -37.3857));
   ("TO", (-10.1753, -48.2982))]%Q.

Definition BRAZIL_STATE_NAMES : list (string * string) :=
  [("AC", "Acre"); ("AL", "Alagoas"); ("AP", "Amapá"); ("AM", "Amazonas");
   ("BA", "Bahia"); ("CE", "Ceará"); ("DF", "Distrito Federal");
   ("ES", "Espírito Santo"); ("GO", "Goiás"); ("MA", "Maranhão");
   ("MT", "Mato Grosso"); ("MS", "Mato Grosso do Sul"); ("MG", "Minas Gerais");
   ("PA", "Pará"); ("PB", "Paraíba"); ("PR", "Paraná"); ("PE", "Pernambuco");
   ("PI", "Piauí"); ("RJ", "Rio de Janeiro"); ("RN", "Rio Grande do Norte");
   ("RS", "Rio Grande do Sul"); ("RO", "Rondônia"); ("RR", "Roraima");
   ("SC", "Santa Catarina"); ("SP", "São Paulo"); ("SE", "Sergipe");
   ("TO", "Tocantins")].

Fixpoint dict_get {V} (d : list (string * V)) (k : string) : option V :=
  match d with
  | [] => None
  | (k', v) :: r => if String.eqb k' k then Some v else dict_get r k
  end.

Definition upper (c : ascii) : ascii :=
  let n := nat_of_ascii c in
  if (97 <=? n)%nat && (n <=? 122)%nat then ascii_of_nat (n - 32) else c.

Definition lower (c : ascii) : ascii :=
  let n := nat_of_ascii c in
  if (65 <=? n)%nat && (n <=? 90)%nat then ascii_of_nat (n + 32) else c.

Fixpoint map_string (f : ascii -> ascii) (s : string) : string :=
  match s with
  | EmptyString => EmptyString
  | String c r => String (f c) (map_string f r)
  end.

(** [str.capitalize()] *)
Definition capitalize (s : string) : string :=
  match s with
  | EmptyString => EmptyString
  | String c r => String (upper c) (map_string lower r)
  end.

(** [df.groupby('customer_state', as_index=False).agg(value=(col, how))]:
    one row per state that occurs, in sorted order. *)
Definition by_state (agg : list cell -> Q) (states col : list cell)
  : list (string * Q) :=
  map (fun k => (k, agg (select (map (eq_str k) states) col)))
      (sort_by String.leb (nodup string_dec (strings states))).

Definition count_unique (l : list cell) : Q := inject_Z (Z.of_nat (nunique l)).
Definition sum_floats (l : list cell) : Q := Qsum (floats l).

Definition Qmin_list (l : list Q) : Q :=
  match sort_by Qle_bool l with x :: _ => x | [] => 0 end.
Definition Qmax_list (l : list Q) : Q :=
  match sort_by (fun a b => Qle_bool b a) l with x :: _ => x | [] => 0 end.

(** The part of [create_geo_bubble_map] below the [df.empty] test, which
    only reads [df]. *)
Definition geo_figure (df : DataFrame) (metric status : string)
    (delayed_only : bool) (bubble_size_multiplier : Q) (show_state_names : bool)
  : result Figure :=
  (states <- getitem df "customer_state" ;;
   geo_df <-
     (if String.eqb metric "orders" || String.eqb metric "delayed"
         || negb (has_column "TOTAL" df)
      then (ids <- getitem df "order_id" ;;
            Ok (by_state count_unique (values states) (values ids)))
      else (tot <- getitem df "TOTAL" ;;
            Ok (by_state sum_floats (values states) (values tot)))) ;;
   let located :=
     flat_map
       (fun '(st, v) =>
          match dict_get BRAZIL_STATE_CENTROIDS st with
          | Some (la, lo) =>
              [(st, match dict_get BRAZIL_STATE_NAMES st with
                    | Some n => n
                    | None => st
                    end, la, lo, v)]
          | None => []
          end) geo_df in
   match located with
   | [] => Ok (message_figure "No states with coordinates found in data")
   | _ =>
       let vals := map (fun '(_, _, _, _, v) => v) located in
       let min_value := Qmin_list vals in
       let max_value := Qmax_list vals in
       let size v :=
         ((if negb (Qle_bool max_value min_value)
           then 10 + 30 * (v - min_value) / (max_value - min_value)
           else 20) * bubble_size_multiplier)%Q in
       let status_display :=
         if negb (String.eqb status "All") then status else "All Orders" in
       let title_text :=
         capitalize metric ++ " by State - " ++ status_display ++
         (if delayed_only then " (Delayed Only)" else "") in
       Ok (scattergeo_figure
             (map (fun '(st, n, la, lo, v) => mkBubble st n la lo v (size v)) located)
             show_state_names title_text)
   end)%result.

(** [# Ensure Delay is timedelta for delayed filtering] *)
Definition ensure_delay_timedelta (df : ref) : M unit :=
  cur <- read df ;;
  match lookup "Delay" (columns cur) with
  | Some d =>
      if negb (is_timedelta64_dtype d)
      then (t <- lift (to_timedelta_coerce d) ;; assign_column df "Delay" t)
      else ret tt
  | None => ret tt
  end.

(** [df = df.loc[df['Net_State'] == status].copy()] *)
Definition filter_status (status : string) (df : ref) : M ref :=
  cur <- read df ;;
  keep <- lift (state_is status cur) ;;
  alloc (loc cur keep).

(** The [try] / [except TypeError] that keeps the delayed rows. *)
Definition filter_delayed (df : ref) : M ref :=
  except_TypeError
    (cur <- read df ;;
     d <- lift (getitem cur "Delay") ;;
     late <- lift (compare_zero lt_zero d) ;;
     alloc (loc cur late))
    (cur <- read df ;;
     d <- lift (getitem cur "Delay") ;;
     t <- lift (to_timedelta None d) ;;
     dd <- lift (dt_days t) ;;
     assign_column df "delay_days" dd ;;;
     cur <- read df ;;
     late <- lift (lt_float0 dd) ;;
     alloc (loc cur late)).

Definition no_data : Figure :=
  message_figure "No data available for selected filters".

Definition create_geo_bubble_map (orders_arg : ref) (metric status : string)
    (delayed_only : bool) (bubble_size_multiplier : Q) (show_state_names : bool)
  : M Figure :=
  o <- read orders_arg ;;
  df <- alloc o ;;
  let wants_delayed := delayed_only || String.eqb metric "delayed" in
  (if wants_delayed then ensure_delay_timedelta df else ret tt) ;;;
  df <- (if negb (String.eqb status "All") then filter_status status df
         else ret df) ;;
  df <- (if wants_delayed then filter_delayed df else ret df) ;;
  cur <- read df ;;
  if empty cur then ret no_data
  else lift (geo_figure cur metric status delayed_only bubble_size_multiplier
               show_state_names).

End WithPandas.

End Orders.

(** ** The delivery performance bars ([analysis/orders_analysis.py]) *)

Module PerformanceChart.
Import Pandas Orders.
Local Open Scope string_scope.




End PerformanceChart.

(** ** Sample inputs *)

Module Samples.
Import Pandas.
Local Open Scope string_scope.
Local Open Scope Z_scope.

Definition no_parse (s : string) : option Z := None.

Definition datetimes (l : list cell) : Series := mkSeries datetime64 l.

(** Three orders: one delivered two time units late, one delivered three
    early, one cancelled and never delivered. *)
Definition three_orders : DataFrame :=
  mkDataFrame 3
    [("order_id", mkSeries object [Str "o1"; Str "o2"; Str "o3"]);
     ("order_status",
      mkSeries object [Str "delivered"; Str "delivered"; Str "canceled"]);
     ("order_purchase_timestamp", datetimes [Dt 0; Dt 1; Dt 2]);
     ("order_approved_at", datetimes [Dt 1; Dt 2; Dt 3]);
     ("order_delivered_carrier_date", datetimes [Dt 4; Dt 5; NA]);
     ("order_delivered_customer_date", datetimes [Dt 12; Dt 9; NA]);
     ("order_estimated_delivery_date", datetimes [Dt 10; Dt 12; Dt 14])].

(** A stand-in for [pd.to_timedelta]: a float column counts nanoseconds (or
    days with [unit='D']), and anything but numbers and timedeltas is
    refused with ValueError. *)
Definition strict_to_timedelta (unit : option string) (s : Series) : result Series :=
  let factor := match unit with Some _ => ns_per_day | None => 1 end in
  if forallb (fun c => match c with Td _ | Num _ | NA => true | _ => false end)
       (values s)
  then Ok (mkSeries timedelta64
             (map (fun c => match c with
                            | Num x => Td (truncate (x * inject_Z factor))
                            | c => c
                            end) (values s)))
  else Raise (ValueError "unit abbreviation w/o a number").

Definition as_object (s : Series) : Series := mkSeries object (values s).

Definition floats_column (l : list Q) : Series := mkSeries float64 (map Num l).

(** Four delayed orders, already carrying [delay_days]: 45, 25, 3 days late
    and half a day late. *)
Definition four_delayed : DataFrame :=
  mkDataFrame 4
    [("order_id", mkSeries object [Str "a"; Str "b"; Str "c"; Str "d"]);
     ("delay_days", floats_column [-45; -25; -3; -(1 # 2)]%Q);
     ("Site_Real_PCT", floats_column [5; 15; 50; 100]%Q)].

(** One row and no delay information at all. *)
Definition no_delay_columns : DataFrame :=
  mkDataFrame 1 [("order_id", mkSeries object [Str "a"])].

(** Orders with [Delay] and [Net_State], as [OrdersAnalyzer] expects them:
    late and delivered, exactly on time and delivered, early and delivered,
    late and not delivered, no delivery date. *)
Definition five_orders : DataFrame :=
  mkDataFrame 5
    [("order_id", mkSeries object [Str "a"; Str "b"; Str "c"; Str "d"; Str "e"]);
     ("customer_state", mkSeries object [Str "SP"; Str "SP"; Str "RJ"; Str "MG"; Str "XX"]);
     ("Net_State",
      mkSeries object [Str "Delivered"; Str "Delivered"; Str "Delivered";
                       Str "Not_Delivered"; Str "Not_Delivered"]);
     ("Delay", mkSeries timedelta64 [Td (-5); Td 0; Td 7; Td (-1); NA])].

(** The frame of [five_orders] with every row filtered away. *)
Definition rowless_orders : DataFrame :=
  mkDataFrame 0
    [("order_id", mkSeries object []);
     ("customer_state", mkSeries object []);
     ("Net_State", mkSeries object []);
     ("Delay", mkSeries timedelta64 [])].

(** A [Delay] column that arrived as text pandas cannot parse. *)
Definition text_delays : DataFrame :=
  mkDataFrame 2
    [("Net_State", mkSeries object [Str "Delivered"; Str "Delivered"]);
     ("Delay", mkSeries object [Str "soon"; Str "late"])].

Local Open Scope Q_scope.

Definition two_items : list Revenue.order_item :=
  [Revenue.mkItem (Some "o1") (Some "p1") (Some "s1") (Some 10) (Some 2);
   Revenue.mkItem (Some "o2") (Some "p2") (Some "s2") (Some 7) None].

Definition one_product : list Revenue.product :=
  [Revenue.mkProduct (Some "p1") (Some "toys") (Some 100) (Some 10) (Some 5)
     (Some 4)].

Definition priced_items : list Revenue.order_item :=
  [Revenue.mkItem (Some "o1") (Some "p1") (Some "s1") (Some 10) (Some 2);
   Revenue.mkItem (Some "o1") (Some "p2") (Some "s2") (Some 7) (Some 3);
   Revenue.mkItem (Some "o2") (Some "p1") (Some "s1") (Some 10) (Some (5 # 2))].

Definition item_without_seller : list Revenue.order_item :=
  [Revenue.mkItem (Some "o1") (Some "p1") None (Some 10) (Some 2)].

End Samples.

(** * Properties *)

(** ** Frames: lookups after assignments and selections *)

Section FrameLemmas.
Import Pandas.

Lemma lookup_assign_eq (n : string) (s : Series) (cols : list (string * Series)) :
  lookup n (assign n s cols) = Some s.
Proof.
  induction cols as [|[m s0] cols IH]; simpl.
  - now rewrite String.eqb_refl.
  - destruct (String.eqb m n) eqn:E; simpl; rewrite E; auto.
Qed.

Lemma lookup_assign_ne (n m : string) (s : Series) (cols : list (string * Series)) :
  String.eqb m n = false -> lookup n (assign m s cols) = lookup n cols.
Proof.
  intros Hne.
  induction cols as [|[k s0] cols IH]; simpl.
  - now rewrite Hne.
  - destruct (String.eqb k m) eqn:E; simpl.
    + apply String.eqb_eq in E; subst k. now rewrite Hne.
    + destruct (String.eqb k n); auto.
Qed.

Lemma lookup_loc (n : string) (df : DataFrame) (mask : list bool) :
  lookup n (columns (loc df mask)) =
  option_map (fun s => mkSeries (dtype_of s) (select mask (values s)))
             (lookup n (columns df)).
Proof.
  unfold loc; simpl.
  induction (columns df) as [|[m s] cols IH]; simpl; auto.
  destruct (String.eqb m n); auto.
Qed.

Lemma compare_zero_ok (test : cell -> bool) (s : Series) (m : list bool) :
  compare_zero test s = Ok m -> m = map test (values s).
Proof.
  unfold compare_zero.
  destruct (dtype_of s);
    try destruct (forallb is_td_or_na (values s) && negb (existsb isna (values s)));
    intros H; inversion H; reflexivity.
Qed.

Lemma nth_error_map2 {A B C} (f : A -> B -> C) (l : list A) (r : list B)
    (i : nat) (a : A) (b : B) :
  nth_error l i = Some a -> nth_error r i = Some b ->
  nth_error (map2 f l r) i = Some (f a b).
Proof.
  unfold map2. revert r i.
  induction l as [|x l IH]; intros [|y r] [|i] Ha Hb; simpl in *;
    try discriminate.
  - now inversion Ha; inversion Hb.
  - now apply IH.
Qed.

Lemma select_all_true {A} (test : A -> bool) (l : list A) :
  Forall (fun x => test x = true) (select (map test l) l).
Proof.
  induction l as [|x l IH]; simpl; auto.
  destruct (test x) eqn:E; auto.
Qed.

Lemma length_select {A} (mask : list bool) (l : list A) :
  length mask = length l -> length (select mask l) = count_true mask.
Proof.
  unfold count_true. revert l.
  induction mask as [|b mask IH]; intros [|x l] H; simpl in *; try discriminate; auto.
  destruct b; simpl; auto.
Qed.

Lemma bind_ok {A B} (r : result A) (k : A -> result B) (b : B) :
  bind r k = Ok b -> exists a, r = Ok a /\ k a = Ok b.
Proof.
  destruct r as [a|e]; simpl; intros H; [now exists a | discriminate].
Qed.

Lemma Ok_inj {A} (a b : A) : Ok a = Ok b -> a = b.
Proof. intros H; now inversion H. Qed.

End FrameLemmas.

(** ** Report pages: Delay and Net_State *)

Section PagesProperties.
Import Pandas Pages.
Local Open Scope string_scope.

Variable parse_datetime : string -> option Z.

Lemma lookup_convert_other (n : string) (cols : list string) (df : DataFrame) :
  forallb (fun c => negb (String.eqb c n)) cols = true ->
  lookup n (columns (convert_datetime_cols parse_datetime cols df)) =
  lookup n (columns df).
Proof.
  unfold convert_datetime_cols. revert df.
  induction cols as [|c cols IH]; intros df H; simpl in *; auto.
  apply andb_true_iff in H as [Hc H].
  rewrite IH by exact H.
  destruct (lookup c (columns df)) as [s|]; auto.
  destruct (dtype_of s); auto.
  unfold setitem; simpl. apply lookup_assign_ne.
  now destruct (String.eqb c n).
Qed.

(** What both pages promise about the derived [Net_State] column of the
    frame [output] they build from [input]. *)
Definition net_state_derived (input output : DataFrame) : Prop :=
  exists ns,
    lookup "Net_State" (columns output) = Some ns /\
    (forall i c, nth_error (values ns) i = Some c ->
                 c = Str "Delivered" \/ c = Str "Not_Delivered") /\
    (forall st, lookup "order_status" (columns input) = Some st ->
       length (values ns) = length (values st) /\
       forall i c x,
         nth_error (values ns) i = Some c -> nth_error (values st) i = Some x ->
         (c = Str "Delivered" <-> x = Str "delivered")).

Lemma net_state_of_cases (x : cell) :
  (net_state_of x = Str "Delivered" /\ x = Str "delivered") \/
  (net_state_of x = Str "Not_Delivered" /\ x <> Str "delivered").
Proof.
  unfold net_state_of, eq_str.
  destruct x; try (right; split; [reflexivity | discriminate]).
  destruct (String.eqb s "delivered") eqn:E.
  - apply String.eqb_eq in E; subst; now left.
  - right; split; auto. intros H; inversion H; subst.
    now rewrite String.eqb_refl in E.
Qed.

Lemma add_net_state_derived (input df : DataFrame) :
  lookup "order_status" (columns df) = lookup "order_status" (columns input) ->
  net_state_derived input (add_net_state df).
Proof.
  intros Hst. unfold add_net_state, net_state_derived.
  destruct (lookup "order_status" (columns df)) as [s|] eqn:E.
  - exists (mkSeries object (map net_state_of (values s))).
    unfold setitem; simpl. rewrite lookup_assign_eq. split; [reflexivity|].
    split.
    + intros i c H. rewrite nth_error_map in H.
      destruct (nth_error (values s) i) as [x|]; simpl in H; inversion H.
      destruct (net_state_of_cases x) as [[-> _]|[-> _]]; auto.
    + intros st Hin. rewrite <- Hst in Hin. inversion Hin; subst st.
      split; [apply length_map|].
      intros i c x Hc Hx. rewrite nth_error_map, Hx in Hc. simpl in Hc.
      inversion Hc.
      destruct (net_state_of_cases x) as [[-> ->]|[-> Hne]].
      * tauto.
      * split; [discriminate | intros ->; now destruct Hne].
  - exists (broadcast df object (Str "Delivered")).
    unfold setitem; simpl. rewrite lookup_assign_eq. split; [reflexivity|].
    split.
    + intros i c H. unfold broadcast in H; simpl in H.
      apply nth_error_In, repeat_spec in H. auto.
    + intros st Hin. rewrite <- Hst in Hin. discriminate.
Qed.

Ltac step H x E :=
  apply bind_ok in H as (x & E & H); cbv beta in H.

Ltac result_is H := apply Ok_inj in H; rewrite <- H; clear H.

Lemma lookup_setitem_eq (df : DataFrame) (n : string) (s : Series) :
  lookup n (columns (setitem df n s)) = Some s.
Proof. apply lookup_assign_eq. Qed.

Lemma lookup_setitem_ne (df : DataFrame) (n m : string) (s : Series) :
  String.eqb m n = false ->
  lookup n (columns (setitem df m s)) = lookup n (columns df).
Proof. apply lookup_assign_ne. Qed.

Lemma lookup_add_net_state_other (n : string) (df : DataFrame) :
  String.eqb "Net_State" n = false ->
  lookup n (columns (add_net_state df)) = lookup n (columns df).
Proof.
  intros H. unfold add_net_state.
  destruct (lookup "order_status" (columns df)); now apply lookup_setitem_ne.
Qed.

Ltac other_columns :=
  repeat first
    [ rewrite lookup_add_net_state_other by reflexivity
    | rewrite lookup_setitem_ne by reflexivity ].

Lemma net_state_delay_analysis (orders_data : DataFrame) (r : delay_analysis) :
  get_delay_analysis parse_datetime orders_data = Ok r ->
  net_state_derived orders_data (delay_data r).
Proof.
  unfold get_delay_analysis. intros H. cbv zeta in H.
  step H est E1; clear E1. step H del E1; clear E1.
  step H delay E1; clear E1. step H pur E1; clear E1.
  step H real E1; clear E1. step H appr E1; clear E1.
  step H site E1; clear E1. step H carr E1; clear E1.
  step H seller E1; clear E1. step H shipping E1; clear E1.
  step H clean E1; clear E1. step H cd E1; clear E1.
  step H late E1; clear E1.
  assert (Hd : net_state_derived orders_data
                 (add_net_state
                    (setitem (setitem (setitem (setitem (setitem
                       (convert_datetime_cols parse_datetime
                          ["order_purchase_timestamp"; "order_approved_at";
                           "order_delivered_carrier_date";
                           "order_delivered_customer_date";
                           "order_estimated_delivery_date"] orders_data)
                       "Delay" delay) "Real_Time" real) "Site_Real_PCT" site)
                       "Seller_Real_PCT" seller) "Shipping_Real_PCT" shipping))).
  { apply add_net_state_derived. other_columns.
    now apply lookup_convert_other. }
  destruct (0 <? index_len (loc clean late))%nat.
  - step H d E1; clear E1. result_is H. exact Hd.
  - result_is H. exact Hd.
Qed.

Lemma net_state_performance_analysis (orders_data : DataFrame)
    (r : performance_analysis) :
  get_delivery_performance_analysis parse_datetime orders_data = Ok r ->
  net_state_derived orders_data (perf_data r).
Proof.
  unfold get_delivery_performance_analysis. intros H. cbv zeta in H.
  step H est E1; clear E1. step H del E1; clear E1.
  step H delay E1; clear E1. step H st E1; clear E1.
  assert (Hd : net_state_derived orders_data
                 (add_net_state
                    (setitem (convert_datetime_cols parse_datetime
                       ["order_purchase_timestamp"; "order_delivered_customer_date";
                        "order_estimated_delivery_date"] orders_data)
                       "Delay" delay))).
  { apply add_net_state_derived. other_columns.
    now apply lookup_convert_other. }
  match type of H with
  | (if ?b then _ else _) = _ => destruct b
  end.
  - step H d E1; clear E1. step H f1 E1; clear E1. step H f2 E1; clear E1.
    result_is H. exact Hd.
  - result_is H. exact Hd.
Qed.

(** The derived [Delay] column of a page's frame. *)
Definition delay_derived (output : DataFrame) : Prop :=
  exists est del delay,
    lookup "order_estimated_delivery_date" (columns output) = Some est /\
    lookup "order_delivered_customer_date" (columns output) = Some del /\
    lookup "Delay" (columns output) = Some delay /\
    forall i a b,
      nth_error (values est) i = Some (Dt a) ->
      nth_error (values del) i = Some (Dt b) ->
      nth_error (values delay) i = Some (Td (a - b)).

Definition strictly_negative (c : cell) : Prop :=
  exists ns, c = Td ns /\ (ns < 0)%Z.

Lemma lt_zero_spec (c : cell) : lt_zero c = true <-> strictly_negative c.
Proof.
  unfold strictly_negative. destruct c; simpl;
    try (split; [discriminate | intros (m & H & _); discriminate]).
  rewrite Z.ltb_lt. split.
  - intros H; now exists ns.
  - intros (m & H & Hm). now inversion H.
Qed.

(** Page 7 keeps as [delayed_orders] the rows of [delay_data_clean] whose
    [Delay] is strictly negative. *)
Definition late_rows_selected (r : delay_analysis) : Prop :=
  exists cd dd,
    lookup "Delay" (columns (delay_data_clean r)) = Some cd /\
    lookup "Delay" (columns (delayed_orders r)) = Some dd /\
    values dd = select (map lt_zero (values cd)) (values cd) /\
    Forall strictly_negative (values dd).

(** Page 9 flags as [is_delayed] the delivered rows whose [Delay] is strictly
    negative, and counts them. *)
Definition late_rows_flagged (r : performance_analysis) : Prop :=
  exists d,
    lookup "Delay" (columns (delivered_orders r)) = Some d /\
    ((0 < index_len (delivered_orders r))%nat ->
     lookup "is_delayed" (columns (delivered_orders r)) =
       Some (bools (map lt_zero (values d))) /\
     pm_delayed_delivered (metrics r) = count_true (map lt_zero (values d))).

Lemma sub_ok_values (a b s : Series) :
  sub a b = Ok s -> values s = map2 sub_cell (values a) (values b).
Proof.
  unfold sub.
  destruct (dtype_of a), (dtype_of b); intros H; inversion H; reflexivity.
Qed.

Lemma getitem_ok (df : DataFrame) (n : string) (s : Series) :
  getitem df n = Ok s -> lookup n (columns df) = Some s.
Proof.
  unfold getitem. destruct (lookup n (columns df)); intros H; now inversion H.
Qed.

Lemma delay_cells (est del delay : Series) :
  sub est del = Ok delay ->
  forall i a b,
    nth_error (values est) i = Some (Dt a) ->
    nth_error (values del) i = Some (Dt b) ->
    nth_error (values delay) i = Some (Td (a - b)).
Proof.
  intros H i a b Ha Hb. rewrite (sub_ok_values _ _ H).
  now rewrite (nth_error_map2 sub_cell _ _ _ Ha Hb).
Qed.

Lemma delay_analysis_delay (orders_data : DataFrame) (r : delay_analysis) :
  get_delay_analysis parse_datetime orders_data = Ok r ->
  delay_derived (delay_data r) /\ late_rows_selected r.
Proof.
  unfold get_delay_analysis. intros H. cbv zeta in H.
  step H est Eest. step H del Edel. step H delay Edelay.
  step H pur E1; clear E1.
  step H real E1; clear E1. step H appr E1; clear E1.
  step H site E1; clear E1. step H carr E1; clear E1.
  step H seller E1; clear E1. step H shipping E1; clear E1.
  step H clean E1; clear E1. step H cd Ecd.
  step H late Elate.
  apply getitem_ok in Eest, Edel, Ecd.
  pose proof (delay_cells _ _ Edelay) as Hcells. clear Edelay.
  apply compare_zero_ok in Elate. subst late.
  assert (Hd : delay_derived
                 (add_net_state
                    (setitem (setitem (setitem (setitem (setitem
                       (convert_datetime_cols parse_datetime
                          ["order_purchase_timestamp"; "order_approved_at";
                           "order_delivered_carrier_date";
                           "order_delivered_customer_date";
                           "order_estimated_delivery_date"] orders_data)
                       "Delay" delay) "Real_Time" real) "Site_Real_PCT" site)
                       "Seller_Real_PCT" seller) "Shipping_Real_PCT" shipping))).
  { exists est, del, delay. other_columns.
    rewrite lookup_setitem_eq. auto. }
  assert (Hsel : lookup "Delay" (columns (loc clean (map lt_zero (values cd)))) =
                 Some (mkSeries (dtype_of cd)
                         (select (map lt_zero (values cd)) (values cd)))).
  { rewrite lookup_loc, Ecd. reflexivity. }
  assert (Hneg : Forall strictly_negative
                   (select (map lt_zero (values cd)) (values cd))).
  { eapply Forall_impl; [|apply select_all_true].
    intros c Hc. now apply lt_zero_spec. }
  destruct (0 <? index_len (loc clean (map lt_zero (values cd))))%nat.
  - step H d E1; clear E1. result_is H. split; [exact Hd|].
    exists cd; eexists. cbn [delay_data_clean delayed_orders].
    split; [exact Ecd|]. split.
    + rewrite lookup_setitem_ne by reflexivity. exact Hsel.
    + split; [reflexivity | exact Hneg].
  - result_is H. split; [exact Hd|].
    exists cd; eexists. cbn [delay_data_clean delayed_orders].
    split; [exact Ecd|]. split; [exact Hsel|].
    split; [reflexivity | exact Hneg].
Qed.

Lemma performance_analysis_delay (orders_data : DataFrame)
    (r : performance_analysis) :
  get_delivery_performance_analysis parse_datetime orders_data = Ok r ->
  delay_derived (perf_data r) /\ late_rows_flagged r.
Proof.
  unfold get_delivery_performance_analysis. intros H. cbv zeta in H.
  step H est Eest. step H del Edel. step H delay Edelay.
  step H st Est.
  apply getitem_ok in Eest, Edel.
  pose proof (delay_cells _ _ Edelay) as Hcells. clear Edelay Est.
  assert (Hd : delay_derived
                 (add_net_state
                    (setitem (convert_datetime_cols parse_datetime
                       ["order_purchase_timestamp"; "order_delivered_customer_date";
                        "order_estimated_delivery_date"] orders_data)
                       "Delay" delay))).
  { exists est, del, delay. other_columns.
    rewrite lookup_setitem_eq. auto. }
  match type of H with
  | (if ?b then _ else _) = _ => destruct b eqn:Hlen
  end.
  - step H d Ed. step H f1 E1. step H f2 E2; clear E2.
    apply getitem_ok in Ed. apply compare_zero_ok in E1. subst f1.
    result_is H. split; [exact Hd|].
    exists d. cbn [delivered_orders metrics pm_delayed_delivered].
    other_columns. split; [exact Ed|]. intros _.
    rewrite lookup_setitem_eq. auto.
  - result_is H. split; [exact Hd|].
    unfold late_rows_flagged.
    cbn [delivered_orders metrics pm_delayed_delivered].
    rewrite lookup_loc. other_columns. rewrite lookup_setitem_eq.
    eexists. split; [reflexivity|].
    intros Hpos. apply Nat.ltb_ge in Hlen. lia.
Qed.

(** C2. On both pages the derived [Delay] is the estimated delivery date
    minus the customer delivery date on every row where both are present, and
    the rows classified as delayed are exactly those whose [Delay] is
    strictly negative, that is, those delivered after the estimate. *)
Theorem delay_is_estimate_minus_delivery (orders_data : DataFrame) :
  (forall r, get_delay_analysis parse_datetime orders_data = Ok r ->
             delay_derived (delay_data r) /\ late_rows_selected r) /\
  (forall r, get_delivery_performance_analysis parse_datetime orders_data = Ok r ->
             delay_derived (perf_data r) /\ late_rows_flagged r) /\
  (forall estimated delivered : Z,
     lt_zero (sub_cell (Dt estimated) (Dt delivered)) = true <->
     (estimated < delivered)%Z).
Proof.
  split; [|split].
  - intros r. apply delay_analysis_delay.
  - intros r. apply performance_analysis_delay.
  - intros a b. simpl. rewrite Z.ltb_lt. lia.
Qed.

(** C7. On both pages every cell of the derived [Net_State] is 'Delivered'
    or 'Not_Delivered', and when the input has an [order_status] column the
    cell is 'Delivered' exactly on the rows whose status is 'delivered'. *)
Theorem net_state_is_binary (orders_data : DataFrame) :
  (forall r, get_delay_analysis parse_datetime orders_data = Ok r ->
             net_state_derived orders_data (delay_data r)) /\
  (forall r, get_delivery_performance_analysis parse_datetime orders_data = Ok r ->
             net_state_derived orders_data (perf_data r)).
Proof.
  split; intros r.
  - apply net_state_delay_analysis.
  - apply net_state_performance_analysis.
Qed.

End PagesProperties.

Lemma delay_is_estimate_minus_delivery_witness :
  exists r7 r9,
    Pages.get_delay_analysis Samples.no_parse Samples.three_orders = Pandas.Ok r7 /\
    Pages.get_delivery_performance_analysis Samples.no_parse Samples.three_orders
      = Pandas.Ok r9 /\
    (delay_derived (Pages.delay_data r7) /\ late_rows_selected r7) /\
    (delay_derived (Pages.perf_data r9) /\ late_rows_flagged r9).
Proof.
  eexists; eexists.
  split; [vm_compute; reflexivity|].
  split; [vm_compute; reflexivity|].
  split.
  - apply (proj1 (delay_is_estimate_minus_delivery Samples.no_parse
                    Samples.three_orders)).
    vm_compute; reflexivity.
  - apply (proj1 (proj2 (delay_is_estimate_minus_delivery Samples.no_parse
                           Samples.three_orders))).
    vm_compute; reflexivity.
Defined.

Lemma net_state_is_binary_witness :
  exists r7 r9,
    Pages.get_delay_analysis Samples.no_parse Samples.three_orders = Pandas.Ok r7 /\
    Pages.get_delivery_performance_analysis Samples.no_parse Samples.three_orders
      = Pandas.Ok r9 /\
    net_state_derived Samples.three_orders (Pages.delay_data r7) /\
    net_state_derived Samples.three_orders (Pages.perf_data r9).
Proof.
  eexists; eexists.
  split; [vm_compute; reflexivity|].
  split; [vm_compute; reflexivity|].
  split.
  - apply (proj1 (net_state_is_binary Samples.no_parse Samples.three_orders)).
    vm_compute; reflexivity.
  - apply (proj2 (net_state_is_binary Samples.no_parse Samples.three_orders)).
    vm_compute; reflexivity.
Defined.

(** ** Concentration charts: the value reported as Gini coefficient *)

Section GiniProperties.
Import Pandas Concentration.
Local Open Scope Q_scope.

Lemma Qnat_S (n : nat) : Qnat (S n) == Qnat n + 1.
Proof.
  unfold Qnat. rewrite Nat2Z.inj_succ, <- Z.add_1_r, inject_Z_plus. reflexivity.
Qed.

Lemma Qnat_pos (n : nat) : (0 < n)%nat -> 0 < Qnat n.
Proof.
  intros H. unfold Qnat, Qlt; simpl. lia.
Qed.

Lemma Qlt_bool_true (a b : Q) : a < b -> Qlt_bool a b = true.
Proof.
  intros H. unfold Qlt_bool. destruct (Qle_bool b a) eqn:E; auto.
  apply Qle_bool_iff in E. exfalso. apply (Qlt_not_le _ _ H E).
Qed.

Lemma sort_descending_repeat (v : Q) (n : nat) :
  sort_descending (repeat v n) = repeat v n.
Proof.
  unfold sort_descending, sort_by.
  induction n as [|n IH]; simpl; auto.
  rewrite IH. destruct n; simpl; auto.
  assert (E : Qle_bool v v = true) by (apply Qle_bool_iff, Qle_refl).
  now rewrite E.
Qed.

Lemma sort_descending_single (v : Q) (n : nat) :
  0 <= v -> sort_descending (v :: repeat 0 n) = v :: repeat 0 n.
Proof.
  intros Hv. unfold sort_descending, sort_by. simpl.
  fold (sort_by (fun a b => Qle_bool b a) (repeat 0 n)).
  pose proof (sort_descending_repeat 0 n) as E.
  unfold sort_descending in E. rewrite E.
  destruct n; simpl; auto.
  apply Qle_bool_iff in Hv. now rewrite Hv.
Qed.

Lemma Qsum_repeat (v : Q) (n : nat) : Qsum (repeat v n) == Qnat n * v.
Proof.
  induction n as [|n IH]; simpl.
  - unfold Qnat; simpl. ring.
  - rewrite IH, Qnat_S. ring.
Qed.

Lemma length_cumsum_from (acc : Q) (l : list Q) :
  length (cumsum_from acc l) = length l.
Proof.
  revert acc. induction l as [|x l IH]; intros acc; simpl; auto.
Qed.

Lemma trapezoid_cons2 (a b : Q) (r : list Q) :
  trapezoid (a :: b :: r) = (a + b) / 2 + trapezoid (b :: r).
Proof. reflexivity. Qed.

(** Area under an evenly rising curve: the cumulative sums of [S m] equal
    values [v], each sent through a linear map of slope [k]. *)
Lemma trapezoid_equal_shares (f : Q -> Q) (k v : Q) (m : nat) :
  (forall c, f c == c * k) ->
  forall acc,
    trapezoid (map f (cumsum_from acc (repeat v (S m)))) ==
    k * (Qnat m * acc + v * Qnat m * (Qnat m + 2) / 2).
Proof.
  intros Hf. induction m as [|m IH]; intros acc.
  - simpl. unfold Qnat; simpl. field.
  - change (repeat v (S (S m))) with (v :: repeat v (S m)).
    cbn [cumsum_from map].
    change (repeat v (S m)) with (v :: repeat v m) at 1.
    cbn [cumsum_from map]. rewrite trapezoid_cons2.
    change (f (acc + v + v) :: map f (cumsum_from (acc + v + v) (repeat v m)))
      with (map f (cumsum_from (acc + v) (repeat v (S m)))).
    rewrite IH, !Hf, Qnat_S. field.
Qed.

(** Area under a curve that is flat after its first point. *)
Lemma trapezoid_single_share (f : Q -> Q) (k : Q) (n : nat) :
  (forall c, f c == c * k) ->
  forall c0,
    trapezoid (map f (c0 :: cumsum_from c0 (repeat 0 n))) == Qnat n * (c0 * k).
Proof.
  intros Hf. induction n as [|n IH]; intros c0.
  - simpl. unfold Qnat; simpl. ring.
  - change (repeat 0 (S n)) with (0 :: repeat 0 n).
    cbn [cumsum_from map]. rewrite trapezoid_cons2.
    change (f (c0 + 0) :: map f (cumsum_from (c0 + 0) (repeat 0 n)))
      with (map f ((c0 + 0) :: cumsum_from (c0 + 0) (repeat 0 n))).
    rewrite IH, !Hf, Qnat_S. field.
Qed.

(** Area under the line of perfect equality, [np.linspace(0, 100, S (S m))]. *)
Lemma trapezoid_ramp (step : Q) (m a : nat) :
  trapezoid (map (fun i => 0 + Qnat i * step) (seq a (S m))) ==
  step * (Qnat m * Qnat a + Qnat m * Qnat m / 2).
Proof.
  revert a. induction m as [|m IH]; intros a.
  - simpl. unfold Qnat; simpl. field.
  - change (seq a (S (S m))) with (a :: seq (S a) (S m)).
    cbn [map]. change (seq (S a) (S m)) with (S a :: seq (S (S a)) m) at 1.
    cbn [map]. rewrite trapezoid_cons2.
    change ((0 + Qnat (S a) * step) ::
            map (fun i => 0 + Qnat i * step) (seq (S (S a)) m))
      with (map (fun i => 0 + Qnat i * step) (seq (S a) (S m))).
    rewrite IH, !Qnat_S. field.
Qed.

Lemma perfect_area (m : nat) :
  trapezoid (linspace 0 100 (S (S m))) == 50 * Qnat (S m).
Proof.
  unfold linspace. rewrite trapezoid_ramp.
  replace (S (S m) - 1)%nat with (S m) by lia.
  assert (H : ~ Qnat (S m) == 0).
  { intros E. pose proof (Qnat_pos (n := S m) ltac:(lia)) as P.
    rewrite E in P. now apply Qlt_irrefl in P. }
  change (Qnat 0) with 0. field. exact H.
Qed.

Lemma Qnat_nonneg (n : nat) : 0 <= Qnat n.
Proof. unfold Qnat, Qle; simpl. lia. Qed.

Lemma gini_of_curve_eq (curve : list Q) (m : nat) :
  length curve = S (S m) ->
  gini_of_curve curve ==
  (50 * Qnat (S m) - trapezoid curve) / (50 * Qnat (S m)).
Proof.
  intros Hlen. unfold gini_of_curve. rewrite Hlen.
  pose proof (perfect_area m) as P.
  rewrite Qlt_bool_true.
  - now rewrite P.
  - rewrite P. pose proof (Qnat_pos (n := S m) ltac:(lia)). lra.
Qed.

Lemma Qeq_bool_false (x y : Q) : ~ x == y -> Qeq_bool x y = false.
Proof.
  intros H. destruct (Qeq_bool x y) eqn:E; auto.
  now apply Qeq_bool_eq in E.
Qed.

Lemma vendor_gini_equal (v : Q) (m : nat) :
  0 < v ->
  exists g,
    create_vendor_concentration_chart (repeat v (S (S m))) = Some g /\
    g == - (1 / Qnat (S (S m))).
Proof.
  intros Hv. unfold create_vendor_concentration_chart.
  rewrite sort_descending_repeat.
  pose proof (Qsum_repeat v (S (S m))) as Ht.
  pose proof (Qnat_nonneg m) as Hm.
  rewrite !Qnat_S in Ht.
  set (t := Qsum (repeat v (S (S m)))) in *.
  assert (Hpos : 0 < t) by (rewrite Ht; nra).
  rewrite Qeq_bool_false by lra. cbn [andb].
  eexists. split; [reflexivity|].
  rewrite (gini_of_curve_eq _ (m := m))
    by now rewrite length_map; unfold cumsum; rewrite length_cumsum_from, repeat_length.
  unfold cumsum.
  rewrite (trapezoid_equal_shares (fun c => c / t * 100) (k := 100 / t)).
  2:{ intros c. field. lra. }
  rewrite !Qnat_S. rewrite Ht. field. repeat split; lra.
Qed.

Lemma vendor_gini_single (v : Q) (m : nat) :
  0 < v ->
  exists g,
    create_vendor_concentration_chart (v :: repeat 0 (S m)) = Some g /\
    g == - 1.
Proof.
  intros Hv. unfold create_vendor_concentration_chart.
  rewrite sort_descending_single by lra.
  assert (Ht : Qsum (v :: repeat 0 (S m)) == v).
  { change (Qsum (v :: repeat 0 (S m))) with (v + Qsum (repeat 0 (S m))).
    rewrite Qsum_repeat. ring. }
  pose proof (Qnat_nonneg m) as Hm.
  set (t := Qsum (v :: repeat 0 (S m))) in *.
  rewrite Qeq_bool_false by lra. cbn [andb].
  eexists. split; [reflexivity|].
  rewrite (gini_of_curve_eq _ (m := m)).
  2:{ rewrite length_map. unfold cumsum. cbn [cumsum_from length].
      now rewrite length_cumsum_from, repeat_length. }
  unfold cumsum. cbn [cumsum_from].
  rewrite (trapezoid_single_share (fun c => c / t * 100) (k := 100 / t)).
  2:{ intros c. field. lra. }
  rewrite !Qnat_S. rewrite Ht. field. repeat split; lra.
Qed.

Lemma length_repeat_lt2 {A} (x : A) (m : nat) :
  (length (repeat x (S (S m))) <? 2)%nat = false.
Proof. rewrite repeat_length. reflexivity. Qed.

Lemma regional_gini_equal (m : nat) :
  create_regional_concentration_chart
    (repeat (100 / Qnat (S (S m))) (S (S m))) == - (1 / Qnat (S (S m))).
Proof.
  unfold create_regional_concentration_chart.
  rewrite length_repeat_lt2, sort_descending_repeat.
  pose proof (Qnat_nonneg m) as Hm.
  rewrite (gini_of_curve_eq _ (m := m))
    by now unfold cumsum; rewrite length_cumsum_from, repeat_length.
  rewrite <- (map_id (cumsum _)). unfold cumsum.
  rewrite (trapezoid_equal_shares (fun c => c) (k := 1)).
  2:{ intros c. ring. }
  rewrite !Qnat_S. field. repeat split; lra.
Qed.

Lemma regional_gini_single (m : nat) :
  create_regional_concentration_chart (100 :: repeat 0 (S m)) == - 1.
Proof.
  unfold create_regional_concentration_chart.
  assert (E : Nat.ltb (length (100 :: repeat 0 (S m))) 2 = false)
    by (cbn [length]; now rewrite repeat_length).
  rewrite E, sort_descending_single by lra.
  pose proof (Qnat_nonneg m) as Hm.
  rewrite (gini_of_curve_eq _ (m := m)).
  2:{ unfold cumsum. cbn [cumsum_from length].
      now rewrite length_cumsum_from, repeat_length. }
  rewrite <- (map_id (cumsum _)). unfold cumsum. cbn [cumsum_from].
  rewrite (trapezoid_single_share (fun c => c) (k := 1)).
  2:{ intros c. ring. }
  rewrite !Qnat_S. field. lra.
Qed.

(** C1 (the code departs from it).  For every number [N >= 2] of vendors or
    states, the value both charts report as Gini coefficient is [-1/N] when
    the revenue or order share is spread equally, and [-1] when one vendor or
    state holds everything: it is never 0 for an equal distribution and it
    moves away from 1, towards -1, as concentration grows. *)
Theorem gini_is_negative_and_inverted (N : nat) (v : Q) :
  (2 <= N)%nat -> 0 < v ->
  (exists g, create_vendor_concentration_chart (repeat v N) = Some g /\
             g == - (1 / Qnat N)) /\
  (exists g, create_vendor_concentration_chart (v :: repeat 0 (N - 1)) = Some g /\
             g == - 1) /\
  create_regional_concentration_chart (repeat (100 / Qnat N) N) == - (1 / Qnat N) /\
  create_regional_concentration_chart (100 :: repeat 0 (N - 1)) == - 1.
Proof.
  intros HN Hv.
  destruct N as [|[|m]]; try lia.
  replace (S (S m) - 1)%nat with (S m) by lia.
  split; [now apply vendor_gini_equal|].
  split; [now apply vendor_gini_single|].
  split; [apply regional_gini_equal | apply regional_gini_single].
Qed.

End GiniProperties.

Lemma gini_is_negative_and_inverted_witness :
  Concentration.create_vendor_concentration_chart [5; 5] = Some (-20000 # 40000) /\
  (exists g, Concentration.create_vendor_concentration_chart (repeat 5 2) = Some g /\
             g == - (1 / Pandas.Qnat 2)) /\
  Concentration.create_regional_concentration_chart [100; 0] == - 1.
Proof.
  split; [vm_compute; reflexivity|].
  pose proof (gini_is_negative_and_inverted (N := 2) (v := 5)
                ltac:(lia) ltac:(reflexivity)) as (H1 & _ & _ & H4).
  split; [exact H1 | exact H4].
Defined.

(** ** Revenue analysis: the groups partition the rows *)

Section RevenueProperties.
Import Pandas Revenue.
Local Open Scope Q_scope.

Lemma insert_by_perm {A} (leb : A -> A -> bool) (x : A) (l : list A) :
  Permutation (insert_by leb x l) (x :: l).
Proof.
  induction l as [|y l IH]; simpl; auto.
  destruct (leb x y); auto.
  rewrite IH. apply perm_swap.
Qed.

Lemma sort_by_perm {A} (leb : A -> A -> bool) (l : list A) :
  Permutation (sort_by leb l) l.
Proof.
  unfold sort_by. induction l as [|x l IH]; simpl; auto.
  now rewrite insert_by_perm, IH.
Qed.

Lemma Qsum_perm (l l' : list Q) : Permutation l l' -> Qsum l == Qsum l'.
Proof.
  induction 1; simpl; try reflexivity.
  - now rewrite IHPermutation.
  - ring.
  - now rewrite IHPermutation1.
Qed.

Lemma hit_once (k' : string) (w : Q) (ks : list string) :
  NoDup ks -> In k' ks ->
  Qsum (map (fun k => if String.eqb k' k then w else 0) ks) == w.
Proof.
  induction 1 as [|k ks Hk Hnd IH]; intros Hin; [destruct Hin|].
  simpl. destruct (String.eqb k' k) eqn:E.
  - apply String.eqb_eq in E; subst k'.
    assert (Z : Qsum (map (fun k0 => if String.eqb k k0 then w else 0) ks) == 0).
    { clear IH Hnd Hin. induction ks as [|a ks IH]; simpl; [reflexivity|].
      destruct (String.eqb k a) eqn:Ea.
      - apply String.eqb_eq in Ea; subst a. destruct Hk; now left.
      - rewrite IH; [ring|]. intros H; apply Hk; now right. }
    rewrite Z. ring.
  - destruct Hin as [->|Hin]; [now rewrite String.eqb_refl in E|].
    rewrite IH by exact Hin. ring.
Qed.

Lemma miss_all (ks : list string) :
  Qsum (map (fun _ : string => 0) ks) == 0.
Proof. induction ks; simpl; [reflexivity | rewrite IHks; ring]. Qed.

Definition weight (c : option Q) : Q :=
  match c with Some x => x | None => 0 end.

Lemma sum_skipna_cons (c : option Q) (l : list (option Q)) :
  sum_skipna (c :: l) == weight c + sum_skipna l.
Proof. destruct c; simpl; ring. Qed.

Section Groups.
Variable A : Type.
Variable key : A -> option string.
Variable val : A -> option Q.

Definition group_total (rows : list A) (k : string) : Q :=
  sum_skipna (map val (filter (in_group key k) rows)).

Lemma Qsum_map_ext {B} (f g : B -> Q) (l : list B) :
  (forall x, f x == g x) -> Qsum (map f l) == Qsum (map g l).
Proof.
  intros H. induction l as [|x l IH]; simpl; [reflexivity|].
  now rewrite H, IH.
Qed.

Lemma Qsum_map_plus {B} (f g : B -> Q) (l : list B) :
  Qsum (map (fun x => f x + g x) l) == Qsum (map f l) + Qsum (map g l).
Proof.
  induction l as [|x l IH]; simpl; [ring|]. rewrite IH. ring.
Qed.

(** Every row falls in the group of its own key and in no other, so the
    group totals add up to the total over the rows whose key is in [ks]; a
    row without a key is in no group. *)
Lemma groups_partition (ks : list string) (rows : list A) :
  NoDup ks ->
  (forall r k, In r rows -> key r = Some k -> In k ks) ->
  Qsum (map (group_total rows) ks) ==
  sum_skipna (map val (filter (fun r => match key r with
                                        | Some _ => true
                                        | None => false
                                        end) rows)).
Proof.
  intros Hnd. induction rows as [|r rows IH]; intros Hin.
  - unfold group_total; simpl. apply miss_all.
  - assert (Hin' : forall r0 k, In r0 rows -> key r0 = Some k -> In k ks)
      by (intros r0 k H; apply Hin; now right).
    specialize (IH Hin').
    destruct (key r) as [k'|] eqn:Ek.
    + cbn [filter]. rewrite Ek. cbn [map]. rewrite sum_skipna_cons, <- IH.
      rewrite <- (@hit_once k' (weight (val r)) ks Hnd (Hin r k' (or_introl eq_refl) Ek)).
      rewrite <- Qsum_map_plus. apply Qsum_map_ext. intros k.
      unfold group_total. cbn [filter]. unfold in_group at 1. rewrite Ek.
      destruct (String.eqb k' k); [|ring].
      cbn [map]. now rewrite sum_skipna_cons.
    + cbn [filter]. rewrite Ek, <- IH.
      apply Qsum_map_ext. intros k.
      unfold group_total. cbn [filter]. unfold in_group at 1. now rewrite Ek.
Qed.

Lemma group_keys_nodup (rows : list A) : NoDup (group_keys key rows).
Proof.
  unfold group_keys.
  eapply Permutation_NoDup; [symmetry; apply sort_by_perm|].
  apply NoDup_nodup.
Qed.

Lemma group_keys_complete (rows : list A) (r : A) (k : string) :
  In r rows -> key r = Some k -> In k (group_keys key rows).
Proof.
  intros Hr Hk. unfold group_keys.
  eapply Permutation_in; [symmetry; apply sort_by_perm|].
  apply nodup_In. unfold present. apply in_flat_map.
  exists (Some k). split; [|now left].
  rewrite <- Hk. now apply in_map.
Qed.

Definition revenue_sum (t : list (string * Q)) : Q := Qsum (map snd t).

Lemma revenue_sum_groupby (rows : list A) :
  revenue_sum (sort_total_descending (groupby_sum key val rows)) ==
  sum_skipna (map val (filter (fun r => match key r with
                                        | Some _ => true
                                        | None => false
                                        end) rows)).
Proof.
  unfold revenue_sum, sort_total_descending.
  rewrite (Qsum_perm (Permutation_map snd (sort_by_perm _ _))).
  unfold groupby_sum. rewrite map_map. cbn [snd].
  apply groups_partition.
  - apply group_keys_nodup.
  - intros r k. apply group_keys_complete.
Qed.

Lemma filter_all {B} (p : B -> bool) (l : list B) :
  Forall (fun x => p x = true) l -> filter p l = l.
Proof.
  induction 1 as [|x l Hx Hl IH]; simpl; auto. now rewrite Hx, IH.
Qed.

End Groups.

Definition has_key (c : option string) : bool :=
  match c with Some _ => true | None => false end.

Lemma prepared_rows (items : list order_item) (prods : list product) :
  let rows := snd (prepare_data (init items prods)) in
  order_items_detailed (fst (prepare_data (init items prods))) = Some rows /\
  Forall (fun d => has_key (product_category_name (row d)) = true) rows /\
  Forall (fun d => In (item (row d)) items) rows.
Proof.
  unfold prepare_data, init. cbn [fst snd order_items products order_items_detailed].
  split; [reflexivity|]. split.
  - rewrite Forall_map, Forall_map. apply Forall_forall. intros m _.
    cbn [row]. unfold fill_category. cbn [product_category_name].
    now destruct (product_category_name m).
  - rewrite Forall_map, Forall_map. apply Forall_forall. intros m Hm.
    cbn [row]. unfold fill_category. cbn [item].
    unfold merge_left in Hm. apply in_flat_map in Hm as (it & Hit & Hm).
    destruct (filter _ prods) as [|p ps].
    + destruct Hm as [<-|[]]. exact Hit.
    + apply in_map_iff in Hm as (q & <- & _). exact Hit.
Qed.

Lemma analyze_by_total (key : detailed -> option string) (self : RevenueAnalyzer)
    (rows : list detailed) :
  order_items_detailed self = Some rows ->
  Forall (fun d => has_key (key d) = true) rows ->
  exists t,
    analyze_by key self "Total" = Ok t /\
    revenue_sum t == sum_skipna (map Total rows).
Proof.
  intros Hrows Hkeys. unfold analyze_by. rewrite Hrows.
  eexists. split; [reflexivity|].
  rewrite revenue_sum_groupby.
  now rewrite (filter_all (fun r => match key r with
                                    | Some _ => true
                                    | None => false
                                    end) Hkeys).
Qed.

Lemma flat_map_nothing {A B} (l : list A) :
  flat_map (fun _ : A => @nil B) l = [].
Proof. induction l as [|x l IH]; simpl; auto. Qed.

Lemma flat_map_of_map {A B C} (f : B -> list C) (g : A -> B) (l : list A) :
  flat_map f (map g l) = flat_map (fun x => f (g x)) l.
Proof. induction l as [|x l IH]; simpl; [reflexivity | now rewrite IH]. Qed.

(** A row put in front of the group of its key, among groups with distinct
    keys, is put in front of exactly one group. *)
Lemma flat_map_pick {A} (k0 : string) (r : A) (F : string -> list A)
    (ks : list string) :
  NoDup ks ->
  Permutation
    (flat_map (fun k => if String.eqb k0 k then r :: F k else F k) ks)
    (if in_dec string_dec k0 ks then r :: flat_map F ks else flat_map F ks).
Proof.
  induction 1 as [|k ks Hk Hnd IH]; [reflexivity|].
  cbn [flat_map].
  destruct (String.eqb_spec k0 k) as [->|Hne].
  - destruct (in_dec string_dec k ks) as [Hin|_]; [contradiction|].
    destruct (in_dec string_dec k (k :: ks)) as [_|Hno];
      [|destruct Hno; now left].
    cbn [app]. constructor. now apply Permutation_app_head.
  - destruct (in_dec string_dec k0 ks) as [Hin|Hno],
             (in_dec string_dec k0 (k :: ks)) as [Hin'|Hno'].
    + rewrite (Permutation_app_head (F k) IH). symmetry.
      apply Permutation_middle.
    + destruct Hno'. now right.
    + destruct Hin' as [E|Hin']; [now destruct Hne | contradiction].
    + now apply Permutation_app_head.
Qed.

(** The groups of a [groupby] are a partition of the rows that have a key:
    put one after the other they hold each such row once. *)
Lemma groups_cover_rows {A} (key : A -> option string) (ks : list string)
    (rows : list A) :
  NoDup ks ->
  (forall r k, In r rows -> key r = Some k -> In k ks) ->
  Permutation (flat_map (fun k => filter (in_group key k) rows) ks)
              (filter (fun r => has_key (key r)) rows).
Proof.
  intros Hnd. induction rows as [|r rows IH]; intros Hks.
  - cbn [filter]. now rewrite flat_map_nothing.
  - assert (IH' : Permutation
                    (flat_map (fun k => filter (in_group key k) rows) ks)
                    (filter (fun r => has_key (key r)) rows)).
    { apply IH. intros r' k Hr'. apply Hks. now right. }
    change (flat_map (fun k => filter (in_group key k) (r :: rows)) ks)
      with (flat_map (fun k => if in_group key k r
                               then r :: filter (in_group key k) rows
                               else filter (in_group key k) rows) ks).
    cbn [filter]. unfold in_group at 1.
    destruct (key r) as [k0|] eqn:E; cbn [has_key].
    + rewrite (flat_map_pick k0 r (fun k => filter (in_group key k) rows) Hnd).
      destruct (in_dec string_dec k0 ks) as [_|Hno].
      * now constructor.
      * destruct Hno. apply (Hks r k0); [now left | exact E].
    + exact IH'.
Qed.

(** A grouped table against the rows it was made from: its groups hold
    every row once, and each total is the sum over the rows of its group. *)
Definition partitions {A} (key : A -> option string) (val : A -> option Q)
    (rows : list A) (t : list (string * Q)) : Prop :=
  Permutation (flat_map (fun g => filter (in_group key (fst g)) rows) t) rows /\
  Forall (fun g => snd g = sum_skipna (map val (filter (in_group key (fst g)) rows)))
         t.

Lemma table_partitions {A} (key : A -> option string) (val : A -> option Q)
    (rows : list A) :
  Forall (fun r => has_key (key r) = true) rows ->
  partitions key val rows (sort_total_descending (groupby_sum key val rows)).
Proof.
  intros Hkeys.
  pose proof (sort_by_perm (fun a b : string * Q => Qle_bool (snd b) (snd a))
                (groupby_sum key val rows)) as P.
  fold (sort_total_descending (groupby_sum key val rows)) in P.
  split.
  - rewrite (Permutation_flat_map _ P). unfold groupby_sum.
    rewrite flat_map_of_map. cbn [fst].
    rewrite groups_cover_rows.
    + now rewrite (filter_all (fun r => has_key (key r)) Hkeys).
    + apply group_keys_nodup.
    + intros r k. apply group_keys_complete.
  - eapply Permutation_Forall; [symmetry; exact P|].
    unfold groupby_sum. rewrite Forall_map. apply Forall_forall.
    intros k _. reflexivity.
Qed.

Lemma analyze_by_partition (key : detailed -> option string)
    (self : RevenueAnalyzer) (rows : list detailed) :
  order_items_detailed self = Some rows ->
  Forall (fun d => has_key (key d) = true) rows ->
  exists t,
    analyze_by key self "Total" = Ok t /\
    partitions key Total rows t /\
    revenue_sum t == sum_skipna (map Total rows).
Proof.
  intros Hrows Hkeys.
  edestruct analyze_by_total as (t & Et & Hsum);
    [exact Hrows | exact Hkeys |].
  exists t. split; [exact Et|]. split; [|exact Hsum].
  unfold analyze_by in Et. rewrite Hrows in Et.
  apply Ok_inj in Et. subst t. now apply table_partitions.
Qed.

Lemma sellers_present (items : list order_item) (rows : list detailed) :
  Forall (fun it => has_key (seller_id it) = true) items ->
  Forall (fun d => In (item (row d)) items) rows ->
  Forall (fun d => has_key (seller_id (item (row d))) = true) rows.
Proof.
  intros Hs Hr. rewrite Forall_forall in *. intros d Hd. apply Hs, Hr, Hd.
Qed.

Lemma results_of_analysis (self self' : RevenueAnalyzer) (res : analysis_results)
    (rows : list detailed) :
  order_items_detailed self = Some rows ->
  run_comprehensive_analysis self = Ok (self', res) ->
  total_revenue res = sum_skipna (map Total rows) /\
  _analyze_by_category self "Total" = Ok (category_revenue_all res) /\
  _analyze_by_vendor self "Total" = Ok (vendor_revenue_all res).
Proof.
  intros Hrows H. unfold run_comprehensive_analysis in H.
  rewrite Hrows in H. cbv zeta in H. rewrite Hrows in H.
  apply bind_ok in H as (avg & _ & H).
  apply bind_ok in H as (c1 & E1 & H).
  apply bind_ok in H as (c2 & _ & H).
  apply bind_ok in H as (c3 & _ & H).
  apply bind_ok in H as (v1 & E4 & H).
  apply bind_ok in H as (v2 & _ & H).
  apply bind_ok in H as (v3 & _ & H).
  apply Ok_inj in H. injection H as _ <-.
  cbn [total_revenue category_revenue_all vendor_revenue_all]. auto.
Qed.

(** C3 (amended).  The groups of [_analyze_by_category('Total')] hold every
    merged row exactly once, missing categories having been filled with
    'Others', and so do the groups of [_analyze_by_vendor('Total')] whenever
    no order item lacks its [seller_id]; each total is the sum over its group.
    Hence, in exact arithmetic, the per-category totals sum to the total
    revenue, and the per-vendor totals do whenever no [seller_id] is missing.
    (The sums are those of exact rationals: in float64 the same rows are
    added in another order, and the two sides agree only up to rounding.) *)
Theorem revenue_groups_partition (items : list order_item) (prods : list product) :
  let self := fst (prepare_data (init items prods)) in
  let rows := snd (prepare_data (init items prods)) in
  (exists cats,
     _analyze_by_category self "Total" = Ok cats /\
     partitions (fun d => product_category_name (row d)) Total rows cats /\
     revenue_sum cats == sum_skipna (map Total rows)) /\
  (Forall (fun it => has_key (seller_id it) = true) items ->
   exists vendors,
     _analyze_by_vendor self "Total" = Ok vendors /\
     partitions (fun d => seller_id (item (row d))) Total rows vendors /\
     revenue_sum vendors == sum_skipna (map Total rows)) /\
  (forall self' res,
     run_comprehensive_analysis (init items prods) = Ok (self', res) ->
     revenue_sum (category_revenue_all res) == total_revenue res /\
     (Forall (fun it => has_key (seller_id it) = true) items ->
      revenue_sum (vendor_revenue_all res) == total_revenue res)).
Proof.
  intros self rows.
  destruct (prepared_rows items prods) as (Hrows & Hcat & Hitem).
  fold self rows in Hrows, Hcat, Hitem.
  assert (Hc : exists cats,
             _analyze_by_category self "Total" = Ok cats /\
             partitions (fun d => product_category_name (row d)) Total rows cats /\
             revenue_sum cats == sum_skipna (map Total rows))
    by (apply analyze_by_partition; assumption).
  assert (Hv : Forall (fun it => has_key (seller_id it) = true) items ->
               exists vendors,
                 _analyze_by_vendor self "Total" = Ok vendors /\
                 partitions (fun d => seller_id (item (row d))) Total rows
                   vendors /\
                 revenue_sum vendors == sum_skipna (map Total rows)).
  { intros Hs. apply analyze_by_partition; [assumption|].
    now apply sellers_present with (items := items). }
  split; [exact Hc|]. split; [exact Hv|].
  intros self' res Hrun.
  assert (Hrun' : run_comprehensive_analysis self = Ok (self', res)).
  { rewrite <- Hrun. unfold run_comprehensive_analysis at 2.
    cbn [init order_items_detailed]. fold self.
    unfold run_comprehensive_analysis. now rewrite Hrows. }
  destruct (results_of_analysis _ Hrows Hrun') as (Ht & Ec & Ev).
  rewrite Ht. split.
  - destruct Hc as (cats & Ec' & _ & Hsum). rewrite Ec in Ec'.
    apply Ok_inj in Ec'. now rewrite Ec'.
  - intros Hs. destruct (Hv Hs) as (vendors & Ev' & _ & Hsum). rewrite Ev in Ev'.
    apply Ok_inj in Ev'. now rewrite Ev'.
Qed.

End RevenueProperties.

Lemma revenue_groups_partition_witness :
  exists vendors,
    Revenue._analyze_by_vendor
      (fst (Revenue.prepare_data
              (Revenue.init Samples.two_items Samples.one_product))) "Total"
      = Pandas.Ok vendors /\
    partitions (fun d => Revenue.seller_id (Revenue.item (Revenue.row d)))
      Revenue.Total
      (snd (Revenue.prepare_data
              (Revenue.init Samples.two_items Samples.one_product)))
      vendors /\
    (revenue_sum vendors ==
     Revenue.sum_skipna
       (map Revenue.Total
          (snd (Revenue.prepare_data
                  (Revenue.init Samples.two_items Samples.one_product)))))%Q.
Proof.
  apply (proj1 (proj2 (revenue_groups_partition Samples.two_items
                         Samples.one_product))).
  repeat constructor.
Defined.

(** C3 as stated fails: an order item whose [seller_id] is missing belongs to
    no vendor group, so the vendor totals fall short of the total revenue. *)
Lemma vendor_totals_miss_unkeyed_row :
  exists self res,
    Revenue.run_comprehensive_analysis
      (Revenue.init Samples.item_without_seller []) = Pandas.Ok (self, res) /\
    Revenue.vendor_revenue_all res = [] /\
    ~ (revenue_sum (Revenue.vendor_revenue_all res) == Revenue.total_revenue res)%Q.
Proof.
  eexists; eexists. split; [vm_compute; reflexivity|].
  split; [reflexivity|].
  vm_compute. discriminate.
Qed.

(** ** Orders charts and the analyzer *)

Unset Implicit Arguments.

Section HeapLemmas.
Import Pandas Heap.

Lemma nth_error_update_eq {A} (r : nat) (x y : A) (h : list A) :
  nth_error h r = Some y -> nth_error (update r x h) r = Some x.
Proof.
  revert r. induction h as [|z h IH]; intros [|r] H; simpl in *;
    try discriminate; auto.
Qed.

Lemma nth_error_update_ne {A} (r r' : nat) (x : A) (h : list A) :
  r <> r' -> nth_error (update r x h) r' = nth_error h r'.
Proof.
  revert r r'. induction h as [|z h IH]; intros [|r] [|r'] H; simpl;
    try reflexivity; try lia.
  apply IH. lia.
Qed.

Lemma update_update {A} (r : nat) (x y : A) (h : list A) :
  update r x (update r y h) = update r x h.
Proof.
  revert r. induction h as [|z h IH]; intros [|r]; simpl; auto.
  now rewrite IH.
Qed.

Lemma update_same {A} (r : nat) (x : A) (h : list A) :
  nth_error h r = Some x -> update r x h = h.
Proof.
  revert r. induction h as [|z h IH]; intros [|r] H; simpl in *;
    try discriminate; auto.
  - now inversion H.
  - now rewrite IH.
Qed.

Lemma update_last {A} (x y : A) (h : list A) :
  update (length h) x (h ++ [y]) = h ++ [x].
Proof. induction h as [|z h IH]; simpl; auto. now rewrite IH. Qed.

Lemma nth_error_last {A} (x : A) (h : list A) :
  nth_error (h ++ [x]) (length h) = Some x.
Proof. induction h as [|z h IH]; simpl; auto. Qed.

Lemma nth_error_before {A} (x : A) (h : list A) (r : nat) (y : A) :
  nth_error h r = Some y -> nth_error (h ++ [x]) r = Some y.
Proof.
  intros H. rewrite nth_error_app1; auto.
  apply nth_error_Some. now rewrite H.
Qed.

Lemma read_at (r : ref) (h : heap) (df : DataFrame) :
  nth_error h r = Some df -> read r h = (Ok df, h).
Proof. intros H. unfold read. now rewrite H. Qed.

Lemma bindM_ok {A B} (m : M A) (k : A -> M B) (h h' : heap) (a : A) :
  m h = (Ok a, h') -> bindM m k h = k a h'.
Proof. intros H. unfold bindM. now rewrite H. Qed.


End HeapLemmas.

Section ChartProperties.
Import Pandas Heap Orders.
Local Open Scope string_scope.
Local Open Scope list_scope.

Variable parse_timedelta : string -> option Z.
Variable to_timedelta : option string -> Series -> result Series.

Lemma assign_column_at (r : ref) (h : heap) (df : DataFrame) (n : string)
    (s : Series) :
  nth_error h r = Some df ->
  assign_column r n s h = (Ok tt, update r (setitem df n s) h).
Proof.
  intros H. unfold assign_column, bindM. now rewrite (@read_at _ _ _ H).
Qed.

Lemma run_on_no_items (prods : list Revenue.product) :
  Revenue.run_comprehensive_analysis (Revenue.init [] prods)
  = Raise ZeroDivisionError.
Proof. reflexivity. Qed.

Lemma heatmap_of_empty (h : heap) (r : ref) (df : DataFrame) (pct_col : string)
    (ranges : option (list (Z * Z))) (title : option string) :
  nth_error h r = Some df -> empty df = true ->
  create_delay_heatmap parse_timedelta r pct_col ranges title h =
  (Ok (message_figure "No delayed orders available for the selected filters"), h).
Proof.
  intros Hr He. unfold create_delay_heatmap.
  rewrite (@bindM_ok _ _ _ _ _ _ _ (@read_at _ _ _ Hr)). now rewrite He.
Qed.

Lemma empty_loc (df : DataFrame) (mask : list bool) :
  index_len df = 0%nat -> empty (loc df mask) = true.
Proof. intros H. unfold empty, loc. cbn [index_len]. now rewrite H. Qed.

Lemma empty_rows (df : DataFrame) :
  index_len df = 0%nat -> empty df = true.
Proof. intros H. unfold empty. now rewrite H. Qed.

Lemma index_len_loc0 (df : DataFrame) (mask : list bool) :
  index_len df = 0%nat -> index_len (loc df mask) = 0%nat.
Proof. intros H. unfold loc. cbn [index_len]. now rewrite H. Qed.

Lemma geo_tail_empty (h : heap) (df : ref) (cur : DataFrame)
    (metric status : string) (delayed_only : bool) (mult : Q) (names : bool) :
  nth_error h df = Some cur -> index_len cur = 0%nat ->
  bindM (read df)
    (fun cur =>
       if empty cur then ret no_data
       else lift (geo_figure cur metric status delayed_only mult names)) h
  = (Ok no_data, h).
Proof.
  intros Hr H0. rewrite (@bindM_ok _ _ _ _ _ _ _ (@read_at _ _ _ Hr)).
  now rewrite (@empty_rows _ H0).
Qed.

(** A frame without rows that has the columns the map reads. *)
Definition rowless (wants_delayed : bool) (cur : DataFrame) : Prop :=
  index_len cur = 0%nat /\
  (exists ns, lookup "Net_State" (columns cur) = Some ns) /\
  (wants_delayed = true ->
   exists d, lookup "Delay" (columns cur) = Some d /\ dtype_of d <> datetime64).

Definition rowless_timedelta (wants_delayed : bool) (cur : DataFrame) : Prop :=
  index_len cur = 0%nat /\
  (exists ns, lookup "Net_State" (columns cur) = Some ns) /\
  (wants_delayed = true ->
   exists d, lookup "Delay" (columns cur) = Some d /\ dtype_of d = timedelta64).

Lemma to_timedelta_coerce_ok (d : Series) :
  dtype_of d <> datetime64 ->
  exists t, to_timedelta_coerce parse_timedelta d = Ok t /\
            dtype_of t = timedelta64.
Proof.
  intros H. unfold to_timedelta_coerce.
  destruct (dtype_of d); try (eexists; split; reflexivity).
  now destruct H.
Qed.

Lemma ensure_rowless (h : heap) (df : ref) (cur : DataFrame) :
  nth_error h df = Some cur -> rowless true cur ->
  exists cur',
    ensure_delay_timedelta parse_timedelta df h = (Ok tt, update df cur' h) /\
    rowless_timedelta true cur'.
Proof.
  intros Hr (H0 & Hns & Hd). destruct (Hd eq_refl) as (d & Ed & Hdt).
  unfold ensure_delay_timedelta.
  rewrite (@bindM_ok _ _ _ _ _ _ _ (@read_at _ _ _ Hr)), Ed.
  destruct (is_timedelta64_dtype d) eqn:Etd; cbn [negb].
  - exists cur. split.
    + unfold ret. now rewrite (@update_same _ _ _ _ Hr).
    + split; [exact H0|]. split; [exact Hns|]. intros _. exists d. split; auto.
      unfold is_timedelta64_dtype in Etd. now destruct (dtype_of d).
  - destruct (@to_timedelta_coerce_ok d Hdt) as (t & Et & Htd).
    exists (setitem cur "Delay" t). split.
    + unfold bindM at 1. unfold lift at 1. rewrite Et.
      apply (@assign_column_at _ _ _ _ _ Hr).
    + split; [exact H0|]. split.
      * destruct Hns as (ns & Ens). exists ns.
        now rewrite lookup_setitem_ne by reflexivity.
      * intros _. exists t. now rewrite lookup_setitem_eq.
Qed.

Lemma filter_status_rowless (w : bool) (status : string) (h : heap) (df : ref)
    (cur : DataFrame) :
  nth_error h df = Some cur -> rowless_timedelta w cur ->
  exists cur',
    filter_status status df h = (Ok (length h), h ++ [cur']) /\
    rowless_timedelta w cur'.
Proof.
  intros Hr (H0 & (ns & Ens) & Hd).
  unfold filter_status.
  rewrite (@bindM_ok _ _ _ _ _ _ _ (@read_at _ _ _ Hr)).
  unfold state_is, getitem. rewrite Ens. cbn [bind].
  unfold bindM at 1. unfold lift at 1.
  eexists. split; [reflexivity|].
  split; [now apply index_len_loc0|]. split.
  - eexists. rewrite lookup_loc, Ens. reflexivity.
  - intros Hw. destruct (Hd Hw) as (d & Ed & Htd).
    eexists. rewrite lookup_loc, Ed. cbn [option_map]. split; [reflexivity|].
    exact Htd.
Qed.

Lemma filter_delayed_rowless (h : heap) (df : ref) (cur : DataFrame) :
  nth_error h df = Some cur -> rowless_timedelta true cur ->
  exists cur',
    filter_delayed to_timedelta df h = (Ok (length h), h ++ [cur']) /\
    index_len cur' = 0%nat.
Proof.
  intros Hr (H0 & _ & Hd). destruct (Hd eq_refl) as (d & Ed & Htd).
  unfold filter_delayed, except_TypeError.
  rewrite (@bindM_ok _ _ _ _ _ _ _ (@read_at _ _ _ Hr)).
  unfold getitem. rewrite Ed.
  unfold bindM at 1. unfold lift at 1.
  unfold compare_zero. rewrite Htd.
  unfold bindM at 1. unfold lift at 1.
  eexists. split; [reflexivity|]. now apply index_len_loc0.
Qed.

Lemma rowless_weaken (w : bool) (cur : DataFrame) :
  rowless_timedelta true cur -> rowless_timedelta w cur.
Proof.
  intros (H0 & Hns & Hd). split; [exact H0|]. split; [exact Hns|].
  intros _. now apply Hd.
Qed.

(** [create_geo_bubble_map] on a frame without rows. *)
Lemma geo_map_of_rowless (h : heap) (r : ref) (df : DataFrame)
    (metric status : string) (delayed_only : bool) (mult : Q) (names : bool) :
  nth_error h r = Some df ->
  rowless (delayed_only || String.eqb metric "delayed") df ->
  fst (create_geo_bubble_map parse_timedelta to_timedelta r metric status
         delayed_only mult names h) = Ok no_data.
Proof.
  intros Hr Hrow. unfold create_geo_bubble_map.
  rewrite (@bindM_ok _ _ _ _ _ _ _ (@read_at _ _ _ Hr)).
  unfold bindM at 1. unfold alloc at 1. cbv zeta.
  set (w := delayed_only || String.eqb metric "delayed") in *.
  assert (H1 : exists h1 cur1,
             (if w then ensure_delay_timedelta parse_timedelta (length h)
              else ret tt) (h ++ [df]) = (Ok tt, h1) /\
             nth_error h1 (length h) = Some cur1 /\
             rowless_timedelta w cur1).
  { destruct w eqn:Ew.
    - destruct (@ensure_rowless (h ++ [df]) (length h) df
                  (nth_error_last df h) Hrow) as (cur' & E & Hc).
      exists (update (length h) cur' (h ++ [df])), cur'.
      split; [exact E|]. split; [|exact Hc].
      rewrite update_last. apply nth_error_last.
    - exists (h ++ [df]), df. split; [reflexivity|].
      split; [apply nth_error_last|].
      destruct Hrow as (H0 & Hns & _). split; [exact H0|].
      split; [exact Hns|]. discriminate. }
  destruct H1 as (h1 & cur1 & E1 & Hr1 & Hc1).
  rewrite (@bindM_ok _ _ _ _ _ _ _ E1).
  assert (H2 : exists h2 r2 cur2,
             (if negb (String.eqb status "All")
              then filter_status status (length h)
              else ret (length h)) h1 = (Ok r2, h2) /\
             nth_error h2 r2 = Some cur2 /\
             rowless_timedelta w cur2).
  { destruct (negb (String.eqb status "All")).
    - destruct (@filter_status_rowless w status h1 (length h) cur1 Hr1 Hc1)
        as (cur' & E & Hc).
      exists (h1 ++ [cur']), (length h1), cur'.
      split; [exact E|]. split; [apply nth_error_last | exact Hc].
    - exists h1, (length h), cur1. split; [reflexivity|]. auto. }
  destruct H2 as (h2 & r2 & cur2 & E2 & Hr2 & Hc2).
  rewrite (@bindM_ok _ _ _ _ _ _ _ E2).
  assert (H3 : exists h3 r3 cur3,
             (if w then filter_delayed to_timedelta r2 else ret r2) h2
             = (Ok r3, h3) /\
             nth_error h3 r3 = Some cur3 /\ index_len cur3 = 0%nat).
  { destruct w.
    - destruct (@filter_delayed_rowless h2 r2 cur2 Hr2 Hc2) as (cur' & E & Hc).
      exists (h2 ++ [cur']), (length h2), cur'.
      split; [exact E|]. split; [apply nth_error_last | exact Hc].
    - exists h2, r2, cur2. split; [reflexivity|]. split; [exact Hr2|].
      now destruct Hc2. }
  destruct H3 as (h3 & r3 & cur3 & E3 & Hr3 & H03).
  rewrite (@bindM_ok _ _ _ _ _ _ _ E3).
  erewrite geo_tail_empty by eassumption. reflexivity.
Qed.

End ChartProperties.

Section HeatmapRun.
Import Pandas Heap Orders.
Local Open Scope string_scope.
Local Open Scope list_scope.

Variable parse_timedelta : string -> option Z.

Definition default_bins : list Q :=
  map inject_Z (-30 :: map snd default_delay_day_ranges)%Z.

Definition default_labels : list string :=
  map range_label default_delay_day_ranges.

Definition delay_bin_of (dd : Series) : Series :=
  mkSeries category (map (cut_cell default_bins default_labels) (values dd)).

Definition pct_bin_of (pc : Series) : Series :=
  mkSeries category (map (cut_cell pct_bins pct_labels) (values pc)).

Definition heatmap_title (pct_col : string) (title : option string) : string :=
  match title with
  | Some t => t
  | None => "Delayed Orders Analysis - " ++ replace_char "_" " " pct_col
  end%string.

(** The table behind the figure, for the default ranges. *)
Definition heat_of (dd pc : Series) : CrossTable :=
  sort_index_descending
    (crosstab default_labels pct_labels
       (values (delay_bin_of dd)) (values (pct_bin_of pc))).

Lemma cut_default (dd : Series) :
  dtype_of dd = float64 ->
  cut dd default_bins default_labels = Ok (delay_bin_of dd).
Proof.
  intros H. unfold cut.
  replace (increasing default_bins) with true by (vm_compute; reflexivity).
  replace (unique_strings default_labels) with true by (vm_compute; reflexivity).
  cbn [negb]. now rewrite H.
Qed.

Lemma cut_pct (pc : Series) :
  dtype_of pc = float64 ->
  cut pc pct_bins pct_labels = Ok (pct_bin_of pc).
Proof.
  intros H. unfold cut.
  replace (increasing pct_bins) with true by (vm_compute; reflexivity).
  replace (unique_strings pct_labels) with true by (vm_compute; reflexivity).
  cbn [negb]. now rewrite H.
Qed.

Lemma has_column_lookup (n : string) (df : DataFrame) (s : Series) :
  lookup n (columns df) = Some s -> has_column n df = true.
Proof. intros H. unfold has_column. now rewrite H. Qed.

(** One run of [create_delay_heatmap] with the default ranges on a frame
    that already carries [delay_days]: the figure, and the caller's frame
    afterwards. *)
Lemma heatmap_run (h : heap) (r : ref) (df : DataFrame) (dd pc : Series)
    (pct_col : string) (title : option string) :
  nth_error h r = Some df -> empty df = false ->
  lookup "delay_days" (columns df) = Some dd -> dtype_of dd = float64 ->
  String.eqb "delay_bin" pct_col = false ->
  lookup pct_col (columns df) = Some pc -> dtype_of pc = float64 ->
  create_delay_heatmap parse_timedelta r pct_col None title h =
  (Ok (heatmap_figure (ct_values (heat_of dd pc)) (ct_columns (heat_of dd pc))
         (ct_index (heat_of dd pc)) (heatmap_title pct_col title)),
   update r (setitem (setitem df "delay_bin" (delay_bin_of dd))
               "pct_bin" (pct_bin_of pc)) h).
Proof.
  intros Hr He Hdd Tdd Hne Hpc Tpc.
  unfold create_delay_heatmap.
  rewrite (@bindM_ok _ _ _ _ _ _ _ (@read_at _ _ _ Hr)), He.
  rewrite (@has_column_lookup _ _ _ Hdd). cbn [negb].
  unfold bindM at 1. unfold ret at 1.
  cbv zeta.
  change (match default_delay_day_ranges with
          | [] => raise IndexError
          | r0 :: _ => ret (fst r0)
          end) with (@ret Z (-30)%Z).
  unfold bindM at 1. unfold ret at 1.
  rewrite (@bindM_ok _ _ _ _ _ _ _ (@read_at _ _ _ Hr)).
  unfold getitem at 1. rewrite Hdd.
  unfold bindM at 1. unfold lift at 1.
  fold default_bins default_labels.
  rewrite (cut_default dd Tdd).
  unfold bindM at 1. unfold lift at 1.
  rewrite (@bindM_ok _ _ _ _ _ _ _ (@assign_column_at _ _ _ "delay_bin"
                                      (delay_bin_of dd) Hr)).
  pose proof (@nth_error_update_eq _ r
                (setitem df "delay_bin" (delay_bin_of dd)) df h Hr) as Hr1.
  rewrite (@bindM_ok _ _ _ _ _ _ _ (@read_at _ _ _ Hr1)).
  unfold getitem at 1. rewrite (@lookup_setitem_ne df pct_col "delay_bin" (delay_bin_of dd) Hne), Hpc.
  unfold bindM at 1. unfold lift at 1.
  rewrite (cut_pct pc Tpc).
  unfold bindM at 1. unfold lift at 1.
  rewrite (@bindM_ok _ _ _ _ _ _ _ (@assign_column_at _ _ _ "pct_bin"
                                      (pct_bin_of pc) Hr1)).
  rewrite update_update. reflexivity.
Qed.

End HeatmapRun.

Section HeatmapCounts.
Import Pandas Heap Orders.
Local Open Scope string_scope.
Local Open Scope list_scope.
Local Open Scope nat_scope.

Definition ind (b : bool) : nat := if b then 1 else 0.

Definition table_total (z : list (list nat)) : nat :=
  list_sum (map (fun row => list_sum row) z).

(** The cell carries one of the labels. *)
Definition labelled (labels : list string) (c : cell) : bool :=
  existsb (fun l => eq_str l c) labels.

Lemma count_true_cons (b : bool) (l : list bool) :
  count_true (b :: l) = ind b + count_true l.
Proof. unfold count_true. now destruct b. Qed.

Lemma eq_str_unique (l l' : string) (c : cell) :
  eq_str l c = true -> eq_str l' c = true -> l = l'.
Proof.
  destruct c; simpl; try discriminate.
  intros H H'. apply String.eqb_eq in H, H'. congruence.
Qed.

(** The cell matches one of the keys of an axis. *)
Definition keyed (keys : list cell) (c : cell) : bool :=
  existsb (fun k => key_is k c) keys.

(** The counts of a table with the given row and column keys. *)
Definition cells (rows cols : list cell) (a b : list cell) : list (list nat) :=
  map (fun r =>
         map (fun c =>
                count_true (map2 (fun x y => key_is r x && key_is c y) a b))
             cols)
      rows.

Lemma key_is_unique (k k' c : cell) :
  key_is k c = true -> key_is k' c = true -> k = k'.
Proof.
  destruct k, k'; cbn [key_is]; try discriminate; try reflexivity.
  - destruct c; discriminate.
  - destruct c; discriminate.
  - intros H H'. f_equal. exact (eq_str_unique s s0 c H H').
Qed.

Lemma keyed_none (keys : list cell) (k c : cell) :
  key_is k c = true -> ~ In k keys -> keyed keys c = false.
Proof.
  intros Hk Hn. unfold keyed.
  induction keys as [|k' keys IH]; simpl; auto.
  destruct (key_is k' c) eqn:E.
  - destruct Hn. left. exact (key_is_unique k' k c E Hk).
  - apply IH. intros H; apply Hn; now right.
Qed.

Lemma line_total (keys : list cell) (p : bool) (c : cell) :
  NoDup keys ->
  list_sum (map (fun k => ind (p && key_is k c)) keys) =
  ind (p && keyed keys c).
Proof.
  induction 1 as [|k keys Hk Hnd IH]; simpl.
  - now rewrite andb_false_r.
  - rewrite IH. destruct (key_is k c) eqn:E; simpl.
    + rewrite (keyed_none keys k c E Hk). destruct p; reflexivity.
    + destruct p; reflexivity.
Qed.

Lemma list_sum_plus {B} (f g : B -> nat) (l : list B) :
  list_sum (map (fun x => f x + g x) l) = list_sum (map f l) + list_sum (map g l).
Proof. induction l as [|x l IH]; simpl; auto. rewrite IH. lia. Qed.

Lemma list_sum_ext {B} (f g : B -> nat) (l : list B) :
  (forall x, f x = g x) -> list_sum (map f l) = list_sum (map g l).
Proof.
  intros H. induction l as [|x l IH]; simpl; [reflexivity | now rewrite H, IH].
Qed.

Lemma zero_table {B C} (rows : list B) (cols : list C) :
  list_sum (map (fun _ => list_sum (map (fun _ => 0) cols)) rows) = 0.
Proof.
  assert (Z : list_sum (map (fun _ : C => 0) cols) = 0)
    by (induction cols; simpl; auto).
  rewrite Z. induction rows; simpl; auto.
Qed.

(** The cells of a table add up to the number of positions whose two cells
    both match a key of their axis. *)
Lemma cells_total (rows cols : list cell) (a b : list cell) :
  NoDup rows -> NoDup cols ->
  table_total (cells rows cols a b) =
  count_true (map2 (fun x y => keyed rows x && keyed cols y) a b).
Proof.
  intros Hr Hc. unfold table_total, cells. rewrite map_map.
  revert b. induction a as [|x a IH]; intros b.
  - apply zero_table.
  - destruct b as [|y b].
    + apply zero_table.
    + unfold map2 in *. cbn [combine map].
      rewrite count_true_cons, <- IH.
      rewrite (list_sum_ext
                 (fun r => list_sum (map (fun c =>
                    count_true ((key_is r x && key_is c y)
                       :: map (fun '(x0, y0) => key_is r x0 && key_is c y0)
                            (combine a b))) cols))
                 (fun r => ind (key_is r x && keyed cols y) +
                           list_sum (map (fun c =>
                             count_true (map (fun '(x0, y0) =>
                               key_is r x0 && key_is c y0) (combine a b))) cols))).
      * rewrite list_sum_plus. f_equal.
        rewrite (list_sum_ext _ (fun r => ind (keyed cols y && key_is r x))).
        -- rewrite line_total by assumption. now rewrite andb_comm.
        -- intros r. now rewrite andb_comm.
      * intros r. rewrite <- line_total by assumption.
        rewrite <- list_sum_plus. apply list_sum_ext. intros c.
        now rewrite count_true_cons.
Qed.

Lemma keyed_labels (labels : list string) (c : cell) :
  keyed (map Str labels) c = labelled labels c.
Proof.
  unfold keyed, labelled. induction labels as [|l labels IH]; simpl; auto.
  now rewrite IH.
Qed.

Lemma keyed_app (k1 k2 : list cell) (c : cell) :
  keyed (k1 ++ k2) c = keyed k1 c || keyed k2 c.
Proof. unfold keyed. apply existsb_app. Qed.

(** A cell of a categorical column is matched by the axis built over that
    column. *)
Lemma keyed_axis (labels : list string) (l : list cell) (c : cell) :
  In c l -> c = NA \/ labelled labels c = true ->
  keyed (axis labels l) c = true.
Proof.
  intros Hin Hc. unfold axis. rewrite keyed_app, keyed_labels.
  destruct Hc as [-> | ->]; [|reflexivity].
  assert (E : existsb isna l = true)
    by (apply existsb_exists; exists NA; now split).
  rewrite E. cbn. apply orb_true_r.
Qed.

Lemma combine_map_r {A B} (f : A -> B) (l : list A) :
  combine l (map f l) = map (fun x => (x, f x)) l.
Proof. induction l as [|x l IH]; simpl; [reflexivity | now rewrite IH]. Qed.

Lemma filter_map_all {A B} (p : B -> bool) (f : A -> B) (l : list A) (v : bool) :
  (forall x, In x l -> p (f x) = v) ->
  filter p (map f l) = if v then map f l else [].
Proof.
  intros H. induction l as [|x l IH]; simpl; [now destruct v|].
  rewrite (H x (or_introl eq_refl)), IH by (intros y Hy; apply H; now right).
  now destruct v.
Qed.

(** Sorting the index of a crosstab in descending order reverses the
    categories and leaves the NaN key, when there is one, in the last row. *)
Lemma sort_index_axis (f : cell -> list nat) (labels : list string)
    (missing cols : list cell) :
  Forall (fun k => k = NA) missing ->
  sort_index_descending
    (mkCrossTable (map Str labels ++ missing) cols
       (map f (map Str labels ++ missing)))
  = mkCrossTable (map Str (rev labels) ++ missing) cols
      (map f (map Str (rev labels) ++ missing)).
Proof.
  intros Hm. unfold sort_index_descending. cbn [ct_index ct_values ct_columns].
  rewrite combine_map_r, (map_app (fun x => (x, f x))), !filter_app.
  rewrite (filter_map_all (fun r => negb (isna (fst r)))
             (fun x => (x, f x)) (map Str labels) true).
  2:{ intros x Hx. apply in_map_iff in Hx as (l & <- & _). reflexivity. }
  rewrite (filter_map_all (fun r => negb (isna (fst r)))
             (fun x => (x, f x)) missing false).
  2:{ intros x Hx. rewrite Forall_forall in Hm. now rewrite (Hm x Hx). }
  rewrite (filter_map_all (fun r => isna (fst r))
             (fun x => (x, f x)) (map Str labels) false).
  2:{ intros x Hx. apply in_map_iff in Hx as (l & <- & _). reflexivity. }
  rewrite (filter_map_all (fun r => isna (fst r))
             (fun x => (x, f x)) missing true).
  2:{ intros x Hx. rewrite Forall_forall in Hm. now rewrite (Hm x Hx). }
  rewrite app_nil_r. cbn [app].
  rewrite <- map_rev, <- map_rev, <- map_app.
  rewrite !map_map. cbn [fst snd]. now rewrite map_id.
Qed.

Lemma sorted_crosstab (row_labels col_labels : list string) (a b : list cell) :
  let index := axis (rev row_labels) (map fst (combine a b)) in
  let cols := axis col_labels (map snd (combine a b)) in
  sort_index_descending (crosstab row_labels col_labels a b)
  = mkCrossTable index cols (cells index cols a b).
Proof.
  cbv zeta. unfold crosstab, axis, cells.
  apply sort_index_axis.
  destruct (existsb isna (map fst (combine a b)));
    repeat constructor.
Qed.

Lemma firstn_exact {A} (l r : list A) : firstn (length l) (l ++ r) = l.
Proof.
  induction l as [|x l IH]; simpl; [now destruct r | now rewrite IH].
Qed.

(** The block of a table that belongs to the categories: the rows and the
    columns before the NaN keys. *)
Definition labelled_block (rows cols : nat) (z : list (list nat))
  : list (list nat) :=
  map (firstn cols) (firstn rows z).

Lemma labelled_block_cells (rows cols : list string) (mr mc a b : list cell) :
  labelled_block (length rows) (length cols)
    (cells (map Str rows ++ mr) (map Str cols ++ mc) a b)
  = cells (map Str rows) (map Str cols) a b.
Proof.
  unfold labelled_block, cells. rewrite map_app.
  rewrite <- (length_map Str rows) at 1.
  rewrite <- (length_map
                (fun r => map (fun c => count_true
                   (map2 (fun x y => key_is r x && key_is c y) a b))
                   (map Str cols ++ mc)) (map Str rows)) at 1.
  rewrite firstn_exact, map_map.
  apply map_ext. intros r. rewrite map_app.
  rewrite <- (length_map Str cols) at 1.
  rewrite <- (length_map
                (fun c => count_true
                   (map2 (fun x y => key_is r x && key_is c y) a b))
                (map Str cols)) at 1.
  apply firstn_exact.
Qed.

Definition within (lo hi : Q) (c : cell) : bool :=
  match c with
  | Num x => Qle_bool lo x && Qle_bool x hi
  | _ => false
  end.

Lemma Qle_bool_false (a b : Q) : Qle_bool a b = false -> (b < a)%Q.
Proof.
  intros H. apply Qnot_le_lt. intros Hle.
  apply Qle_bool_iff in Hle. congruence.
Qed.

Lemma labelled_nth (labels : list string) (i : nat) (l : string) :
  nth_error labels i = Some l -> labelled labels (Str l) = true.
Proof.
  intros H. apply nth_error_In in H. unfold labelled.
  apply existsb_exists. exists l. split; [exact H|]. simpl.
  apply String.eqb_refl.
Qed.

Lemma labelled_NA (labels : list string) : labelled labels NA = false.
Proof. unfold labelled. induction labels; simpl; auto. Qed.

Lemma filter_none {B} (p : B -> bool) (l : list B) :
  Forall (fun b => p b = false) l -> length (filter p l) = 0.
Proof.
  induction 1 as [|b l Hb Hl IH]; simpl; auto. now rewrite Hb.
Qed.

Lemma filter_every {B} (p : B -> bool) (l : list B) :
  Forall (fun b => p b = true) l -> length (filter p l) = length l.
Proof.
  induction 1 as [|b l Hb Hl IH]; simpl; auto. rewrite Hb. simpl. now rewrite IH.
Qed.

Lemma filter_some {B} (p : B -> bool) (l : list B) (b : B) :
  In b l -> p b = true -> 1 <= length (filter p l).
Proof.
  intros Hin Hp. induction l as [|c l IH]; [destruct Hin|].
  simpl. destruct (p c) eqn:E; simpl; [lia|].
  destruct Hin as [->|Hin]; [congruence | now apply IH].
Qed.

Lemma filter_not_every {B} (p : B -> bool) (l : list B) (b : B) :
  In b l -> p b = false -> length (filter p l) < length l.
Proof.
  intros Hin Hp. induction l as [|c l IH]; [destruct Hin|].
  simpl. destruct Hin as [->|Hin].
  - rewrite Hp. pose proof (filter_length_le p l). lia.
  - specialize (IH Hin). destruct (p c); simpl; lia.
Qed.

(** [pd.cut] with [include_lowest=True] labels a number exactly when it lies
    between the first and the last bin edge, both included. *)
Lemma cut_cell_labelled (bins : list Q) (labels : list string) (b0 bl x : Q) :
  hd_error bins = Some b0 -> In bl bins ->
  length labels + 1 = length bins -> 2 <= length bins ->
  (forall y, (y <= b0)%Q -> Forall (fun b => (y <= b)%Q) bins) ->
  (forall y, (bl < y)%Q -> Forall (fun b => (b < y)%Q) bins) ->
  labelled labels (cut_cell bins labels (Num x)) = within b0 bl (Num x).
Proof.
  intros Hhd Hbl Hlen H2 Hmin Hmax.
  destruct bins as [|b rest]; [discriminate|].
  injection Hhd as ->.
  assert (Hb0l : (b0 <= bl)%Q).
  { pose proof (Hmin b0 (Qle_refl b0)) as F. rewrite Forall_forall in F.
    now apply F. }
  unfold cut_cell, within.
  set (bins := b0 :: rest) in *.
  assert (Hvalid : forall ids, 1 <= ids -> ids < length bins ->
            labelled labels
              (if (ids =? 0) || (ids =? length bins) then NA
               else match nth_error labels (ids - 1) with
                    | Some l => Str l
                    | None => NA
                    end) = true).
  { intros ids H1 Hlt.
    replace (ids =? 0) with false by (symmetry; apply Nat.eqb_neq; lia).
    replace (ids =? length bins) with false by (symmetry; apply Nat.eqb_neq; lia).
    cbn [orb].
    destruct (nth_error labels (ids - 1)) as [l|] eqn:E.
    - exact (labelled_nth labels (ids - 1) l E).
    - apply nth_error_None in E. lia. }
  destruct (Qeq_bool x b0) eqn:Eq.
  - apply Qeq_bool_eq in Eq.
    rewrite Hvalid by lia.
    symmetry. apply andb_true_iff. split; apply Qle_bool_iff; rewrite Eq;
      [apply Qle_refl | exact Hb0l].
  - apply Qeq_bool_neq in Eq.
    destruct (Qle_bool b0 x) eqn:E0.
    + apply Qle_bool_iff in E0.
      assert (Hlt0 : (b0 < x)%Q).
      { apply Qle_lteq in E0 as [H|H]; [exact H|]. destruct Eq. now symmetry. }
      destruct (Qle_bool x bl) eqn:El.
      * apply Hvalid; unfold searchsorted_left.
        -- apply (filter_some _ bins b0); [now left|].
           destruct (Qle_bool x b0) eqn:E; auto.
           apply Qle_bool_iff in E. exfalso. apply (Qlt_not_le _ _ Hlt0 E).
        -- apply (filter_not_every _ bins bl Hbl). now rewrite El.
      * apply Qle_bool_false in El.
        unfold searchsorted_left. rewrite filter_every.
        -- rewrite Nat.eqb_refl, orb_true_r. apply labelled_NA.
        -- eapply Forall_impl; [|apply (Hmax x El)]. cbv beta.
           intros b1 Hb1. destruct (Qle_bool x b1) eqn:E; auto.
           apply Qle_bool_iff in E. exfalso. apply (Qlt_not_le _ _ Hb1 E).
    + apply Qle_bool_false in E0.
      unfold searchsorted_left. rewrite filter_none.
      * apply labelled_NA.
      * eapply Forall_impl; [|apply (Hmin x (Qlt_le_weak _ _ E0))]. cbv beta.
        intros b1 Hb1. apply Qle_bool_iff in Hb1. now rewrite Hb1.
Qed.

Lemma default_bins_eq :
  default_bins = [-30 # 1; -20 # 1; -10 # 1; -5 # 1; -2 # 1; 0 # 1]%Q.
Proof. reflexivity. Qed.

Lemma pct_bins_eq :
  pct_bins = ltac:(let v := eval vm_compute in pct_bins in exact v).
Proof. vm_compute. reflexivity. Qed.

(** With the default ranges a delay gets a bin exactly when it lies in
    [[-30, 0]]. *)
Lemma delay_bin_labelled (c : cell) :
  labelled default_labels (cut_cell default_bins default_labels c) =
  within (-30)%Q 0%Q c.
Proof.
  destruct c; try reflexivity.
  apply cut_cell_labelled.
  - reflexivity.
  - rewrite default_bins_eq. simpl. tauto.
  - reflexivity.
  - rewrite default_bins_eq. simpl. lia.
  - intros y Hy. rewrite default_bins_eq. repeat constructor; lra.
  - intros y Hy. rewrite default_bins_eq. repeat constructor; lra.
Qed.

Lemma within_compat (lo lo' hi hi' : Q) (c : cell) :
  (lo == lo')%Q -> (hi == hi')%Q -> within lo hi c = within lo' hi' c.
Proof.
  intros Hlo Hhi. destruct c; try reflexivity.
  unfold within. now rewrite Hlo, Hhi.
Qed.

(** A percentage gets a bin exactly when it lies in [[0, 100]]. *)
Lemma pct_bin_labelled (c : cell) :
  labelled pct_labels (cut_cell pct_bins pct_labels c) = within 0%Q 100%Q c.
Proof.
  destruct c; try reflexivity.
  rewrite (within_compat 0 (0 # 10) 100 (1000 # 10))
    by (unfold Qeq; reflexivity).
  apply cut_cell_labelled.
  - reflexivity.
  - rewrite pct_bins_eq. simpl. tauto.
  - reflexivity.
  - rewrite pct_bins_eq. simpl. lia.
  - intros y Hy. rewrite pct_bins_eq. repeat constructor; lra.
  - intros y Hy. rewrite pct_bins_eq. repeat constructor; lra.
Qed.

End HeatmapCounts.

(** ** What a chart function may touch *)

Section Footprint.
Import Pandas Heap Orders.
Local Open Scope string_scope.
Local Open Scope list_scope.
Local Open Scope nat_scope.

(** [keeps n post m]: run on a heap with at least [n] objects, [m] leaves
    the first [n] of them as they are, drops none, and a value it returns
    satisfies [post]. *)
Definition keeps {A} (n : nat) (post : A -> Prop) (m : M A) : Prop :=
  forall h, n <= length h ->
    firstn n (snd (m h)) = firstn n h /\
    n <= length (snd (m h)) /\
    (forall a, fst (m h) = Ok a -> post a).

Lemma keeps_ret {A} (n : nat) (post : A -> Prop) (a : A) :
  post a -> keeps n post (ret a).
Proof.
  intros Hp h Hn. unfold ret; simpl. repeat split; auto.
  intros b H. injection H as <-. exact Hp.
Qed.

Lemma keeps_raise {A} (n : nat) (post : A -> Prop) (e : exn) :
  keeps n post (raise e).
Proof.
  intros h Hn. unfold raise; simpl. repeat split; auto. discriminate.
Qed.

Lemma keeps_lift {A} (n : nat) (r : result A) :
  keeps n (fun _ => True) (lift r).
Proof. intros h Hn. unfold lift; simpl. repeat split; auto. Qed.

Lemma keeps_read (n : nat) (r : ref) : keeps n (fun _ => True) (read r).
Proof.
  intros h Hn. unfold read. destruct (nth_error h r); simpl; repeat split; auto.
Qed.

Lemma keeps_alloc (n : nat) (df : DataFrame) :
  keeps n (fun r => n <= r) (alloc df).
Proof.
  intros h Hn. unfold alloc; simpl. repeat split.
  - rewrite firstn_app. replace (n - length h) with 0 by lia.
    simpl. now rewrite app_nil_r.
  - rewrite length_app. lia.
  - intros a H. inversion H. lia.
Qed.

Lemma length_update {A} (r : nat) (x : A) (h : list A) :
  length (update r x h) = length h.
Proof.
  revert r. induction h as [|y h IH]; intros [|r]; simpl; auto.
Qed.

Lemma firstn_update {A} (n r : nat) (x : A) (h : list A) :
  n <= r -> firstn n (update r x h) = firstn n h.
Proof.
  revert n r. induction h as [|y h IH]; intros [|n] [|r] H; simpl; auto; try lia.
  f_equal. apply IH. lia.
Qed.

Lemma keeps_write (n : nat) (r : ref) (df : DataFrame) :
  n <= r -> keeps n (fun _ => True) (write r df).
Proof.
  intros Hr h Hn. unfold write; simpl. repeat split; auto.
  - now apply firstn_update.
  - now rewrite length_update.
Qed.

Lemma keeps_bind {A B} (n : nat) (mid : A -> Prop) (post : B -> Prop)
    (m : M A) (k : A -> M B) :
  keeps n mid m -> (forall a, mid a -> keeps n post (k a)) ->
  keeps n post (bindM m k).
Proof.
  intros Hm Hk h Hn. unfold bindM.
  destruct (Hm h Hn) as (Hf & Hl & Hp).
  destruct (m h) as [[a|e] h'] eqn:E; simpl in *.
  - destruct (Hk a (Hp a eq_refl) h' Hl) as (Hf' & Hl' & Hp').
    repeat split; auto. congruence.
  - repeat split; auto. discriminate.
Qed.

Lemma keeps_weaken {A} (n : nat) (post post' : A -> Prop) (m : M A) :
  keeps n post m -> (forall a, post a -> post' a) -> keeps n post' m.
Proof.
  intros Hm Hw h Hn. destruct (Hm h Hn) as (Hf & Hl & Hp).
  repeat split; auto.
Qed.

Lemma keeps_except {A} (n : nat) (post : A -> Prop) (body handler : M A) :
  keeps n post body -> keeps n post handler ->
  keeps n post (except_TypeError body handler).
Proof.
  intros Hb Hh h Hn. unfold except_TypeError.
  destruct (Hb h Hn) as (Hf & Hl & Hp).
  destruct (body h) as [[a|e] h'] eqn:E; simpl in *.
  - repeat split; auto.
  - destruct e; simpl; try (repeat split; auto; discriminate).
    destruct (Hh h' Hl) as (Hf' & Hl' & Hp').
    repeat split; auto. congruence.
Qed.

Lemma keeps_assign_column (n : nat) (r : ref) (name : string) (s : Series) :
  n <= r -> keeps n (fun _ => True) (assign_column r name s).
Proof.
  intros Hr. unfold assign_column.
  eapply keeps_bind; [apply keeps_read|].
  intros df _. now apply keeps_write.
Qed.

End Footprint.

Section ChartClaims.
Import Pandas Heap Orders.
Local Open Scope string_scope.
Local Open Scope list_scope.
Local Open Scope nat_scope.

Variable parse_timedelta : string -> option Z.
Variable to_timedelta : option string -> Series -> result Series.

Ltac keeps_step :=
  first
    [ apply keeps_ret; solve [auto]
    | apply keeps_raise
    | apply keeps_alloc
    | apply keeps_assign_column; solve [auto]
    | eapply keeps_weaken; [apply keeps_lift | solve [auto]]
    | eapply keeps_weaken; [apply keeps_read | solve [auto]]
    | eapply keeps_weaken; [apply keeps_alloc | solve [auto]] ].

Lemma keeps_ensure (n : nat) (df : ref) :
  n <= df -> keeps n (fun _ => True) (ensure_delay_timedelta parse_timedelta df).
Proof.
  intros Hdf. unfold ensure_delay_timedelta.
  eapply keeps_bind; [apply keeps_read|]. intros cur _.
  destruct (lookup "Delay" (columns cur)) as [d|]; [|keeps_step].
  destruct (negb (is_timedelta64_dtype d)); [|keeps_step].
  eapply keeps_bind; [apply keeps_lift|]. intros t _. keeps_step.
Qed.

Lemma keeps_filter_status (n : nat) (status : string) (df : ref) :
  keeps n (fun r => n <= r) (filter_status status df).
Proof.
  unfold filter_status.
  eapply keeps_bind; [apply keeps_read|]. intros cur _.
  eapply keeps_bind; [apply keeps_lift|]. intros keep _.
  apply keeps_alloc.
Qed.

Lemma keeps_filter_delayed (n : nat) (df : ref) :
  n <= df -> keeps n (fun r => n <= r) (filter_delayed to_timedelta df).
Proof.
  intros Hdf. unfold filter_delayed. apply keeps_except.
  - eapply keeps_bind; [apply keeps_read|]. intros cur _.
    eapply keeps_bind; [apply keeps_lift|]. intros d _.
    eapply keeps_bind; [apply keeps_lift|]. intros late _.
    apply keeps_alloc.
  - eapply keeps_bind; [apply keeps_read|]. intros cur _.
    eapply keeps_bind; [apply keeps_lift|]. intros d _.
    eapply keeps_bind; [apply keeps_lift|]. intros t _.
    eapply keeps_bind; [apply keeps_lift|]. intros dd _.
    eapply keeps_bind; [apply keeps_assign_column; exact Hdf|]. intros _ _.
    eapply keeps_bind; [apply keeps_read|]. intros cur' _.
    eapply keeps_bind; [apply keeps_lift|]. intros late _.
    apply keeps_alloc.
Qed.

(** [create_geo_bubble_map] works on its own copy: every object that
    existed before the call is the same after it. *)
Lemma geo_map_keeps (n : nat) (orders_arg : ref) (metric status : string)
    (delayed_only : bool) (mult : Q) (names : bool) :
  keeps n (fun _ => True)
    (create_geo_bubble_map parse_timedelta to_timedelta orders_arg metric status
       delayed_only mult names).
Proof.
  unfold create_geo_bubble_map.
  eapply keeps_bind; [apply keeps_read|]. intros o _.
  eapply keeps_bind; [apply keeps_alloc|]. intros df Hdf. cbv zeta.
  eapply keeps_bind with (mid := fun _ => True).
  { destruct (delayed_only || (metric =? "delayed")%string).
    - now apply keeps_ensure.
    - keeps_step. }
  intros _ _.
  eapply keeps_bind with (mid := fun r => n <= r).
  { destruct (negb (status =? "All")%string).
    - apply keeps_filter_status.
    - keeps_step. }
  intros df2 Hdf2.
  eapply keeps_bind with (mid := fun r => n <= r).
  { destruct (delayed_only || (metric =? "delayed")%string).
    - now apply keeps_filter_delayed.
    - keeps_step. }
  intros df3 Hdf3.
  eapply keeps_bind; [apply keeps_read|]. intros cur _.
  destruct (empty cur); keeps_step.
Qed.

Lemma geo_map_leaves_heap (h : heap) (orders_arg : ref) (metric status : string)
    (delayed_only : bool) (mult : Q) (names : bool) :
  exists fresh,
    snd (create_geo_bubble_map parse_timedelta to_timedelta orders_arg metric
           status delayed_only mult names h) = h ++ fresh.
Proof.
  destruct (geo_map_keeps (length h) orders_arg metric status delayed_only mult
              names h (Nat.le_refl _)) as (Hf & Hl & _).
  rewrite firstn_all in Hf.
  match type of Hf with
  | firstn _ ?h' = _ =>
      exists (skipn (length h) h');
      rewrite <- (firstn_skipn (length h) h') at 1; now rewrite Hf
  end.
Qed.

Lemma heatmap_without_delay_columns (h : heap) (r : ref) (df : DataFrame)
    (pct_col : string) (ranges : option (list (Z * Z))) (title : option string) :
  nth_error h r = Some df -> empty df = false ->
  has_column "delay_days" df = false -> has_column "Delay" df = false ->
  create_delay_heatmap parse_timedelta r pct_col ranges title h =
  (Raise (ValueError "No delay information available in delayed_orders DataFrame"),
   h).
Proof.
  intros Hr He H1 H2. unfold create_delay_heatmap.
  rewrite (@bindM_ok _ _ _ _ _ _ _ (@read_at _ _ _ Hr)), He, H1, H2.
  reflexivity.
Qed.

Lemma count_true_all_false (l : list bool) :
  Forall (fun b => b = false) l -> count_true l = 0.
Proof.
  unfold count_true. induction 1 as [|b l Hb Hl IH]; simpl; auto.
  now rewrite Hb.
Qed.

Lemma Forall_firstn_of {B} (P : B -> Prop) (n : nat) (l : list B) :
  Forall P l -> Forall P (firstn n l).
Proof.
  intros H. revert n. induction H as [|x l Hx Hl IH]; intros [|n]; simpl; auto.
Qed.

Lemma select_only_flagged (f : cell -> bool) (g : cell -> bool)
    (dv nv : list cell) :
  (forall i c s, nth_error dv i = Some c -> f c = true ->
                 nth_error nv i = Some s -> g s = false) ->
  Forall (fun b => b = false) (map g (select (map f dv) nv)).
Proof.
  revert nv. induction dv as [|c dv IH]; intros nv H; simpl.
  - constructor.
  - destruct nv as [|s nv].
    + destruct (f c); constructor.
    + assert (Hrest : forall i c0 s0, nth_error dv i = Some c0 -> f c0 = true ->
                        nth_error nv i = Some s0 -> g s0 = false)
        by (intros i; apply (H (S i))).
      destruct (f c) eqn:E; simpl.
      * constructor; [apply (H 0 c s eq_refl E eq_refl) | now apply IH].
      * now apply IH.
Qed.

Lemma none_flagged (f : cell -> bool) (dv : list cell) :
  (forall i c, nth_error dv i = Some c -> f c = false) ->
  Forall (fun b => b = false) (map f dv).
Proof.
  induction dv as [|c dv IH]; intros H; simpl; constructor.
  - apply (H 0 c eq_refl).
  - apply IH. intros i; apply (H (S i)).
Qed.

(** [get_delayed_orders_by_stage] when no row is both late and of the
    requested status: the bare [pd.DataFrame()]. *)
Lemma delayed_by_stage_no_match (self : OrdersAnalyzer) (status pct_col : string)
    (d ns : Series) :
  lookup "Delay" (columns (orders_clean self)) = Some d ->
  dtype_of d = timedelta64 ->
  lookup "Net_State" (columns (orders_clean self)) = Some ns ->
  (forall i c, nth_error (values d) i = Some c -> lt_zero c = true ->
     (status =? "All")%string = false /\
     forall s, nth_error (values ns) i = Some s -> eq_str status s = false) ->
  get_delayed_orders_by_stage parse_timedelta to_timedelta self status pct_col
  = (Ok empty_frame, self).
Proof.
  intros Hd Htd Hns Hno. destruct self as [o clean]. cbn [orders_clean orders] in *.
  unfold get_delayed_orders_by_stage. cbn [orders_clean orders].
  unfold getitem at 1. rewrite Hd.
  unfold is_timedelta64_dtype. rewrite Htd.
  unfold getitem at 1. rewrite Hd. cbn [bind].
  unfold compare_zero. rewrite Htd. cbn [bind].
  destruct (status =? "All")%string eqn:Eall; cbn [negb].
  - assert (Hnone : Forall (fun b => b = false) (map lt_zero (values d))).
    { apply none_flagged. intros i c Hc.
      destruct (lt_zero c) eqn:E; auto.
      destruct (Hno i c Hc E) as (Hall & _). discriminate. }
    assert (He : empty (loc clean (map lt_zero (values d))) = true).
    { unfold empty, loc. cbn [index_len].
      rewrite count_true_all_false by now apply Forall_firstn_of. reflexivity. }
    cbn [bind]. now rewrite He.
  - unfold state_is, getitem. rewrite lookup_loc, Hns. cbn [option_map bind values].
    assert (He : empty
                   (loc (loc clean (map lt_zero (values d)))
                      (map (eq_str status)
                         (select (map lt_zero (values d)) (values ns)))) = true).
    { unfold empty. unfold loc at 1. cbn [index_len].
      rewrite count_true_all_false; [reflexivity|].
      apply Forall_firstn_of. apply select_only_flagged.
      intros i c s Hc Hlt Hs. destruct (Hno i c Hc Hlt) as (_ & Hs').
      now apply Hs'. }
    cbn [bind]. now rewrite He.
Qed.

Lemma delayed_by_stage_without_delay (self : OrdersAnalyzer)
    (status pct_col : string) :
  lookup "Delay" (columns (orders_clean self)) = None ->
  get_delayed_orders_by_stage parse_timedelta to_timedelta self status pct_col
  = (Raise (KeyError "Delay"), self).
Proof.
  intros H. unfold get_delayed_orders_by_stage, getitem. now rewrite H.
Qed.

Definition no_delayed_orders : Figure :=
  message_figure "No delayed orders available for the selected filters".

(** C4 (the code departs from it).  On empty input [create_delay_heatmap]
    and [create_geo_bubble_map] return their placeholder figures, but
    [RevenueAnalyzer.run_comprehensive_analysis] on empty [order_items]
    returns no results: its [total_products / total_orders] divides zero by
    zero and raises ZeroDivisionError, whatever [products] holds. *)
Theorem empty_input_results :
  (forall prods,
     Revenue.run_comprehensive_analysis (Revenue.init [] prods)
     = Raise ZeroDivisionError) /\
  (forall h r df pct_col ranges title,
     nth_error h r = Some df -> empty df = true ->
     create_delay_heatmap parse_timedelta r pct_col ranges title h
     = (Ok no_delayed_orders, h)) /\
  (forall h r df metric status delayed_only mult names,
     nth_error h r = Some df ->
     rowless (delayed_only || (metric =? "delayed")%string) df ->
     fst (create_geo_bubble_map parse_timedelta to_timedelta r metric status
            delayed_only mult names h) = Ok no_data).
Proof.
  split; [exact run_on_no_items|]. split.
  - intros. eapply heatmap_of_empty; eassumption.
  - intros. eapply geo_map_of_rowless; eassumption.
Qed.

(** C5 (amended).  [create_delay_heatmap] returns its placeholder for an
    empty frame, whatever columns it has, but on a frame with rows and with
    neither 'delay_days' nor 'Delay' it raises ValueError and leaves the
    frame alone; [get_delayed_orders_by_stage] returns the bare empty frame
    when no row is both late and of the requested status, and raises
    KeyError when the 'Delay' column is missing. *)
Theorem missing_delay_information :
  (forall h r df pct_col ranges title,
     nth_error h r = Some df -> empty df = false ->
     has_column "delay_days" df = false -> has_column "Delay" df = false ->
     create_delay_heatmap parse_timedelta r pct_col ranges title h
     = (Raise (ValueError
                 "No delay information available in delayed_orders DataFrame"),
        h)) /\
  (forall h r df pct_col ranges title,
     nth_error h r = Some df -> empty df = true ->
     create_delay_heatmap parse_timedelta r pct_col ranges title h
     = (Ok no_delayed_orders, h)) /\
  (forall self status pct_col d ns,
     lookup "Delay" (columns (orders_clean self)) = Some d ->
     dtype_of d = timedelta64 ->
     lookup "Net_State" (columns (orders_clean self)) = Some ns ->
     (forall i c, nth_error (values d) i = Some c -> lt_zero c = true ->
        (status =? "All")%string = false /\
        forall s, nth_error (values ns) i = Some s -> eq_str status s = false) ->
     get_delayed_orders_by_stage parse_timedelta to_timedelta self status pct_col
     = (Ok empty_frame, self)) /\
  (forall self status pct_col,
     lookup "Delay" (columns (orders_clean self)) = None ->
     get_delayed_orders_by_stage parse_timedelta to_timedelta self status pct_col
     = (Raise (KeyError "Delay"), self)).
Proof.
  split; [|split; [|split]].
  - intros. eapply heatmap_without_delay_columns; eassumption.
  - intros. eapply heatmap_of_empty; eassumption.
  - intros. now apply delayed_by_stage_no_match with (d := d) (ns := ns).
  - intros. now apply delayed_by_stage_without_delay.
Qed.

Lemma lookup_has_column (n : string) (df : DataFrame) :
  has_column n df = false -> lookup n (columns df) = None.
Proof.
  unfold has_column. now destruct (lookup n (columns df)).
Qed.

(** C6 (the code departs from it).  [create_geo_bubble_map] leaves the
    caller's frame as it was, but [create_delay_heatmap], run on a frame with
    rows, writes its 'delay_bin' and 'pct_bin' columns into the caller's
    frame: after the call that frame has two columns it did not have. *)
Theorem heatmap_writes_into_callers_frame (h : heap) (r : ref) (df : DataFrame)
    (dd pc : Series) (pct_col : string) (title : option string) :
  nth_error h r = Some df -> empty df = false ->
  lookup "delay_days" (columns df) = Some dd -> dtype_of dd = float64 ->
  ("delay_bin" =? pct_col)%string = false ->
  lookup pct_col (columns df) = Some pc -> dtype_of pc = float64 ->
  has_column "pct_bin" df = false ->
  (exists df',
     nth_error (snd (create_delay_heatmap parse_timedelta r pct_col None title h)) r
     = Some df' /\
     has_column "delay_bin" df' = true /\ has_column "pct_bin" df' = true /\
     df' <> df) /\
  (forall metric status delayed_only mult names,
     nth_error (snd (create_geo_bubble_map parse_timedelta to_timedelta r metric
                       status delayed_only mult names h)) r = Some df).
Proof.
  intros Hr He Hdd Tdd Hne Hpc Tpc Hnew. split.
  - rewrite (heatmap_run parse_timedelta h r df dd pc pct_col title
               Hr He Hdd Tdd Hne Hpc Tpc). cbn [snd].
    eexists. split; [apply (nth_error_update_eq r _ df h Hr)|].
    assert (H2 : has_column "pct_bin"
                   (setitem (setitem df "delay_bin" (delay_bin_of dd))
                      "pct_bin" (pct_bin_of pc)) = true).
    { unfold has_column. now rewrite lookup_setitem_eq. }
    split; [|split; [exact H2|]].
    + unfold has_column. rewrite lookup_setitem_ne by reflexivity.
      now rewrite lookup_setitem_eq.
    + intros E. rewrite E in H2. congruence.
  - intros metric status delayed_only mult names.
    destruct (geo_map_leaves_heap h r metric status delayed_only mult names)
      as (fresh & ->).
    rewrite nth_error_app1; [exact Hr|].
    apply nth_error_Some. now rewrite Hr.
Qed.

Definition late_days (c : cell) : Prop :=
  match c with
  | Num d => (d < 0)%Q
  | _ => True
  end.

Definition late_within (lo : Q) (c : cell) : bool :=
  match c with
  | Num d => Qle_bool lo d && negb (Qle_bool 0 d)
  | _ => false
  end.

Lemma count_map2_ext (f g : cell -> cell -> bool) (a b : list cell) :
  (forall x y, In x a -> f x y = g x y) ->
  count_true (map2 f a b) = count_true (map2 g a b).
Proof.
  unfold map2. revert b. induction a as [|x a IH]; intros b H; [reflexivity|].
  destruct b as [|y b]; [reflexivity|]. cbn [combine map].
  rewrite !count_true_cons, (H x y (or_introl eq_refl)).
  f_equal. apply IH. intros x' y' Hin. apply H. now right.
Qed.

Lemma map2_map {A B A' B' C} (F : A' -> B' -> C) (f : A -> A') (g : B -> B')
    (a : list A) (b : list B) :
  map2 F (map f a) (map g b) = map2 (fun x y => F (f x) (g y)) a b.
Proof.
  unfold map2. revert b. induction a as [|x a IH]; intros [|y b]; simpl; auto.
  now rewrite IH.
Qed.

Lemma labelled_rev (labels : list string) (c : cell) :
  labelled (rev labels) c = labelled labels c.
Proof.
  unfold labelled. induction labels as [|l labels IH]; simpl; auto.
  rewrite existsb_app, IH. simpl. rewrite orb_false_r. apply orb_comm.
Qed.

Lemma below_first_bin (d : Q) :
  (d < -30)%Q -> cut_cell default_bins default_labels (Num d) = NA.
Proof.
  intros H. unfold cut_cell. rewrite default_bins_eq.
  rewrite Qeq_bool_false by lra.
  unfold searchsorted_left. rewrite filter_none; [reflexivity|].
  repeat (apply Forall_cons; [apply negb_false_iff, Qle_bool_iff; lra|]).
  apply Forall_nil.
Qed.

Lemma cut_cell_cases (bins : list Q) (labels : list string) (c : cell) :
  cut_cell bins labels c = NA \/ labelled labels (cut_cell bins labels c) = true.
Proof.
  unfold cut_cell. destruct c; auto. cbv zeta.
  destruct (_ || _); auto.
  destruct (nth_error labels _) as [l|] eqn:E; auto.
  right. exact (labelled_nth labels _ l E).
Qed.

Lemma count_map2_in (f g : cell -> cell -> bool) (a b : list cell) :
  (forall x y, In (x, y) (combine a b) -> f x y = g x y) ->
  count_true (map2 f a b) = count_true (map2 g a b).
Proof.
  unfold map2. revert b. induction a as [|x a IH]; intros b H; [reflexivity|].
  destruct b as [|y b]; [reflexivity|]. cbn [combine map].
  rewrite !count_true_cons, (H x y (or_introl eq_refl)).
  f_equal. apply IH. intros x' y' Hin. apply H. now right.
Qed.

Lemma count_map2_true (a b : list cell) :
  count_true (map2 (fun _ _ => true) a b) = Nat.min (length a) (length b).
Proof.
  unfold map2. rewrite <- length_combine.
  induction (combine a b) as [|[x y] l IH]; [reflexivity|].
  cbn [map]. rewrite count_true_cons, IH. reflexivity.
Qed.

Lemma nth_error_combine {A B} (l : list A) (r : list B) (i : nat) (x : A) (y : B) :
  nth_error l i = Some x -> nth_error r i = Some y ->
  nth_error (combine l r) i = Some (x, y).
Proof.
  revert r i. induction l as [|a l IH]; intros [|b r] [|i]; simpl;
    try discriminate.
  - now intros [= ->] [= ->].
  - apply IH.
Qed.

Lemma axis_nodup (labels : list string) (l : list cell) :
  NoDup labels -> NoDup (axis labels l).
Proof.
  unfold axis. induction 1 as [|x labels Hx Hnd IH]; cbn [map app].
  - destruct (existsb isna l); repeat constructor. intros [].
  - constructor; [|exact IH].
    intros Hin. apply in_app_or in Hin as [Hin|Hin].
    + apply in_map_iff in Hin as (x' & E & Hin). injection E as ->. now apply Hx.
    + destruct (existsb isna l); [destruct Hin as [E|[]]; discriminate | destruct Hin].
Qed.

Lemma default_labels_nodup : NoDup default_labels.
Proof. repeat constructor; simpl; intuition discriminate. Qed.

Lemma pct_labels_nodup : NoDup pct_labels.
Proof. repeat constructor; simpl; intuition discriminate. Qed.

Lemma labels_nodup (labels : list string) : NoDup labels -> NoDup (map Str labels).
Proof.
  intros H. pose proof (axis_nodup labels [] H) as N. unfold axis in N.
  cbn [existsb] in N. now rewrite app_nil_r in N.
Qed.

(** The two columns the heatmap is counted over, and its two axes. *)
Definition delay_keys (dd : Series) : list cell := values (delay_bin_of dd).
Definition pct_keys (pc : Series) : list cell := values (pct_bin_of pc).

Definition heat_index (dd pc : Series) : list cell :=
  axis (rev default_labels) (map fst (combine (delay_keys dd) (pct_keys pc))).

Definition heat_columns (dd pc : Series) : list cell :=
  axis pct_labels (map snd (combine (delay_keys dd) (pct_keys pc))).

Lemma heat_of_cells (dd pc : Series) :
  heat_of dd pc =
  mkCrossTable (heat_index dd pc) (heat_columns dd pc)
    (cells (heat_index dd pc) (heat_columns dd pc) (delay_keys dd) (pct_keys pc)).
Proof.
  unfold heat_of. fold (delay_keys dd) (pct_keys pc).
  exact (sorted_crosstab default_labels pct_labels (delay_keys dd) (pct_keys pc)).
Qed.

Lemma labelled_is_str (labels : list string) (c : cell) :
  labelled labels c = true -> isna c = false.
Proof.
  unfold labelled. intros H. apply existsb_exists in H as (l & _ & H).
  now destruct c.
Qed.

Lemma isna_cut_cell (bins : list Q) (labels : list string) (c : cell) :
  isna (cut_cell bins labels c) = negb (labelled labels (cut_cell bins labels c)).
Proof.
  destruct (cut_cell_cases bins labels c) as [E|E].
  - rewrite E. now rewrite labelled_NA.
  - rewrite E. now apply (labelled_is_str labels).
Qed.

Lemma existsb_of_map {A B} (p : B -> bool) (f : A -> B) (l : list A) :
  existsb p (map f l) = existsb (fun x => p (f x)) l.
Proof. induction l as [|x l IH]; simpl; [reflexivity | now rewrite IH]. Qed.

Lemma existsb_same {A} (p q : A -> bool) (l : list A) :
  (forall x, p x = q x) -> existsb p l = existsb q l.
Proof.
  intros H. induction l as [|x l IH]; simpl; [reflexivity | now rewrite H, IH].
Qed.

Lemma existsb_combine_map {A B A' B'} (f : A -> A') (g : B -> B')
    (p : A' * B' -> bool) (a : list A) (b : list B) :
  existsb p (combine (map f a) (map g b))
  = existsb (fun ab => p (f (fst ab), g (snd ab))) (combine a b).
Proof.
  revert b. induction a as [|x a IH]; intros [|y b]; simpl; auto.
  now rewrite IH.
Qed.

(** Some row has a delay outside the ranges, or a percentage outside the
    bins. *)
Definition some_delay_outside (dd pc : Series) : bool :=
  existsb (fun cp => negb (within (-30) 0 (fst cp)))
          (combine (values dd) (values pc)).

Definition some_pct_outside (dd pc : Series) : bool :=
  existsb (fun cp => negb (within 0 100 (snd cp)))
          (combine (values dd) (values pc)).

Lemma heat_index_eq (dd pc : Series) :
  heat_index dd pc =
  map Str (rev default_labels)
  ++ (if some_delay_outside dd pc then [NA] else []).
Proof.
  unfold heat_index, axis, some_delay_outside. f_equal.
  rewrite existsb_of_map. unfold delay_keys, pct_keys, delay_bin_of, pct_bin_of.
  cbn [values]. rewrite existsb_combine_map.
  rewrite (existsb_same _ (fun cp => negb (within (-30) 0 (fst cp))));
    [reflexivity|].
  intros [c p]. cbn [fst snd].
  now rewrite isna_cut_cell, delay_bin_labelled.
Qed.

Lemma heat_columns_eq (dd pc : Series) :
  heat_columns dd pc =
  map Str pct_labels ++ (if some_pct_outside dd pc then [NA] else []).
Proof.
  unfold heat_columns, axis, some_pct_outside. f_equal.
  rewrite existsb_of_map. unfold delay_keys, pct_keys, delay_bin_of, pct_bin_of.
  cbn [values]. rewrite existsb_combine_map.
  rewrite (existsb_same _ (fun cp => negb (within 0 100 (snd cp))));
    [reflexivity|].
  intros [c p]. cbn [fst snd].
  now rewrite isna_cut_cell, pct_bin_labelled.
Qed.

Lemma heat_total (dd pc : Series) :
  table_total (cells (heat_index dd pc) (heat_columns dd pc)
                 (delay_keys dd) (pct_keys pc))
  = Nat.min (length (values dd)) (length (values pc)).
Proof.
  rewrite cells_total.
  - rewrite (count_map2_in _ (fun _ _ => true)).
    + rewrite count_map2_true. unfold delay_keys, pct_keys, delay_bin_of,
        pct_bin_of. cbn [values]. now rewrite !length_map.
    + intros x y Hin. apply andb_true_iff. split.
      * apply keyed_axis.
        -- apply in_map_iff. exists (x, y). now split.
        -- apply in_combine_l in Hin. unfold delay_keys, delay_bin_of in Hin.
           cbn [values] in Hin. apply in_map_iff in Hin as (c & <- & _).
           rewrite labelled_rev. apply cut_cell_cases.
      * apply keyed_axis.
        -- apply in_map_iff. exists (x, y). now split.
        -- apply in_combine_r in Hin. unfold pct_keys, pct_bin_of in Hin.
           cbn [values] in Hin. apply in_map_iff in Hin as (c & <- & _).
           apply cut_cell_cases.
  - apply axis_nodup, NoDup_rev, default_labels_nodup.
  - apply axis_nodup, pct_labels_nodup.
Qed.

Lemma heat_block (dd pc : Series) :
  table_total (labelled_block 5 10
                 (cells (heat_index dd pc) (heat_columns dd pc)
                    (delay_keys dd) (pct_keys pc)))
  = count_true (map2 (fun d p => within (-30) 0 d && within 0 100 p)
                     (values dd) (values pc)).
Proof.
  unfold heat_index, heat_columns, axis.
  change (labelled_block 5 10)
    with (labelled_block (length (rev default_labels)) (length pct_labels)).
  rewrite (labelled_block_cells (rev default_labels) pct_labels), cells_total.
  - unfold delay_keys, pct_keys, delay_bin_of, pct_bin_of. cbn [values].
    rewrite map2_map. apply count_map2_ext. intros d p _.
    rewrite !keyed_labels, labelled_rev.
    now rewrite delay_bin_labelled, pct_bin_labelled.
  - apply labels_nodup, NoDup_rev, default_labels_nodup.
  - apply labels_nodup, pct_labels_nodup.
Qed.

(** C10 (amended).  With the default ranges, on a frame with rows that
    carries 'delay_days': a row with 'delay_days' below -30 gets no
    'delay_bin' label, yet it is not left out of the heatmap, since
    [pd.crosstab(..., dropna=False)] keeps the missing label as a key of its
    own.  The figure has the five ranges as rows, from the last to the first,
    and a sixth row with the key NaN exactly when some row has its
    'delay_days' missing or outside [-30, 0]; likewise the ten percentage
    bins as columns and an eleventh column exactly when some percentage is
    missing or outside [0, 100]; its cells add up to the number of all rows.
    Only the cells of the five labelled rows and ten labelled columns add up
    to the number of rows with 'delay_days' in [-30, 0] and a percentage in
    [0, 100], which for delayed orders (all 'delay_days' negative) is
    [-30, 0). *)
Theorem heatmap_counts_every_row (h : heap) (r : ref) (df : DataFrame)
    (dd pc : Series) (pct_col : string) (title : option string) :
  nth_error h r = Some df -> empty df = false ->
  lookup "delay_days" (columns df) = Some dd -> dtype_of dd = float64 ->
  ("delay_bin" =? pct_col)%string = false ->
  lookup pct_col (columns df) = Some pc -> dtype_of pc = float64 ->
  exists z x y t bins,
    create_delay_heatmap parse_timedelta r pct_col None title h
    = (Ok (heatmap_figure z x y t),
       update r (setitem (setitem df "delay_bin" bins) "pct_bin" (pct_bin_of pc)) h)
    /\
    (forall i d, nth_error (values dd) i = Some (Num d) -> (d < -30)%Q ->
                 nth_error (values bins) i = Some NA) /\
    table_total z = Nat.min (length (values dd)) (length (values pc)) /\
    (length (values dd) = index_len df -> length (values pc) = index_len df ->
     table_total z = index_len df) /\
    y = map Str (rev default_labels)
        ++ (if some_delay_outside dd pc then [NA] else []) /\
    x = map Str pct_labels ++ (if some_pct_outside dd pc then [NA] else []) /\
    length z = length y /\ Forall (fun row => length row = length x) z /\
    (forall i d p,
       nth_error (values dd) i = Some (Num d) -> (d < -30)%Q ->
       nth_error (values pc) i = Some p ->
       y = map Str (rev default_labels) ++ [NA] /\ length z = 6) /\
    table_total (labelled_block 5 10 z) =
      count_true (map2 (fun d p => within (-30) 0 d && within 0 100 p)
                       (values dd) (values pc)) /\
    (Forall late_days (values dd) ->
     table_total (labelled_block 5 10 z) =
       count_true (map2 (fun d p => late_within (-30) d && within 0 100 p)
                        (values dd) (values pc))).
Proof.
  intros Hr He Hdd Tdd Hne Hpc Tpc.
  do 5 eexists. split.
  { apply (heatmap_run parse_timedelta h r df dd pc pct_col title
             Hr He Hdd Tdd Hne Hpc Tpc). }
  rewrite heat_of_cells. cbn [ct_values ct_columns ct_index].
  assert (Hbelow : forall i d, nth_error (values dd) i = Some (Num d) ->
                     (d < -30)%Q ->
                     nth_error (values (delay_bin_of dd)) i = Some NA).
  { intros i d Hi Hd. unfold delay_bin_of. cbn [values].
    rewrite nth_error_map, Hi. cbn [option_map]. f_equal.
    now apply below_first_bin. }
  split; [exact Hbelow|].
  split; [apply heat_total|].
  split; [intros Ld Lp; rewrite heat_total, Ld, Lp; apply Nat.min_id|].
  split; [apply heat_index_eq|].
  split; [apply heat_columns_eq|].
  split; [unfold cells; apply length_map|].
  split.
  { unfold cells. rewrite Forall_map. apply Forall_forall.
    intros k _. apply length_map. }
  split; [|split].
  - intros i d p Hi Hd Hp.
    assert (Hout : some_delay_outside dd pc = true).
    { apply existsb_exists. exists (Num d, p). split.
      - apply (nth_error_In _ i). now apply nth_error_combine.
      - cbn [fst within]. apply negb_true_iff, andb_false_iff. left.
        destruct (Qle_bool (-30) d) eqn:E; [|reflexivity].
        apply Qle_bool_iff in E. exfalso. apply (Qlt_not_le _ _ Hd E). }
    unfold cells. rewrite length_map, heat_index_eq, Hout.
    split; [reflexivity|]. now rewrite length_app, length_map.
  - apply heat_block.
  - intros Hlate. rewrite heat_block. apply count_map2_ext.
    intros d p Hin. f_equal.
    rewrite Forall_forall in Hlate. specialize (Hlate d Hin).
    destruct d; try reflexivity. cbn in Hlate |- *. f_equal.
    destruct (Qle_bool x 0) eqn:E1, (Qle_bool 0 x) eqn:E2; try reflexivity.
    + apply Qle_bool_iff in E2. exfalso. apply (Qlt_not_le _ _ Hlate E2).
    + apply Qle_bool_false in E1. exfalso.
      apply (Qlt_irrefl 0). now apply Qlt_trans with x.
Qed.

End ChartClaims.

Section AnalyzerClaims.
Import Pandas Orders.
Local Open Scope string_scope.
Local Open Scope list_scope.
Local Open Scope nat_scope.

Variable parse_timedelta : string -> option Z.
Variable to_timedelta : option string -> Series -> result Series.
Variable astype_str : Series -> Series.

(** What pandas documents of [pd.to_timedelta]: a conversion that fails
    raises ValueError or TypeError, one that succeeds returns a timedelta
    column. *)
Definition raises_value_or_type : Prop :=
  forall s e, to_timedelta None s = Raise e -> catches_value_or_type e = true.

Definition returns_timedelta : Prop :=
  forall unit s t, to_timedelta unit s = Ok t -> dtype_of t = timedelta64.

(** The [Delay] column, if the frame has one, is timedelta-typed or all NaT. *)
Definition delay_settled (df : DataFrame) : Prop :=
  forall d, lookup "Delay" (columns df) = Some d ->
            dtype_of d = timedelta64 \/ Forall (fun c => c = NA) (values d).

(** The second attempt of a conversion block: a numeric column is read as a
    number of days, any other column through its strings. *)
Definition second_attempt (delay : Series) : result Series :=
  if is_numeric_dtype delay then to_timedelta (Some "D") delay
  else to_timedelta None (astype_str delay).

(** What a conversion block that returns has done to its frame, and what it
    has printed. *)
Inductive converts (warning : string) (df : DataFrame)
  : DataFrame -> list string -> Prop :=
| left_alone :
    (forall d, lookup "Delay" (columns df) = Some d ->
               is_timedelta64_dtype d = true) ->
    converts warning df df []
| converted_directly (d t : Series) :
    lookup "Delay" (columns df) = Some d -> is_timedelta64_dtype d = false ->
    to_timedelta None d = Ok t ->
    converts warning df (setitem df "Delay" t) []
| converted_by_fallback (d t : Series) (e : exn) :
    lookup "Delay" (columns df) = Some d -> is_timedelta64_dtype d = false ->
    to_timedelta None d = Raise e -> catches_value_or_type e = true ->
    second_attempt d = Ok t ->
    converts warning df (setitem df "Delay" t) []
| filled_with_NaT (d : Series) (e e' : exn) :
    lookup "Delay" (columns df) = Some d -> is_timedelta64_dtype d = false ->
    to_timedelta None d = Raise e -> catches_value_or_type e = true ->
    second_attempt d = Raise e' ->
    converts warning df (setitem df "Delay" (broadcast df datetime64 NA))
      [warning].

(** An exception leaves a conversion block only from its first
    [pd.to_timedelta] call, and only if it is neither a ValueError nor a
    TypeError. *)
Definition escapes (df : DataFrame) (e : exn) : Prop :=
  exists d,
    lookup "Delay" (columns df) = Some d /\ is_timedelta64_dtype d = false /\
    to_timedelta None d = Raise e /\ catches_value_or_type e = false.

Lemma convert_delay_outcome (warning : string) (df : DataFrame) :
  match convert_delay to_timedelta astype_str warning df with
  | (Ok df', out) => converts warning df df' out
  | (Raise e, out) => out = [] /\ escapes df e
  end.
Proof.
  unfold convert_delay.
  destruct (lookup "Delay" (columns df)) as [delay|] eqn:E.
  2:{ apply left_alone. intros d Hd. congruence. }
  destruct (is_timedelta64_dtype delay) eqn:Etd.
  { apply left_alone. intros d Hd. congruence. }
  destruct (to_timedelta None delay) as [t|e] eqn:E1.
  { now apply (converted_directly warning df delay t). }
  destruct (catches_value_or_type e) eqn:Ec.
  - fold (second_attempt delay).
    destruct (second_attempt delay) as [t|e2] eqn:E2.
    + now apply (converted_by_fallback warning df delay t e).
    + now apply (filled_with_NaT warning df delay e e2).
  - split; [reflexivity|]. now exists delay.
Qed.

Lemma converts_keeps_columns (warning : string) (df df' : DataFrame)
    (out : list string) :
  converts warning df df' out ->
  index_len df' = index_len df /\
  forall n, String.eqb "Delay" n = false ->
            lookup n (columns df') = lookup n (columns df).
Proof.
  intros [H | d t Hd Htd H1 | d t e Hd Htd H1 Hc H2 | d e e' Hd Htd H1 Hc H2];
    (split; [reflexivity|]); intros n Hn;
    try reflexivity; now apply lookup_setitem_ne.
Qed.

Lemma converts_settles (warning : string) (df df' : DataFrame)
    (out : list string) :
  returns_timedelta -> converts warning df df' out -> delay_settled df'.
Proof.
  intros Hret
    [H | d t Hd Htd H1 | d t e Hd Htd H1 Hc H2 | d e e' Hd Htd H1 Hc H2]
    s Hs.
  - left. specialize (H s Hs). unfold is_timedelta64_dtype in H.
    now destruct (dtype_of s).
  - rewrite lookup_setitem_eq in Hs. injection Hs as <-. left.
    exact (Hret _ _ _ H1).
  - rewrite lookup_setitem_eq in Hs. injection Hs as <-. left.
    unfold second_attempt in H2.
    destruct (is_numeric_dtype d); exact (Hret _ _ _ H2).
  - rewrite lookup_setitem_eq in Hs. injection Hs as <-. right.
    unfold broadcast. cbn [values]. apply Forall_forall.
    intros c Hc'. now apply repeat_spec in Hc'.
Qed.

Lemma converts_warns (warning : string) (df df' : DataFrame) (out : list string) :
  converts warning df df' out ->
  (out = [] \/ out = [warning]) /\
  (out = [warning] <->
   exists d e e',
     lookup "Delay" (columns df) = Some d /\ is_timedelta64_dtype d = false /\
     to_timedelta None d = Raise e /\ second_attempt d = Raise e' /\
     df' = setitem df "Delay" (broadcast df datetime64 NA)).
Proof.
  intros [H | d t Hd Htd H1 | d t e Hd Htd H1 Hc H2 | d e e' Hd Htd H1 Hc H2].
  - split; [now left|]. split; [discriminate|].
    intros (d & e & e' & Hd & Htd & _). specialize (H d Hd). congruence.
  - split; [now left|]. split; [discriminate|].
    intros (d' & e & e' & Hd' & _ & H1' & _). congruence.
  - split; [now left|]. split; [discriminate|].
    intros (d' & e1 & e' & Hd' & _ & _ & H2' & _). congruence.
  - split; [now right|]. split; [|reflexivity].
    intros _. now exists d, e, e'.
Qed.

Definition orders_warning : string :=
  "Warning: Could not convert Delay column to timedelta".
Definition orders_clean_warning : string :=
  "Warning: Could not convert Delay column to timedelta in orders_clean".

(** The analyzer after a run of the two conversion blocks that printed
    [out]. *)
Definition converted (before after : OrdersAnalyzer) (out : list string) : Prop :=
  exists out1 out2,
    out = out1 ++ out2 /\
    converts orders_warning (orders before) (orders after) out1 /\
    converts orders_clean_warning (orders_clean before) (orders_clean after) out2.

Lemma convert_outcome (self : OrdersAnalyzer) :
  match _convert_delay_to_timedelta to_timedelta astype_str self with
  | (Ok self', out) => converted self self' out
  | (Raise e, _) => escapes (orders self) e \/ escapes (orders_clean self) e
  end.
Proof.
  unfold _convert_delay_to_timedelta.
  fold orders_warning orders_clean_warning.
  pose proof (convert_delay_outcome orders_warning (orders self)) as H1.
  pose proof (convert_delay_outcome orders_clean_warning (orders_clean self))
    as H2.
  destruct (convert_delay to_timedelta astype_str orders_warning (orders self))
    as [[o|e] out1].
  - destruct (convert_delay to_timedelta astype_str orders_clean_warning
                (orders_clean self)) as [[c|e] out2].
    + exists out1, out2. cbn [orders orders_clean]. auto.
    + right. apply H2.
  - left. apply H1.
Qed.

(** C8.  A run of [_convert_delay_to_timedelta], or of the constructor,
    that returns has treated each of the two frames in one of four ways:
    left it alone (no [Delay] column, or one that is timedelta-typed
    already), replaced [Delay] by its direct conversion, replaced it by the
    second attempt (days for a numeric column, strings otherwise) after the
    direct one failed with ValueError or TypeError, or, both having failed,
    printed the warning and filled [Delay] with NaT; no other column and no
    row count changes.  An exception can only come out of the first
    [pd.to_timedelta] call of a block, and only if it is of another class; so
    when [pd.to_timedelta] fails with ValueError or TypeError only, neither
    the method nor the constructor raises, and when it returns timedelta
    columns only, [Delay] ends up timedelta-typed or all NaT in both
    frames. *)
Theorem convert_delay_never_raises (self : OrdersAnalyzer) (orders_arg : DataFrame) :
  (forall e out,
     _convert_delay_to_timedelta to_timedelta astype_str self = (Raise e, out) ->
     escapes (orders self) e \/ escapes (orders_clean self) e) /\
  (forall self' out,
     _convert_delay_to_timedelta to_timedelta astype_str self = (Ok self', out) ->
     converted self self' out /\
     index_len (orders self') = index_len (orders self) /\
     index_len (orders_clean self') = index_len (orders_clean self) /\
     (forall n, String.eqb "Delay" n = false ->
        lookup n (columns (orders self')) = lookup n (columns (orders self)) /\
        lookup n (columns (orders_clean self'))
        = lookup n (columns (orders_clean self))) /\
     (In orders_warning out <->
      exists d e e',
        lookup "Delay" (columns (orders self)) = Some d /\
        is_timedelta64_dtype d = false /\
        to_timedelta None d = Raise e /\ second_attempt d = Raise e' /\
        orders self' = setitem (orders self) "Delay"
                         (broadcast (orders self) datetime64 NA))) /\
  (raises_value_or_type ->
   (exists self' out,
      _convert_delay_to_timedelta to_timedelta astype_str self = (Ok self', out) /\
      converted self self' out /\
      (returns_timedelta ->
       delay_settled (orders self') /\ delay_settled (orders_clean self'))) /\
   (exists self' out,
      init to_timedelta astype_str orders_arg = (Ok self', out) /\
      converted (mkOrdersAnalyzer orders_arg orders_arg) self' out /\
      (returns_timedelta ->
       delay_settled (orders self') /\ delay_settled (orders_clean self')))).
Proof.
  assert (Hsettle : forall s s' out,
            converted s s' out -> returns_timedelta ->
            delay_settled (orders s') /\ delay_settled (orders_clean s')).
  { intros s s' out (out1 & out2 & _ & C1 & C2) Hret.
    split; eapply converts_settles; eassumption. }
  assert (Hrun : raises_value_or_type -> forall s,
            exists s' out,
              _convert_delay_to_timedelta to_timedelta astype_str s
              = (Ok s', out) /\ converted s s' out).
  { intros Hraise s. pose proof (convert_outcome s) as H.
    destruct (_convert_delay_to_timedelta to_timedelta astype_str s)
      as [[s'|e] out].
    - now exists s', out.
    - exfalso.
      destruct H as [(d & _ & _ & E & Hc) | (d & _ & _ & E & Hc)];
        rewrite (Hraise _ _ E) in Hc; discriminate. }
  split; [|split].
  - intros e out E. pose proof (convert_outcome self) as H.
    now rewrite E in H.
  - intros self' out E. pose proof (convert_outcome self) as H.
    rewrite E in H. split; [exact H|].
    destruct H as (out1 & out2 & -> & C1 & C2).
    destruct (converts_keeps_columns _ _ _ _ C1) as (L1 & K1).
    destruct (converts_keeps_columns _ _ _ _ C2) as (L2 & K2).
    split; [exact L1|]. split; [exact L2|].
    split; [intros n Hn; split; [now apply K1 | now apply K2]|].
    destruct (converts_warns _ _ _ _ C1) as (W1 & V1).
    destruct (converts_warns _ _ _ _ C2) as (W2 & _).
    rewrite <- V1. split.
    + intros Hin. apply in_app_or in Hin as [Hin|Hin].
      * destruct W1 as [-> | ->]; [destruct Hin | reflexivity].
      * exfalso. destruct W2 as [-> | ->]; [destruct Hin|].
        destruct Hin as [Hin|[]]. discriminate.
    + intros ->. now left.
  - intros Hraise. split.
    + destruct (Hrun Hraise self) as (self' & out & E & C).
      exists self', out. split; [exact E|]. split; [exact C|].
      exact (Hsettle self self' out C).
    + unfold init. cbn [orders].
      destruct (has_column "Delay" orders_arg) eqn:Eh.
      * destruct (Hrun Hraise (mkOrdersAnalyzer orders_arg orders_arg))
          as (self' & out & E & C).
        exists self', out. split; [exact E|]. split; [exact C|].
        exact (Hsettle _ self' out C).
      * assert (C : converted (mkOrdersAnalyzer orders_arg orders_arg)
                      (mkOrdersAnalyzer orders_arg orders_arg) []).
        { exists [], []. cbn [orders orders_clean].
          apply lookup_has_column in Eh.
          split; [reflexivity|].
          split; apply left_alone; intros d Hd; congruence. }
        exists (mkOrdersAnalyzer orders_arg orders_arg), [].
        split; [reflexivity|]. split; [exact C|].
        exact (Hsettle _ _ [] C).
Qed.

End AnalyzerClaims.

Section PerformanceClaim.
Import Pandas Orders.
Local Open Scope string_scope.
Local Open Scope list_scope.
Local Open Scope nat_scope.

Variable parse_timedelta : string -> option Z.
Variable to_timedelta : option string -> Series -> result Series.

(** The frames [get_delivery_performance] builds from the two columns. *)
Definition working_clean_of (n : nat) (ns d : Series) : DataFrame :=
  loc (mkDataFrame n [("Net_State", ns); ("Delay", d)]) (notna_mask n [d]).

Definition clean_states (n : nat) (ns d : Series) : list cell :=
  select (notna_mask n [d]) (values ns).

Definition clean_delays (n : nat) (d : Series) : list cell :=
  select (notna_mask n [d]) (values d).

Definition subset_of (n : nat) (ns d : Series) (test : cell -> bool)
    (state : string) : DataFrame :=
  loc (working_clean_of n ns d)
    (map2 andb (map test (clean_delays n d))
       (map (eq_str state) (clean_states n ns d))).

Lemma performance_run (self : OrdersAnalyzer) (ns d : Series) :
  lookup "Net_State" (columns (orders self)) = Some ns ->
  lookup "Delay" (columns (orders self)) = Some d ->
  dtype_of d = timedelta64 ->
  let n := index_len (orders self) in
  let delivered := count_true (map (eq_str "Delivered") (clean_states n ns d)) in
  get_delivery_performance parse_timedelta to_timedelta self =
  (Ok (mkDeliveryPerformance
         (subset_of n ns d lt_zero "Delivered")
         (subset_of n ns d lt_zero "Not_Delivered")
         (subset_of n ns d gt_zero "Delivered")
         (subset_of n ns d gt_zero "Not_Delivered")
         (index_len (working_clean_of n ns d))
         delivered
         (count_true (map (eq_str "Not_Delivered") (clean_states n ns d)))
         (rate delivered (index_len (working_clean_of n ns d)))
         (rate (index_len (subset_of n ns d gt_zero "Delivered")) delivered)),
   []).
Proof.
  intros Hns Hd Htd n delivered.
  unfold get_delivery_performance, getitems, getitem.
  rewrite Hns, Hd.
  cbn [combine lookup columns String.eqb Ascii.eqb Bool.eqb bind].
  unfold is_timedelta64_dtype. rewrite Htd. cbn [bind].
  unfold dropna, getitems, getitem.
  cbn [combine lookup columns String.eqb Ascii.eqb Bool.eqb bind index_len].
  fold n. fold (working_clean_of n ns d).
  unfold four, categorize, state_is, getitem.
  unfold working_clean_of at 1 2 3 4 5 6 7 8 9 10.
  rewrite !lookup_loc.
  cbn [combine lookup columns String.eqb Ascii.eqb Bool.eqb bind option_map values].
  unfold compare_zero. cbn [dtype_of]. rewrite Htd. cbn [bind values].
  reflexivity.
Qed.

(** Row-wise counting over the two columns. *)
Definition tally (w : cell -> cell -> nat) (dv nv : list cell) : nat :=
  list_sum (map2 w dv nv).

Lemma count_true_list_sum {B} (P : B -> bool) (l : list B) :
  count_true (map P l) = list_sum (map (fun x => ind (P x)) l).
Proof.
  induction l as [|x l IH]; [reflexivity|].
  simpl. now rewrite count_true_cons, IH.
Qed.

Lemma count_true_tally (P : cell -> cell -> bool) (dv nv : list cell) :
  count_true (map2 P dv nv) = tally (fun c s => ind (P c s)) dv nv.
Proof.
  unfold tally, map2. rewrite count_true_list_sum.
  apply list_sum_ext. now intros [c s].
Qed.

Lemma tally_plus (w1 w2 : cell -> cell -> nat) (dv nv : list cell) :
  tally (fun c s => w1 c s + w2 c s) dv nv = tally w1 dv nv + tally w2 dv nv.
Proof.
  unfold tally, map2. rewrite <- list_sum_plus.
  apply list_sum_ext. now intros [c s].
Qed.

Lemma tally_ext (w1 w2 : cell -> cell -> nat) (dv nv : list cell) :
  (forall c s, In c dv -> In s nv -> w1 c s = w2 c s) ->
  tally w1 dv nv = tally w2 dv nv.
Proof.
  unfold tally, map2. revert nv.
  induction dv as [|c dv IH]; intros [|s nv] H; try reflexivity.
  simpl. rewrite (H c s (or_introl eq_refl) (or_introl eq_refl)). f_equal.
  apply IH. intros c' s' Hc Hs. apply H; now right.
Qed.

Lemma tally_cons (w : cell -> cell -> nat) (c s : cell) (dv nv : list cell) :
  tally w (c :: dv) (s :: nv) = w c s + tally w dv nv.
Proof. reflexivity. Qed.

Definition notna (c : cell) : bool := negb (isna c).

Lemma notna_mask_one (d : Series) :
  notna_mask (length (values d)) [d] = map notna (values d).
Proof.
  unfold notna_mask, map2, notna.
  induction (values d) as [|c l IH]; [reflexivity|].
  cbn [length repeat map combine]. rewrite IH.
  now rewrite andb_true_r.
Qed.

Lemma count_selected (g f h : cell -> bool) (dv nv : list cell) :
  length dv = length nv ->
  count_true (map2 andb (map f (select (map g dv) dv))
                        (map h (select (map g dv) nv))) =
  tally (fun c s => ind (g c && (f c && h s))) dv nv.
Proof.
  revert nv. induction dv as [|c dv IH]; intros [|s nv] H; try discriminate.
  - reflexivity.
  - injection H as H. rewrite tally_cons, <- IH by exact H.
    cbn [map select]. destruct (g c); cbn [andb ind]; [|reflexivity].
    unfold map2. cbn [map combine]. now rewrite count_true_cons.
Qed.

Lemma count_selected_one (g h : cell -> bool) (dv nv : list cell) :
  length dv = length nv ->
  count_true (map h (select (map g dv) nv)) =
  tally (fun c s => ind (g c && h s)) dv nv.
Proof.
  revert nv. induction dv as [|c dv IH]; intros [|s nv] H; try discriminate.
  - reflexivity.
  - injection H as H. rewrite tally_cons, <- IH by exact H.
    cbn [map select]. destruct (g c); cbn [andb ind]; [|reflexivity].
    cbn [map]. now rewrite count_true_cons.
Qed.

Lemma count_flagged (g : cell -> bool) (dv nv : list cell) :
  length dv = length nv ->
  count_true (map g dv) = tally (fun c _ => ind (g c)) dv nv.
Proof.
  revert nv. induction dv as [|c dv IH]; intros [|s nv] H; try discriminate.
  - reflexivity.
  - injection H as H. rewrite tally_cons, <- IH by exact H.
    cbn [map]. now rewrite count_true_cons.
Qed.

Lemma length_select_flagged {B} (g : cell -> bool) (dv : list cell) (l : list B) :
  length dv = length l ->
  length (select (map g dv) l) = count_true (map g dv).
Proof. intros H. apply length_select. now rewrite length_map. Qed.

Lemma index_len_loc_full (df : DataFrame) (mask : list bool) :
  length mask <= index_len df ->
  index_len (loc df mask) = count_true mask.
Proof.
  intros H. unfold loc. cbn [index_len]. now rewrite firstn_all2.
Qed.

Lemma length_map2 {A B C} (f : A -> B -> C) (a : list A) (b : list B) :
  length (map2 f a b) = Nat.min (length a) (length b).
Proof. unfold map2. now rewrite length_map, length_combine. Qed.

Lemma selected_pass (f : cell -> bool) (k : list bool) (l : list cell) :
  Forall (fun c => f c = true) (select (map2 andb (map f l) k) l).
Proof.
  unfold map2. revert k. induction l as [|c l IH]; intros k; [constructor|].
  destruct k as [|b k]; [constructor|].
  cbn [map combine select].
  destruct (f c) eqn:E; cbn [andb]; [destruct b|]; auto.
Qed.

(** The rows of a returned subset, read off its [Delay] column. *)
Definition delays_of (df : DataFrame) : list cell :=
  match lookup "Delay" (columns df) with
  | Some s => values s
  | None => []
  end.

Definition binary_state (s : cell) : Prop :=
  s = Str "Delivered" \/ s = Str "Not_Delivered".

(** C9.  [get_delivery_performance] on an analyzer whose [Delay] is a
    timedelta column: a row whose [Delay] is exactly zero is counted in
    [total_orders] (and in [delivered_orders] when its state is
    'Delivered') but is in none of the four subsets, so the subset sizes add
    up to [total_orders] less the zero-delay rows; [on_time_rate] is the
    share of delivered rows with a strictly positive [Delay]. *)
Theorem zero_delay_rows_fall_between (self : OrdersAnalyzer) (ns d : Series) :
  lookup "Net_State" (columns (orders self)) = Some ns ->
  lookup "Delay" (columns (orders self)) = Some d ->
  dtype_of d = timedelta64 ->
  length (values d) = index_len (orders self) ->
  length (values ns) = index_len (orders self) ->
  Forall (fun c => is_td_or_na c = true) (values d) ->
  Forall binary_state (values ns) ->
  exists perf,
    get_delivery_performance parse_timedelta to_timedelta self = (Ok perf, []) /\
    total_orders perf =
      index_len (delay_delivered perf) + index_len (delay_not_delivered perf) +
      index_len (no_delay_delivered perf) +
      index_len (no_delay_not_delivered perf) +
      count_true (map eq_zero (values d)) /\
    delivered_orders perf =
      index_len (delay_delivered perf) + index_len (no_delay_delivered perf) +
      count_true (map2 (fun c s => eq_zero c && eq_str "Delivered" s)
                       (values d) (values ns)) /\
    index_len (no_delay_delivered perf) =
      count_true (map2 (fun c s => gt_zero c && eq_str "Delivered" s)
                       (values d) (values ns)) /\
    on_time_rate perf =
      rate (index_len (no_delay_delivered perf)) (delivered_orders perf) /\
    Forall (fun c => eq_zero c = false)
      (delays_of (delay_delivered perf) ++ delays_of (delay_not_delivered perf) ++
       delays_of (no_delay_delivered perf) ++
       delays_of (no_delay_not_delivered perf)).
Proof.
  intros Hns Hd Htd Ld Ln Wd Wn.
  eexists. split; [apply (performance_run self ns d Hns Hd Htd)|].
  cbn [total_orders delivered_orders delay_delivered delay_not_delivered
       no_delay_delivered no_delay_not_delivered on_time_rate].
  set (n := index_len (orders self)) in *.
  assert (Hmask : notna_mask n [d] = map notna (values d))
    by (rewrite <- Ld; apply notna_mask_one).
  assert (Hlen : length (values d) = length (values ns)) by congruence.
  assert (Hclean : index_len (working_clean_of n ns d)
                   = count_true (map notna (values d))).
  { unfold working_clean_of. rewrite Hmask.
    apply index_len_loc_full. cbn [index_len]. rewrite length_map. lia. }
  assert (Hsub : forall test state,
            index_len (subset_of n ns d test state) =
            tally (fun c s => ind (notna c && (test c && eq_str state s)))
                  (values d) (values ns)).
  { intros test state. unfold subset_of.
    rewrite index_len_loc_full.
    - unfold clean_delays, clean_states. rewrite Hmask.
      now apply count_selected.
    - rewrite Hclean, length_map2, !length_map.
      unfold clean_delays, clean_states. rewrite Hmask.
      rewrite !length_select_flagged by (auto; congruence). lia. }
  assert (Hcell : forall c, In c (values d) ->
            is_td_or_na c = true) by (now apply Forall_forall).
  assert (Hstate : forall s, In s (values ns) -> binary_state s)
    by (now apply Forall_forall).
  split; [|split; [|split; [|split]]].
  - rewrite Hclean, !Hsub.
    rewrite (count_flagged notna (values d) (values ns) Hlen).
    rewrite (count_flagged eq_zero (values d) (values ns) Hlen).
    rewrite <- !tally_plus. apply tally_ext.
    intros c s Hc Hs. specialize (Hcell c Hc).
    destruct (Hstate s Hs) as [-> | ->];
      destruct c; try discriminate; cbn;
      try reflexivity;
      destruct (Z.ltb_spec ns0 0), (Z.ltb_spec 0 ns0), (Z.eqb_spec ns0 0);
      cbn; lia.
  - unfold clean_states. rewrite Hmask.
    rewrite (count_selected_one notna (eq_str "Delivered") (values d) (values ns) Hlen).
    rewrite !Hsub, count_true_tally.
    rewrite <- !tally_plus. apply tally_ext.
    intros c s Hc Hs. specialize (Hcell c Hc).
    destruct (Hstate s Hs) as [-> | ->];
      destruct c; try discriminate; cbn;
      try reflexivity;
      destruct (Z.ltb_spec ns0 0), (Z.ltb_spec 0 ns0), (Z.eqb_spec ns0 0);
      cbn; lia.
  - rewrite Hsub, count_true_tally. apply tally_ext.
    intros c s Hc Hs. specialize (Hcell c Hc).
    destruct c; try discriminate; reflexivity.
  - reflexivity.
  - assert (Hdel : forall test state,
              (forall c, test c = true -> eq_zero c = false) ->
              Forall (fun c => eq_zero c = false)
                (delays_of (subset_of n ns d test state))).
    { intros test state Htest. unfold delays_of, subset_of.
      rewrite lookup_loc. unfold working_clean_of at 1. rewrite lookup_loc.
      cbn [columns lookup String.eqb Ascii.eqb Bool.eqb option_map values].
      fold (clean_delays n d).
      eapply Forall_impl; [|apply (selected_pass test)].
      cbv beta. intros c Hc. now apply Htest. }
    assert (Hlt : forall c, lt_zero c = true -> eq_zero c = false).
    { intros [] H; try reflexivity. cbn in *.
      apply Z.ltb_lt in H. apply Z.eqb_neq. lia. }
    assert (Hgt : forall c, gt_zero c = true -> eq_zero c = false).
    { intros [] H; try reflexivity. cbn in *.
      apply Z.ltb_lt in H. apply Z.eqb_neq. lia. }
    repeat (apply Forall_app; split); apply Hdel; assumption.
Qed.

End PerformanceClaim.

(** ** The claims on sample inputs *)

Section OnSamples.
Import Pandas Heap Orders Samples.
Local Open Scope string_scope.
Local Open Scope list_scope.
Local Open Scope nat_scope.

Lemma empty_input_results_witness :
  create_delay_heatmap no_parse 0 "Site_Real_PCT" None None [rowless_orders]
  = (Ok no_delayed_orders, [rowless_orders]) /\
  fst (create_geo_bubble_map no_parse strict_to_timedelta 0 "delayed" "Delivered"
         true 1%Q true [rowless_orders]) = Ok no_data.
Proof.
  destruct (empty_input_results no_parse strict_to_timedelta) as (_ & H2 & H3).
  split.
  - apply (H2 [rowless_orders] 0 rowless_orders); reflexivity.
  - apply (H3 [rowless_orders] 0 rowless_orders); [reflexivity|].
    split; [reflexivity|]. split.
    + eexists; reflexivity.
    + intros _. eexists. split; [reflexivity | discriminate].
Defined.

(** C5 as stated fails: a frame with a row and with neither 'delay_days' nor
    'Delay' makes [create_delay_heatmap] raise instead of returning a
    placeholder. *)
Lemma heatmap_raises_without_delay_columns :
  fst (create_delay_heatmap no_parse 0 "Site_Real_PCT" None None
         [no_delay_columns])
  = Raise (ValueError "No delay information available in delayed_orders DataFrame")
  /\
  forall fig,
    fst (create_delay_heatmap no_parse 0 "Site_Real_PCT" None None
           [no_delay_columns]) <> Ok fig.
Proof.
  split; [vm_compute; reflexivity|].
  intros fig. vm_compute. discriminate.
Qed.

Lemma missing_delay_information_witness :
  create_delay_heatmap no_parse 0 "Site_Real_PCT" None None [no_delay_columns]
  = (Raise (ValueError "No delay information available in delayed_orders DataFrame"),
     [no_delay_columns]) /\
  get_delayed_orders_by_stage no_parse strict_to_timedelta
    (mkOrdersAnalyzer five_orders five_orders) "Canceled" "Site_Real_PCT"
  = (Ok empty_frame, mkOrdersAnalyzer five_orders five_orders).
Proof.
  destruct (missing_delay_information no_parse strict_to_timedelta)
    as (H1 & _ & H3 & _).
  split.
  - apply (H1 [no_delay_columns] 0 no_delay_columns); reflexivity.
  - eapply H3; try reflexivity.
    intros i c Hc Hlt. split; [reflexivity|].
    intros s Hs.
    do 5 (destruct i as [|i]; [cbn in Hc, Hs; injection Hc as <-;
                               injection Hs as <-; try reflexivity;
                               try discriminate Hlt|]).
    destruct i; discriminate Hc.
Defined.

Lemma heatmap_writes_into_callers_frame_witness :
  exists df',
    nth_error (snd (create_delay_heatmap no_parse 0 "Site_Real_PCT" None None
                      [four_delayed])) 0 = Some df' /\
    has_column "delay_bin" df' = true /\ has_column "pct_bin" df' = true /\
    df' <> four_delayed.
Proof.
  apply (heatmap_writes_into_callers_frame no_parse strict_to_timedelta
           [four_delayed] 0 four_delayed
           (floats_column [-45; -25; -3; -(1 # 2)]%Q)
           (floats_column [5; 15; 50; 100]%Q) "Site_Real_PCT" None);
    reflexivity.
Defined.

Lemma heatmap_counts_every_row_witness :
  exists z x y t,
    fst (create_delay_heatmap no_parse 0 "Site_Real_PCT" None None [four_delayed])
    = Ok (heatmap_figure z x y t) /\
    table_total z = 4 /\ length z = 6 /\
    table_total (labelled_block 5 10 z) = 3.
Proof.
  destruct (heatmap_counts_every_row no_parse [four_delayed] 0
              four_delayed
              (floats_column [-45; -25; -3; -(1 # 2)]%Q)
              (floats_column [5; 15; 50; 100]%Q) "Site_Real_PCT" None
              eq_refl eq_refl eq_refl eq_refl eq_refl eq_refl eq_refl)
    as (z & x & y & t & bins & Hrun & _ & _ & Hall & _ & _ & _ & _ & Hnan
        & Hblock & _).
  exists z, x, y, t. split; [now rewrite Hrun|].
  split; [apply Hall; reflexivity|].
  split; [apply (Hnan 0 (-45)%Q (Num 5)); reflexivity|].
  rewrite Hblock. vm_compute. reflexivity.
Defined.

(** C10 as stated fails: of the four delayed orders of [four_delayed] one is
    45 days late, below every range, and the heatmap still counts it, in a
    sixth row whose key is NaN; its cells add up to 4, not to the 3 orders
    inside the ranges. *)
Lemma heatmap_keeps_rows_below_range :
  exists z x y t,
    fst (create_delay_heatmap no_parse 0 "Site_Real_PCT" None None [four_delayed])
    = Ok (heatmap_figure z x y t) /\
    y = map Str (rev default_labels) ++ [NA] /\
    nth 5 z [] = [1; 0; 0; 0; 0; 0; 0; 0; 0; 0] /\
    table_total z = 4 /\
    count_true
      (map2 (fun d p => late_within (-30) d && within 0 100 p)
            (map Num [-45; -25; -3; -(1 # 2)]%Q) (map Num [5; 15; 50; 100]%Q))
    = 3.
Proof.
  do 4 eexists. split; [vm_compute; reflexivity|].
  vm_compute. repeat split; reflexivity.
Defined.

Lemma strict_raises_value_or_type :
  raises_value_or_type strict_to_timedelta.
Proof.
  intros s e. unfold strict_to_timedelta.
  destruct (forallb _ (values s)); intros H; inversion H; reflexivity.
Qed.

Lemma strict_returns_timedelta : returns_timedelta strict_to_timedelta.
Proof.
  intros unit s t. unfold strict_to_timedelta.
  destruct (forallb _ (values s)); intros H; inversion H; reflexivity.
Qed.

(** [text_delays] after the NaT fill. *)
Definition text_delays_filled : DataFrame :=
  mkDataFrame 2
    [("Net_State", mkSeries object [Str "Delivered"; Str "Delivered"]);
     ("Delay", mkSeries datetime64 [NA; NA])].

Lemma convert_delay_never_raises_witness :
  (exists self' out,
     init strict_to_timedelta as_object text_delays = (Ok self', out) /\
     converted strict_to_timedelta as_object
       (mkOrdersAnalyzer text_delays text_delays) self' out /\
     delay_settled (orders self') /\ delay_settled (orders_clean self')) /\
  init strict_to_timedelta as_object text_delays
  = (Ok (mkOrdersAnalyzer text_delays_filled text_delays_filled),
     [orders_warning; orders_clean_warning]) /\
  fst (init strict_to_timedelta as_object
         (mkDataFrame 2 [("Delay", floats_column [3; -2]%Q)]))
  = Ok (mkOrdersAnalyzer
          (mkDataFrame 2 [("Delay", mkSeries timedelta64 [Td 3; Td (-2)])])
          (mkDataFrame 2 [("Delay", mkSeries timedelta64 [Td 3; Td (-2)])])).
Proof.
  split; [|split; reflexivity].
  destruct (proj2 (proj2 (convert_delay_never_raises strict_to_timedelta as_object
                            (mkOrdersAnalyzer text_delays text_delays)
                            text_delays))
              strict_raises_value_or_type)
    as (_ & self' & out & E & C & S).
  exists self', out. split; [exact E|]. split; [exact C|].
  exact (S strict_returns_timedelta).
Defined.

Lemma zero_delay_rows_fall_between_witness :
  exists perf,
    get_delivery_performance no_parse strict_to_timedelta
      (mkOrdersAnalyzer five_orders five_orders) = (Ok perf, []) /\
    total_orders perf = 4 /\
    index_len (delay_delivered perf) + index_len (delay_not_delivered perf) +
    index_len (no_delay_delivered perf) + index_len (no_delay_not_delivered perf)
    = 3.
Proof.
  destruct (zero_delay_rows_fall_between no_parse strict_to_timedelta
              (mkOrdersAnalyzer five_orders five_orders)
              (mkSeries object [Str "Delivered"; Str "Delivered"; Str "Delivered";
                                Str "Not_Delivered"; Str "Not_Delivered"])
              (mkSeries timedelta64 [Td (-5); Td 0; Td 7; Td (-1); NA])
              eq_refl eq_refl eq_refl eq_refl eq_refl)
    as (perf & Hrun & Htotal & _).
  - repeat (apply Forall_cons; [reflexivity|]). apply Forall_nil.
  - unfold binary_state.
    repeat (apply Forall_cons; [auto|]). apply Forall_nil.
  - exists perf. split; [exact Hrun|].
    revert Htotal. vm_compute in Hrun. injection Hrun as <-.
    vm_compute. intros _. split; reflexivity.
Defined.

End OnSamples.

(** * Further properties *)

(** ** Revenue analysis: merge, grouping, order of the tables *)

Section RevenueMore.
Import Pandas Revenue.
Local Open Scope Q_scope.
Local Open Scope list_scope.

Lemma merge_left_keeps (items : list order_item) (prods : list product)
    (it : order_item) :
  In it items -> exists m, In m (merge_left items prods) /\ item m = it.
Proof.
  intros Hin. unfold merge_left.
  destruct (filter (fun p => key_eqb (prod_id p) (product_id it)) prods)
    as [|p ps] eqn:E.
  - exists (mkMerged it None None None None None). split; [|reflexivity].
    apply in_flat_map. exists it. split; [exact Hin|]. rewrite E. now left.
  - exists (mkMerged it (category_name p) (weight_g p) (length_cm p)
              (height_cm p) (width_cm p)).
    split; [|reflexivity].
    apply in_flat_map. exists it. split; [exact Hin|]. rewrite E. now left.
Qed.

Lemma key_eqb_same (a b k : option string) :
  key_eqb a k = true -> key_eqb b k = true -> a = b.
Proof.
  destruct a, b, k; simpl; try discriminate; try reflexivity.
  intros H1 H2. apply String.eqb_eq in H1, H2. congruence.
Qed.

Lemma filter_absent_key (prods : list product) (k0 k : option string) :
  ~ In k0 (map prod_id prods) -> key_eqb k0 k = true ->
  filter (fun q => key_eqb (prod_id q) k) prods = [].
Proof.
  intros Hx E. induction prods as [|q prods IH]; [reflexivity|].
  simpl. destruct (key_eqb (prod_id q) k) eqn:Eq.
  - exfalso. apply Hx. left. exact (key_eqb_same _ _ _ Eq E).
  - apply IH. intros H. apply Hx. now right.
Qed.

Lemma filter_unique_key (prods : list product) (k : option string) :
  NoDup (map prod_id prods) ->
  (length (filter (fun p => key_eqb (prod_id p) k) prods) <= 1)%nat.
Proof.
  induction prods as [|p prods IH]; intros Hnd; simpl; [lia|].
  inversion Hnd as [|x l Hx Hl]; subst.
  destruct (key_eqb (prod_id p) k) eqn:E; [|now apply IH].
  simpl. rewrite (filter_absent_key prods (prod_id p) k Hx E). simpl. lia.
Qed.

Lemma flat_map_at_least {A B} (f : A -> list B) (l : list A) :
  (forall x, 1 <= length (f x))%nat -> (length l <= length (flat_map f l))%nat.
Proof.
  intros H. induction l as [|x l IH]; simpl; [lia|].
  rewrite length_app. specialize (H x). lia.
Qed.

Definition items_of (rows : list detailed) : list order_item :=
  map (fun d => item (row d)) rows.

Lemma items_of_prepared (items : list order_item) (prods : list product) :
  items_of (snd (prepare_data (init items prods)))
  = map item (merge_left items prods).
Proof.
  unfold prepare_data, init, items_of.
  cbn [snd order_items products]. rewrite !map_map. cbn [row item].
  apply map_ext. reflexivity.
Qed.

Lemma length_prepared (items : list order_item) (prods : list product) :
  length (snd (prepare_data (init items prods)))
  = length (merge_left items prods).
Proof.
  rewrite <- (length_map (fun d => item (row d))).
  fold (items_of (snd (prepare_data (init items prods)))).
  rewrite items_of_prepared. apply length_map.
Qed.

Lemma prepared_cover (items : list order_item) (prods : list product) :
  let rows := snd (prepare_data (init items prods)) in
  (forall it, In it items -> In it (items_of rows)) /\
  (length items <= length rows)%nat.
Proof.
  cbv zeta. rewrite items_of_prepared, length_prepared. split.
  - intros it Hin. destruct (merge_left_keeps items prods it Hin) as (m & Hm & <-).
    now apply in_map.
  - unfold merge_left. apply flat_map_at_least.
    intros it. destruct (filter _ prods); simpl; lia.
Qed.

(** The left merge of [prepare_data] never loses an order item, and when no
    product id occurs twice in [products] it yields exactly one row per
    order item, in the order of [order_items]. *)
Theorem prepare_data_keeps_items (items : list order_item) (prods : list product) :
  let rows := snd (prepare_data (init items prods)) in
  (forall it, In it items -> In it (items_of rows)) /\
  (length items <= length rows)%nat /\
  (NoDup (map prod_id prods) -> items_of rows = items).
Proof.
  cbv zeta. destruct (prepared_cover items prods) as (Hkeep & Hlen).
  split; [exact Hkeep|]. split; [exact Hlen|].
  rewrite items_of_prepared. clear Hkeep Hlen.
  intros Hnd. unfold merge_left.
  induction items as [|it items IH]; [reflexivity|].
  cbn [flat_map]. rewrite map_app, IH. clear IH.
  pose proof (filter_unique_key prods (product_id it) Hnd) as Hl.
  destruct (filter _ prods) as [|p [|q ps]]; simpl in *;
    [reflexivity | reflexivity | lia].
Qed.

Lemma present_nil (l : list (option string)) :
  present l = [] <-> Forall (fun c => c = None) l.
Proof.
  unfold present. induction l as [|c l IH]; simpl.
  - split; auto.
  - destruct c as [k|]; simpl.
    + split; [discriminate | intros H; inversion H; discriminate].
    + rewrite IH. split; [auto | intros H; now inversion H].
Qed.

Lemma nodup_nil {A} (dec : forall x y : A, {x = y} + {x <> y}) (l : list A) :
  nodup dec l = [] -> l = [].
Proof.
  destruct l as [|x l]; [reflexivity|]. intros H. exfalso.
  assert (Hin : In x (nodup dec (x :: l))) by (apply nodup_In; now left).
  rewrite H in Hin. destruct Hin.
Qed.

Lemma group_keys_nil {A} (key : A -> option string) (rows : list A) :
  group_keys key rows = [] <-> Forall (fun r => key r = None) rows.
Proof.
  unfold group_keys. split.
  - intros H.
    assert (Hn : nodup string_dec (present (map key rows)) = []).
    { pose proof (sort_by_perm String.leb
                    (nodup string_dec (present (map key rows)))) as P.
      rewrite H in P. now apply Permutation_nil in P. }
    apply nodup_nil, present_nil in Hn. now rewrite Forall_map in Hn.
  - intros H.
    assert (H' : Forall (fun c => c = None) (map key rows))
      by (apply Forall_map; exact H).
    apply present_nil in H'. now rewrite H'.
Qed.

Lemma length_groupby_sum {A} (key : A -> option string) (val : A -> option Q)
    (rows : list A) :
  length (groupby_sum key val rows) = length (group_keys key rows).
Proof. unfold groupby_sum. apply length_map. Qed.

Definition order_key (d : detailed) : option string := order_id (item (row d)).

Lemma run_by_order_count (self : RevenueAnalyzer) (rows : list detailed) :
  order_items_detailed self = Some rows ->
  (group_keys order_key rows = [] ->
   run_comprehensive_analysis self = Raise ZeroDivisionError) /\
  (group_keys order_key rows <> [] ->
   exists res,
     run_comprehensive_analysis self = Ok (self, res) /\
     total_orders res = length (group_keys order_key rows) /\
     total_products res = length rows).
Proof.
  intros Hrows. unfold run_comprehensive_analysis.
  rewrite Hrows. cbv zeta. rewrite Hrows.
  fold order_key. rewrite !length_groupby_sum. split.
  - intros ->. reflexivity.
  - intros Hne. unfold true_div.
    destruct (length (group_keys order_key rows)) as [|n] eqn:El.
    + destruct (group_keys order_key rows); [now destruct Hne | discriminate].
    + unfold _analyze_by_category, _analyze_by_vendor, analyze_by.
      rewrite Hrows.
      change (metric "Total") with (Ok Total).
      change (metric "freight_value")
        with (Ok (fun d : detailed => freight_value (item (row d)))).
      change (metric "price")
        with (Ok (fun d : detailed => price (item (row d)))).
      cbn [bind]. eexists. split; [reflexivity|].
      cbn [total_orders total_products]. auto.
Qed.

(** [run_comprehensive_analysis] fails with ZeroDivisionError exactly when
    no order item carries an [order_id] (in particular on no items at all),
    and returns its results otherwise, with at least one order. *)
Theorem analysis_needs_an_order (items : list order_item) (prods : list product) :
  (Forall (fun it => order_id it = None) items ->
   run_comprehensive_analysis (init items prods) = Raise ZeroDivisionError) /\
  (Exists (fun it => order_id it <> None) items ->
   exists self res,
     run_comprehensive_analysis (init items prods) = Ok (self, res) /\
     (1 <= total_orders res)%nat /\
     (length items <= total_products res)%nat).
Proof.
  destruct (prepared_rows items prods) as (Hrows & _ & Hitem).
  destruct (prepared_cover items prods) as (Hkeep & Hlen).
  set (self := fst (prepare_data (init items prods))) in *.
  set (rows := snd (prepare_data (init items prods))) in *.
  assert (Hrun : run_comprehensive_analysis (init items prods)
                 = run_comprehensive_analysis self).
  { unfold run_comprehensive_analysis at 1.
    cbn [init order_items_detailed]. fold self.
    unfold run_comprehensive_analysis. now rewrite Hrows. }
  rewrite Hrun.
  destruct (run_by_order_count self rows Hrows) as (Hnone & Hsome).
  split.
  - intros Hall. apply Hnone. apply group_keys_nil.
    rewrite Forall_forall in *. intros d Hd. apply Hall, Hitem, Hd.
  - intros Hex. apply Exists_exists in Hex as (it & Hin & Hid).
    destruct Hsome as (res & Hres & Hto & Htp).
    + intros Hnil. apply group_keys_nil in Hnil.
      rewrite Forall_forall in Hnil.
      apply Hkeep in Hin. unfold items_of in Hin.
      apply in_map_iff in Hin as (d & Hd & Hdin).
      apply Hid. rewrite <- Hd. exact (Hnil d Hdin).
    + exists self, res. split; [exact Hres|]. rewrite Hto, Htp.
      split; [|exact Hlen].
      destruct (group_keys order_key rows) eqn:E; simpl; [|lia].
      exfalso. apply group_keys_nil in E.
      rewrite Forall_forall in E.
      apply Hkeep in Hin. unfold items_of in Hin.
      apply in_map_iff in Hin as (d & Hd & Hdin).
      apply Hid. rewrite <- Hd. exact (E d Hdin).
Qed.

Section SortBy.
Variable A : Type.
Variable leb : A -> A -> bool.
Hypothesis leb_total : forall a b, leb a b = true \/ leb b a = true.
Hypothesis leb_trans :
  forall a b c, leb a b = true -> leb b c = true -> leb a c = true.

Definition before (a b : A) : Prop := leb a b = true.

Lemma insert_by_sorted (x : A) (l : list A) :
  StronglySorted before l -> StronglySorted before (insert_by leb x l).
Proof.
  induction 1 as [|y l Hs IH Hy]; simpl.
  - repeat constructor.
  - destruct (leb x y) eqn:E.
    + constructor; [now constructor|].
      constructor; [exact E|].
      eapply Forall_impl; [|exact Hy]. intros z Hz.
      exact (leb_trans x y z E Hz).
    + constructor; [exact IH|].
      assert (Hyx : leb y x = true)
        by (destruct (leb_total x y); congruence).
      eapply Permutation_Forall.
      * symmetry. apply insert_by_perm.
      * now constructor.
Qed.

Lemma sort_by_sorted (l : list A) : StronglySorted before (sort_by leb l).
Proof.
  unfold sort_by. induction l as [|x l IH]; simpl; [constructor|].
  now apply insert_by_sorted.
Qed.

End SortBy.

Lemma strongly_sorted_impl {A} (R R' : A -> A -> Prop) (l : list A) :
  (forall a b, R a b -> R' a b) -> StronglySorted R l -> StronglySorted R' l.
Proof.
  intros H. induction 1 as [|a l Hl IH Ha]; constructor; auto.
  eapply Forall_impl; [|exact Ha]. auto.
Qed.

Definition richer (a b : string * Q) : Prop := (snd b <= snd a)%Q.

(** In non-increasing order of ['Total'], so that the first row holds the
    largest total. *)
Definition descending (t : list (string * Q)) : Prop :=
  StronglySorted richer t /\
  forall top, hd_error t = Some top -> forall r, In r t -> richer top r.

Lemma sort_total_descending_ok (t : list (string * Q)) :
  descending (sort_total_descending t).
Proof.
  assert (Hs : StronglySorted richer (sort_total_descending t)).
  { unfold sort_total_descending.
    apply (strongly_sorted_impl
             (before _ (fun a b : string * Q => Qle_bool (snd b) (snd a)))).
    - intros a b Hab. now apply Qle_bool_iff.
    - apply sort_by_sorted.
      + intros a b.
        destruct (Qlt_le_dec (snd a) (snd b)) as [H|H].
        * right. apply Qle_bool_iff. now apply Qlt_le_weak.
        * left. now apply Qle_bool_iff.
      + intros a b c H1 H2. apply Qle_bool_iff in H1, H2. apply Qle_bool_iff.
        now apply Qle_trans with (snd b). }
  split; [exact Hs|].
  intros top Hhd r Hin.
  destruct (sort_total_descending t) as [|x l]; [discriminate|].
  injection Hhd as ->. inversion Hs as [|y l' Hl Hall]; subst.
  destruct Hin as [<-|Hin]; [apply Qle_refl|].
  rewrite Forall_forall in Hall. now apply Hall.
Qed.

Lemma analyze_by_shape (key : detailed -> option string) (self : RevenueAnalyzer)
    (metric_column : string) (t : list (string * Q)) :
  analyze_by key self metric_column = Ok t ->
  exists rows val,
    order_items_detailed self = Some rows /\
    metric metric_column = Ok val /\
    t = sort_total_descending (groupby_sum key val rows).
Proof.
  unfold analyze_by. destruct (order_items_detailed self) as [rows|];
    [|discriminate].
  destruct (metric metric_column) as [val|]; [|discriminate].
  cbn [bind]. intros H. apply Ok_inj in H. now exists rows, val.
Qed.

(** The category and vendor tables come out in non-increasing order of
    ['Total'], whatever the metric, so [top_category] and [top_vendor] hold
    the largest totals of their tables. *)
Theorem revenue_tables_descend :
  (forall self metric_column t,
     _analyze_by_category self metric_column = Ok t -> descending t) /\
  (forall self metric_column t,
     _analyze_by_vendor self metric_column = Ok t -> descending t) /\
  (forall self self' res,
     run_comprehensive_analysis self = Ok (self', res) ->
     (forall top r, top_category res = Some top ->
                    In r (category_revenue_all res) -> richer top r) /\
     (forall top r, top_vendor res = Some top ->
                    In r (vendor_revenue_all res) -> richer top r)).
Proof.
  assert (Hd : forall key self m t, analyze_by key self m = Ok t -> descending t).
  { intros key self m t H.
    destruct (analyze_by_shape key self m t H) as (rows & val & _ & _ & ->).
    apply sort_total_descending_ok. }
  split; [intros; eapply Hd; eassumption|].
  split; [intros; eapply Hd; eassumption|].
  intros self self' res H. unfold run_comprehensive_analysis in H.
  cbv zeta in H.
  destruct (order_items_detailed
              match order_items_detailed self with
              | Some _ => self
              | None => fst (prepare_data self)
              end) as [rows|]; [|discriminate].
  apply bind_ok in H as (avg & _ & H).
  apply bind_ok in H as (c1 & E1 & H).
  apply bind_ok in H as (c2 & _ & H).
  apply bind_ok in H as (c3 & _ & H).
  apply bind_ok in H as (v1 & E4 & H).
  apply bind_ok in H as (v2 & _ & H).
  apply bind_ok in H as (v3 & _ & H).
  apply Ok_inj in H. injection H as _ <-.
  cbn [top_category top_vendor category_revenue_all vendor_revenue_all].
  split; intros top r Htop Hin.
  - exact (proj2 (Hd _ _ _ _ E1) top Htop r Hin).
  - exact (proj2 (Hd _ _ _ _ E4) top Htop r Hin).
Qed.

(** Each table has one row per key that occurs: no category or seller is
    listed twice, and a key is listed exactly when some detailed row
    carries it. *)
Theorem revenue_tables_list_each_key_once (key : detailed -> option string)
    (self : RevenueAnalyzer) (metric_column : string) (t : list (string * Q))
    (rows : list detailed) :
  order_items_detailed self = Some rows ->
  analyze_by key self metric_column = Ok t ->
  NoDup (map fst t) /\
  (forall k, In k (map fst t) <-> exists d, In d rows /\ key d = Some k).
Proof.
  intros Hrows H.
  destruct (analyze_by_shape key self metric_column t H)
    as (rows' & val & Hrows' & _ & ->).
  rewrite Hrows in Hrows'. injection Hrows' as <-.
  assert (P : Permutation
                (map fst (sort_total_descending (groupby_sum key val rows)))
                (group_keys key rows)).
  { unfold sort_total_descending. rewrite (Permutation_map fst (sort_by_perm _ _)).
    unfold groupby_sum. rewrite map_map. cbn [fst]. now rewrite map_id. }
  split.
  - eapply Permutation_NoDup; [symmetry; exact P|]. apply group_keys_nodup.
  - intros k. split.
    + intros Hin. apply (Permutation_in _ P) in Hin.
      unfold group_keys in Hin.
      apply (Permutation_in _ (sort_by_perm _ _)) in Hin.
      apply nodup_In in Hin. unfold present in Hin.
      apply in_flat_map in Hin as (c & Hc & Hk).
      apply in_map_iff in Hc as (d & <- & Hd).
      exists d. split; [exact Hd|].
      destruct (key d) as [k'|]; [|destruct Hk].
      destruct Hk as [->|[]]. reflexivity.
    + intros (d & Hd & Hk).
      apply (Permutation_in _ (Permutation_sym P)).
      eapply group_keys_complete; eassumption.
Qed.

End RevenueMore.

Lemma analysis_needs_an_order_witness :
  exists self res,
    Revenue.run_comprehensive_analysis
      (Revenue.init Samples.two_items Samples.one_product) = Pandas.Ok (self, res) /\
    (1 <= Revenue.total_orders res)%nat /\
    (length Samples.two_items <= Revenue.total_products res)%nat.
Proof.
  apply (proj2 (analysis_needs_an_order Samples.two_items Samples.one_product)).
  apply Exists_cons_hd. discriminate.
Defined.

Lemma revenue_tables_list_each_key_once_witness :
  exists t,
    Revenue._analyze_by_vendor
      (fst (Revenue.prepare_data
              (Revenue.init Samples.two_items Samples.one_product))) "Total"%string
    = Pandas.Ok t /\ NoDup (map fst t).
Proof.
  eexists. split; [vm_compute; reflexivity|].
  refine (proj1 (revenue_tables_list_each_key_once
                   (fun d => Revenue.seller_id (Revenue.item (Revenue.row d)))
                   (fst (Revenue.prepare_data
                           (Revenue.init Samples.two_items Samples.one_product)))
                   "Total"%string _ _ eq_refl _)).
  vm_compute; reflexivity.
Defined.

Lemma prepare_data_keeps_items_witness :
  items_of (snd (Revenue.prepare_data
                   (Revenue.init Samples.two_items Samples.one_product)))
  = Samples.two_items.
Proof.
  apply (proj2 (proj2 (prepare_data_keeps_items Samples.two_items
                         Samples.one_product))).
  repeat constructor. simpl. tauto.
Defined.

Lemma revenue_tables_descend_witness :
  exists t,
    Revenue._analyze_by_category
      (fst (Revenue.prepare_data
              (Revenue.init Samples.priced_items Samples.one_product)))
      "Total"%string = Pandas.Ok t /\
    descending t.
Proof.
  eexists. split; [vm_compute; reflexivity|].
  apply (proj1 revenue_tables_descend
           (fst (Revenue.prepare_data
                   (Revenue.init Samples.priced_items Samples.one_product)))
           "Total"%string).
  vm_compute; reflexivity.
Defined.

(** ** Revenue analysis: the core metrics and the volume table *)

Section RevenueResults.
Import Pandas Revenue.
Local Open Scope Q_scope.
Local Open Scope list_scope.

Lemma run_after_prepare (items : list order_item) (prods : list product) :
  run_comprehensive_analysis (init items prods)
  = run_comprehensive_analysis (fst (prepare_data (init items prods))).
Proof.
  destruct (prepared_rows items prods) as (Hrows & _).
  unfold run_comprehensive_analysis at 1.
  cbn [init order_items_detailed].
  unfold run_comprehensive_analysis. now rewrite Hrows.
Qed.

Lemma results_core (self self' : RevenueAnalyzer) (res : analysis_results)
    (rows : list detailed) :
  order_items_detailed self = Some rows ->
  run_comprehensive_analysis self = Ok (self', res) ->
  total_revenue res = sum_skipna (map Total rows) /\
  average_order_value res = mean (map snd (groupby_sum order_key Total rows)) /\
  total_orders res = length (group_keys order_key rows) /\
  total_products res = length rows /\
  true_div (length rows) (length (group_keys order_key rows))
  = Ok (avg_items_per_order res) /\
  volume_analysis_data res
  = map (fun d => (d, volume_cm d)) (filter has_dimensions rows) /\
  missing_dimensional_data res
  = [count_missing (fun d => product_weight_g (row d)) rows;
     count_missing (fun d => product_length_cm (row d)) rows;
     count_missing (fun d => product_height_cm (row d)) rows;
     count_missing (fun d => product_width_cm (row d)) rows].
Proof.
  intros Hrows H. unfold run_comprehensive_analysis in H.
  rewrite Hrows in H. cbv zeta in H. rewrite Hrows in H.
  fold order_key in H. rewrite !length_groupby_sum in H.
  apply bind_ok in H as (avg & Eavg & H).
  apply bind_ok in H as (c1 & _ & H).
  apply bind_ok in H as (c2 & _ & H).
  apply bind_ok in H as (c3 & _ & H).
  apply bind_ok in H as (v1 & _ & H).
  apply bind_ok in H as (v2 & _ & H).
  apply bind_ok in H as (v3 & _ & H).
  apply Ok_inj in H. injection H as _ <-.
  cbn [total_revenue average_order_value total_orders total_products
       avg_items_per_order volume_analysis_data missing_dimensional_data].
  repeat split; auto.
Qed.

Lemma dropped_rows (rows : list detailed) :
  let dropped := (length rows - length (filter has_dimensions rows))%nat in
  let w := count_missing (fun d => product_weight_g (row d)) rows in
  let l := count_missing (fun d => product_length_cm (row d)) rows in
  let h := count_missing (fun d => product_height_cm (row d)) rows in
  let x := count_missing (fun d => product_width_cm (row d)) rows in
  (length (filter has_dimensions rows) <= length rows)%nat /\
  (w <= dropped /\ l <= dropped /\ h <= dropped /\ x <= dropped)%nat /\
  (dropped <= w + l + h + x)%nat.
Proof.
  cbv zeta. unfold count_missing.
  induction rows as [|d rows IH]; [simpl; lia|].
  unfold has_dimensions in *. cbn [filter length].
  destruct (product_weight_g (row d)), (product_length_cm (row d)),
    (product_height_cm (row d)), (product_width_cm (row d));
    cbn [length]; lia.
Qed.

(** [volume_analysis_data] keeps exactly the rows with all four dimensions,
    each with [Volume_cm] the product of width, height and length; every
    count of [missing_dimensional_data] is at most the number of rows dropped,
    which is at most their sum. *)
Theorem volume_rows_are_complete (items : list order_item) (prods : list product)
    (self' : RevenueAnalyzer) (res : analysis_results) :
  run_comprehensive_analysis (init items prods) = Ok (self', res) ->
  Forall (fun '(d, v) =>
            In d (results_detailed res) /\
            exists w h l,
              product_width_cm (row d) = Some w /\
              product_height_cm (row d) = Some h /\
              product_length_cm (row d) = Some l /\
              product_weight_g (row d) <> None /\
              v = Some (w * h * l))
         (volume_analysis_data res) /\
  let dropped :=
    (total_products res - length (volume_analysis_data res))%nat in
  Forall (fun c => (c <= dropped)%nat) (missing_dimensional_data res) /\
  (dropped <= list_sum (missing_dimensional_data res))%nat.
Proof.
  intros H. rewrite run_after_prepare in H.
  destruct (prepared_rows items prods) as (Hrows & _).
  set (rows := snd (prepare_data (init items prods))) in *.
  assert (Hdet : results_detailed res = rows).
  { unfold run_comprehensive_analysis in H.
    rewrite Hrows in H. cbv zeta in H. rewrite Hrows in H.
    apply bind_ok in H as (avg & _ & H).
    apply bind_ok in H as (c1 & _ & H).
    apply bind_ok in H as (c2 & _ & H).
    apply bind_ok in H as (c3 & _ & H).
    apply bind_ok in H as (v1 & _ & H).
    apply bind_ok in H as (v2 & _ & H).
    apply bind_ok in H as (v3 & _ & H).
    apply Ok_inj in H. injection H as _ <-. reflexivity. }
  destruct (results_core _ _ _ _ Hrows H)
    as (_ & _ & _ & Htp & _ & Hvol & Hmiss).
  rewrite Hvol, Hmiss, Htp, Hdet. split.
  - rewrite Forall_map. apply Forall_forall. intros d Hd.
    apply filter_In in Hd as (Hin & Hdim). split; [exact Hin|].
    unfold has_dimensions in Hdim. unfold volume_cm.
    destruct (product_weight_g (row d)); [|discriminate].
    destruct (product_length_cm (row d)) as [l|]; [|discriminate].
    destruct (product_height_cm (row d)) as [h|]; [|discriminate].
    destruct (product_width_cm (row d)) as [w|]; [|discriminate].
    exists w, h, l. repeat split; auto. discriminate.
  - cbv zeta. rewrite length_map.
    pose proof (dropped_rows rows) as D. cbv zeta in D.
    destruct D as (_ & (Hw & Hl & Hh & Hx) & Hsum).
    split.
    + repeat (apply Forall_cons; [assumption|]). apply Forall_nil.
    + unfold list_sum. cbn [fold_right]. lia.
Qed.

End RevenueResults.

Lemma volume_rows_are_complete_witness :
  exists self res,
    Revenue.run_comprehensive_analysis
      (Revenue.init Samples.two_items Samples.one_product)
    = Pandas.Ok (self, res) /\
    (Revenue.total_products res - length (Revenue.volume_analysis_data res)
     <= list_sum (Revenue.missing_dimensional_data res))%nat.
Proof.
  destruct (Revenue.run_comprehensive_analysis
              (Revenue.init Samples.two_items Samples.one_product))
    as [[self res]|e] eqn:E; [|vm_compute in E; discriminate].
  exists self, res. split; [reflexivity|].
  apply (proj2 (proj2 (volume_rows_are_complete _ _ _ _ E))).
Defined.

(** ** Delivery performance: the bar chart against the analyzer's counts *)

Section PerformanceMore.
Import Pandas Orders PerformanceChart.
Local Open Scope string_scope.
Local Open Scope list_scope.
Local Open Scope nat_scope.

Variable parse_timedelta : string -> option Z.
Variable to_timedelta : option string -> Series -> result Series.





End PerformanceMore.


(** ** The bubble map: which states get a bubble, and what it needs *)

Section GeoMore.
Import Pandas Heap Orders.
Local Open Scope string_scope.
Local Open Scope list_scope.

Variable parse_timedelta : string -> option Z.
Variable to_timedelta : option string -> Series -> result Series.














End GeoMore.



(** ** The heatmap: what a failed call leaves behind *)

Section HeatmapMore.
Import Pandas Heap Orders.
Local Open Scope string_scope.
Local Open Scope list_scope.

Variable parse_timedelta : string -> option Z.


End HeatmapMore.


(** ** The delayed orders of a stage *)

Section StageMore.
Import Pandas Orders.
Local Open Scope string_scope.
Local Open Scope list_scope.
Local Open Scope nat_scope.

Variable parse_timedelta : string -> option Z.
Variable to_timedelta : option string -> Series -> result Series.





End StageMore.

